(** * Research digest scripts: tracking, selection and ranking

    A shallow embedding of the three scripts of the repository,
    [paper_tracker.py], [news_monitor.py] and [paper_tracker_v2.py], and the
    properties of their select / rank / track pipelines.

    What lies outside the scripts is an input of the model:
    - a fetched document is represented by what the script's regular
      expressions extract from it (the match groups, in document order), or
      by its text where the script searches the text itself;
    - the gateway's answer, the reviewer's answer (of the shape its prompt
      asks for) and the clock are inputs of a run;
    - the tracking file is represented by what [json.load] makes of it: no
      file, a text that is not JSON, or an object with the keys the script
      reads, each of which may be missing; other JSON values are outside the
      model.

    Texts are [string]s, one character per element.  [lower] maps the ASCII
    capitals and leaves every other character as it is. *)

From Stdlib Require Import Ascii.
From stdpp Require Import gmap strings list sorting.

(** ** The Python library functions the scripts call *)

Module Py.

(** Exceptions that leave a function of the scripts. *)
Inductive exn :=
  | JSONDecodeError
  | CalledProcessError
  | TimeoutExpired
  | KeyError (key : string).

Inductive result (A : Type) :=
  | Return (a : A)
  | Raise (e : exn).
Arguments Return {A} a.
Arguments Raise {A} e.

(** A script runs on a world [W] (its tracking file and what it has printed
    and sent so far) and returns or raises. *)
Definition prog (W A : Type) : Type := W → W * result A.

Definition ret {W A} (a : A) : prog W A := λ w, (w, Return a).

Definition raise {W A} (e : exn) : prog W A := λ w, (w, Raise e).

Definition bind {W A B} (m : prog W A) (k : A → prog W B) : prog W B :=
  λ w, match m w with
       | (w', Return a) => k a w'
       | (w', Raise e) => (w', Raise e)
       end.

(** A computation that only returns or raises, as a step of a script. *)
Definition lift {W A} (x : result A) : prog W A := λ w, (w, x).

Definition and_then {A B} (x : result A) (k : A → result B) : result B :=
  match x with
  | Return a => k a
  | Raise e => Raise e
  end.

(** [c.lower()] on one character. *)
Definition lower_char (c : ascii) : ascii :=
  let n := nat_of_ascii c in
  if (65 <=? n)%nat && (n <=? 90)%nat then ascii_of_nat (n + 32) else c.

(** [s.lower()] *)
Fixpoint lower (s : string) : string :=
  match s with
  | "" => ""
  | String c s' => String (lower_char c) (lower s')
  end.

(** [needle in hay] on strings: [needle] occurs as a substring. *)
Fixpoint contains (needle hay : string) : bool :=
  String.prefix needle hay ||
  match hay with
  | "" => false
  | String _ hay' => contains needle hay'
  end.

(** [sum(1 for kw in keywords if kw in text)] *)
Definition count_keywords (keywords : list string) (text : string) : nat :=
  length (filter (λ kw, contains kw text = true) keywords).

(** [any(kw in text for kw in keywords)] *)
Definition any_keyword (keywords : list string) (text : string) : bool :=
  existsb (λ kw, contains kw text) keywords.

(** The characters [str.strip()] removes. *)
Definition is_space (c : ascii) : bool :=
  let n := nat_of_ascii c in
  ((9 <=? n)%nat && (n <=? 13)%nat) || ((28 <=? n)%nat && (n <=? 32)%nat).

(** [s.lstrip()] and [s.lstrip(c)] *)
Fixpoint lstrip_with (drop : ascii → bool) (s : string) : string :=
  match s with
  | "" => ""
  | String c s' => if drop c then lstrip_with drop s' else s
  end.

(** [s.rstrip()] and [s.rstrip(c)] *)
Fixpoint rstrip_with (drop : ascii → bool) (s : string) : string :=
  match s with
  | "" => ""
  | String c s' =>
      match rstrip_with drop s' with
      | "" => if drop c then "" else String c ""
      | r => String c r
      end
  end.

Definition strip (s : string) : string :=
  rstrip_with is_space (lstrip_with is_space s).

Definition is_char (c d : ascii) : bool := bool_decide (c = d).

(** [s.replace('\n', ' ')] *)
Fixpoint replace_newline (s : string) : string :=
  match s with
  | "" => ""
  | String c s' =>
      String (if is_char "010"%char c then " "%char else c) (replace_newline s')
  end.

(** [s[:n]] *)
Definition slice_to (n : nat) (s : string) : string := String.substring 0 n s.

(** [s.startswith(p)] *)
Definition startswith (p s : string) : bool := String.prefix p s.

(** [s.split(sep)] for a separator that is not empty: the pieces between the
    occurrences of [sep], found from the left and not overlapping.  [skip]
    counts the characters of a separator still to pass over, [cur] holds the
    piece being read, reversed. *)
Fixpoint split_go (sep : string) (skip : nat) (cur : string) (s : string)
  : list string :=
  match s with
  | "" => [String.rev cur]
  | String c s' =>
      match skip with
      | S k => split_go sep k cur s'
      | O =>
          if String.prefix sep s
          then String.rev cur :: split_go sep (String.length sep - 1) "" s'
          else split_go sep 0 (String c cur) s'
      end
  end.

Definition split (sep s : string) : list string := split_go sep 0 "" s.

(** [l[-1]] and [l[0]] for the list a split returns, which is never empty. *)
Definition last_piece (l : list string) : string := default "" (last l).
Definition first_piece (l : list string) : string := default "" (head l).

(** [l.sort(key=...)]: the sort is stable and compares keys with [<] only.
    [sort_by lt key l] inserts each element before the elements that were
    after it and whose key is not smaller. *)
Section Sort.
Context {A K : Type} (lt : K → K → bool) (key : A → K).

Fixpoint insert_by (x : A) (l : list A) : list A :=
  match l with
  | [] => [x]
  | y :: l' => if lt (key y) (key x) then y :: insert_by x l' else x :: l
  end.

Fixpoint sort_by (l : list A) : list A :=
  match l with
  | [] => []
  | x :: l' => insert_by x (sort_by l')
  end.
End Sort.

(** [a] may come before [b] in a list sorted by [key]: the key of [b] is not
    smaller. *)
Definition in_order {A K} (lt : K → K → bool) (key : A → K) (a b : A) : Prop :=
  lt (key b) (key a) = false.

(** [<] on the tuples [(int, str)] the scripts sort by. *)
Definition key_lt (k1 k2 : Z * string) : bool :=
  (k1.1 <? k2.1)%Z || ((k1.1 =? k2.1)%Z && String.ltb k1.2 k2.2).

End Py.

Import Py.

Notation "x <- m ;; k" := (bind m (λ x, k))
  (at level 100, m at next level, right associativity).
Notation "m ;; k" := (bind m (λ _, k))
  (at level 100, right associativity).

(** ** paper_tracker.py *)

Module PaperTracker.

Definition KEYWORDS : list string :=
  [ "multi-agent"; "multi agent"; "agent"; "collaboration"; "cooperation";
    "task planning"; "task allocation"; "coordination"; "llm"; "reasoning";
    "autonomous"; "swarm"; "collective"; "distributed"; "emergent" ].

(** The dict [parse_papers] builds for a paper. *)
Record paper := {
  id : string;
  link : string;
  title : string;
  abstract : string;
  score : nat
}.

(** The page of arXiv, as the three [re.findall] calls of [parse_papers]
    read it. *)
Record html := {
  ids : list string;
  titles : list string;
  abstracts : list string
}.

Definition parse_papers (h : html) : list paper :=
  imap (λ i paper_id,
    let title :=
      match titles h !! i with Some t => strip t | None => "Unknown" end in
    let abstract :=
      match abstracts h !! i with
      | Some a => slice_to 200 (strip (replace_newline a))
      | None => ""
      end in
    {| id := paper_id;
       link := "https://arxiv.org/" +:+ paper_id;
       title := title;
       abstract := abstract;
       score := count_keywords KEYWORDS (lower (title +:+ abstract)) |})
    (ids h).

(** [PAPERS_FILE]: absent, or not JSON, or the object [save_tracked] writes
    (a key may be missing from an object written by hand). *)
Record stored := {
  tracked : option (list string);
  last_run : option string
}.

Inductive file :=
  | Absent
  | Corrupt
  | Json (data : stored).

(** One line of the digest: rank, [title[:55]], link and number of stars. *)
Record entry := {
  rank : nat;
  heading : string;
  url : string;
  stars : nat
}.

(** The message of [main]: the date of its first line, an entry for each
    paper shown, and the count of its last line. *)
Record message := {
  date : string;
  entries : list entry;
  total : nat
}.

Inductive console :=
  | Banner (time : string)
  | Found (n : nat)
  | TelegramError
  | Sent
  | NotSent
  | Body (m : message)
  | NothingNew.

Inductive event :=
  | Print (line : console)
  | Post (m : message)
  | Write (f : file).

Record world := {
  disk : file;
  out : list event
}.

(** What a run meets outside: the page curl fetches ([None]: curl fails),
    the body of the gateway's answer ([None]: the request fails), and the
    clock. *)
Record run := {
  fetched : option html;
  reply : option string;
  now : string
}.

Definition emit (e : event) : prog world unit :=
  λ w, ({| disk := disk w; out := out w ++ [e] |}, Return ()).

Definition print (line : console) : prog world unit := emit (Print line).

Definition fetch_arxiv_list (r : run) : prog world html :=
  match fetched r with
  | Some h => ret h
  | None => raise CalledProcessError
  end.

Definition load_tracked : prog world (gset string * option string) :=
  λ w, match disk w with
       | Absent => ret (∅, None) w
       | Corrupt => raise JSONDecodeError w
       | Json data =>
           ret (list_to_set (default [] (tracked data)), last_run data) w
       end.

(** [list(tracked)] lists the set in an order Python does not specify;
    [elements] lists it in some order. *)
Definition save_tracked (r : run) (tracked : gset string) : prog world unit :=
  λ w,
    let f := Json {| tracked := Some (elements tracked);
                     last_run := Some (now r) |} in
    ({| disk := f; out := out w ++ [Write f] |}, Return ()).

(** [send_to_telegram]: the body of the answer, or [None] after printing the
    error. *)
Definition send_to_telegram (r : run) (m : message)
  : prog world (option string) :=
  emit (Post m) ;;
  match reply r with
  | Some body => ret (Some body)
  | None => print TelegramError ;; ret None
  end.

(** Truth value of [result] in [if result:]. *)
Definition truthy (result : option string) : bool :=
  match result with
  | Some body => negb (bool_decide (body = ""))
  | None => false
  end.

Definition sort_key (x : paper) : Z * string := ((- Z.of_nat (score x))%Z, id x).

(** [[p for p in papers if p['score'] > 0 and p['id'] not in tracked]],
    then [relevant.sort(...)]. *)
Definition select (tracked : gset string) (papers : list paper) : list paper :=
  sort_by key_lt sort_key
    (filter (λ p, 0 < score p ∧ id p ∉ tracked) papers).

(** The entry of paper [p] at position [i] of [relevant[:5]]. *)
Definition entry_of (i : nat) (p : paper) : entry :=
  {| rank := S i;
     heading := slice_to 55 (title p);
     url := link p;
     stars := score p |}.

Definition format_message (r : run) (relevant : list paper) : message :=
  {| date := now r;
     entries := imap entry_of (take 5 relevant);
     total := length relevant |}.

(** [for p in relevant: tracked.add(p['id'])] *)
Definition track (tracked : gset string) (relevant : list paper) : gset string :=
  foldl (λ t p, {[ id p ]} ∪ t) tracked relevant.

(** [main] is written in two parts.  [find_new] is [main] up to the count it
    prints: it returns the identifiers loaded and the sorted list [relevant].
    [notify] is the [if relevant: ... else: ...] that follows. *)
Definition find_new (r : run) : prog world (gset string * list paper) :=
  print (Banner (now r)) ;;
  loaded <- load_tracked ;;
  html <- fetch_arxiv_list r ;;
  let papers := parse_papers html in
  let relevant := select loaded.1 papers in
  print (Found (length relevant)) ;;
  ret (loaded.1, relevant).

Definition notify (r : run) (tracked : gset string) (relevant : list paper)
  : prog world unit :=
  match relevant with
  | _ :: _ =>
      let message := format_message r relevant in
      result <- send_to_telegram r message ;;
      (if truthy result
       then print Sent
       else print NotSent ;; print (Body message)) ;;
      save_tracked r (track tracked relevant)
  | [] => print NothingNew
  end.

Definition main (r : run) : prog world unit :=
  found <- find_new r ;;
  notify r found.1 found.2.

(** A run from the shell: the file as it is, nothing printed yet. *)
Definition start (f : file) : world := {| disk := f; out := [] |}.

Definition exec (r : run) (f : file) : world * result unit := main r (start f).

(** The file after the run, and the file after several runs one after the
    other. *)
Definition file_after (f : file) (r : run) : file := disk (exec r f).1.

Definition file_after_all (f : file) (rs : list run) : file :=
  foldl file_after f rs.

(** The messages a run hands to the gateway or prints in its place. *)
Definition digests (evs : list event) : list message :=
  omap (λ e, match e with
             | Post m => Some m
             | Print (Body m) => Some m
             | _ => None
             end) evs.

Definition digests_of (r : run) (f : file) : list message :=
  digests (out (exec r f).1).

(** The files a run writes. *)
Definition writes (evs : list event) : list file :=
  omap (λ e, match e with Write f => Some f | _ => None end) evs.

(** [a] is ranked before [b]: a higher score, or the same score and an
    identifier that is not greater. *)
Definition ranked (a b : paper) : Prop :=
  score b < score a ∨ (score a = score b ∧ String.le (id a) (id b)).

(** The identifiers a file holds: what [load_tracked] reads from it. *)
Definition tracked_in (f : file) : gset string :=
  match f with
  | Json data => list_to_set (default [] (tracked data))
  | _ => ∅
  end.

(** The paper with identifier [i] has an entry in [m]. *)
Definition shows (m : message) (i : string) : Prop :=
  ("https://arxiv.org/" +:+ i) ∈ (url <$> entries m).

(** The papers a run selects: the list [relevant] of [main], and none when
    [main] raises before it has the list. *)
Definition selected (r : run) (f : file) : list paper :=
  match (find_new r (start f)).2 with
  | Return found => found.2
  | Raise _ => []
  end.

(** The same run with another answer of the gateway. *)
Definition with_reply (r : run) (answer : option string) : run :=
  {| fetched := fetched r; reply := answer; now := now r |}.

End PaperTracker.

(** ** news_monitor.py *)

Module NewsMonitor.

Definition KEYWORDS : list string :=
  [ "multi-agent"; "multi agent"; "agent"; "collaboration"; "cooperation";
    "task planning"; "task allocation"; "coordination"; "llm"; "reasoning";
    "autonomous"; "swarm"; "collective"; "distributed"; "emergent";
    "reinforcement learning"; "foundation model"; "generative ai" ].

(** The four kinds of dict the parsers build.  The ['source'] of a story is
    ['Hacker News'] and that of a repo is ['GitHub Trending']. *)
Inductive item :=
  | Story (title url : string) (points : nat)
  | Repo (name url : string) (stars : nat)
  | Update (source title url detail : string)
  | Article (source title url : string).

(** [x['url']] *)
Definition url (x : item) : string :=
  match x with
  | Story _ u _ | Repo _ u _ | Update _ _ u _ | Article _ _ u => u
  end.

(** The groups of one match of the regular expression of each parser; a
    number stands for the digits matched.  A match of the trending page
    comes with the page of its repository as [fetch_url] gets it. *)
Record hn_match := {
  hn_url : string;
  hn_title : string;
  hn_points : nat
}.

Record gh_match := {
  repo_url : string;
  repo_name : string;
  stars : nat;
  desc : option string
}.

Record blog_match := {
  post_url : string;
  post_title : string
}.

(** [CONFIG_FILE]: absent, or not JSON, or an object in which each key may be
    missing. *)
Record config := {
  tracked_hn : option (list string);
  tracked_gh : option (list string);
  tracked_conf : option (list string);
  tracked_blog : option (list string);
  last_run : option string
}.

Inductive file :=
  | Absent
  | Corrupt
  | Json (data : config).

(** The message of [format_message]: its time and, for each section, the
    items shown in it, in order. *)
Record message := {
  time : string;
  news : list item;
  github : list item;
  conferences : list item;
  blog : list item
}.

Inductive console :=
  | Banner (time : string)
  | FetchFailed
  | Fetching (what : string)
  | Found (hn gh conf blog : nat)
  | TelegramError
  | Sent
  | NotSent
  | Body (m : message)
  | NothingNew.

Inductive event :=
  | Print (line : console)
  | Post (m : message)
  | Write (f : file).

Record world := {
  disk : file;
  out : list event
}.

(** What a run meets outside: each document as curl fetches it ([None]: the
    fetch fails), the gateway's answer and the clock. *)
Record run := {
  hacker_news : option (list hn_match);
  trending : option (list gh_match);
  neurips : option string;
  iclr : option string;
  lilianweng : option (list blog_match);
  ruder : option (list blog_match);
  reply : option string;
  now : string
}.

Definition emit (e : event) : prog world unit :=
  λ w, ({| disk := disk w; out := out w ++ [e] |}, Return ()).

Definition print (line : console) : prog world unit := emit (Print line).

(** [fetch_url]: the document, or [None] after printing the failure. *)
Definition fetch_url {A} (doc : option A) : prog world (option A) :=
  match doc with
  | Some d => ret (Some d)
  | None => print FetchFailed ;; ret None
  end.

Definition parse_hacker_news (r : run) : prog world (list item) :=
  html <- fetch_url (hacker_news r) ;;
  match html with
  | None => ret []
  | Some matches =>
      let stories :=
        omap (λ m,
          if any_keyword ["ai"; "llm"; "agent"; "gpt"; "neural"]
               (lower (hn_title m))
          then Some (Story (hn_title m)
                       (if startswith "http" (hn_url m) then hn_url m
                        else "https://news.ycombinator.com/" +:+ hn_url m)
                       (hn_points m))
          else None) matches in
      ret (take 5 stories)
  end.

Fixpoint trending_repos (matches : list gh_match) : prog world (list item) :=
  match matches with
  | [] => ret []
  | m :: matches' =>
      d <- fetch_url (desc m) ;;
      repos <- trending_repos matches' ;;
      match d with
      | Some text =>
          if negb (bool_decide (text = ""))
             && any_keyword KEYWORDS (lower (repo_name m +:+ text))
          then ret (Repo (strip (repo_name m))
                      ("https://github.com" +:+ repo_url m) (stars m) :: repos)
          else ret repos
      | None => ret repos
      end
  end.

Definition parse_github_trending (r : run) : prog world (list item) :=
  html <- fetch_url (trending r) ;;
  match html with
  | None => ret []
  | Some matches =>
      repos <- trending_repos matches ;;
      ret (take 5 repos)
  end.

(** One conference page: an update when the page mentions a word. *)
Definition conference (source link : string) (doc : option string)
  : prog world (list item) :=
  html <- fetch_url doc ;;
  match html with
  | Some text =>
      if negb (bool_decide (text = ""))
         && (contains "accepted" (lower text) || contains "deadline" (lower text))
      then ret [Update source "会议更新" link "有新的公告或更新"]
      else ret []
  | None => ret []
  end.

Definition parse_conferences (r : run) : prog world (list item) :=
  a <- conference "NeurIPS 2025" "https://nips.cc/Conferences/2025" (neurips r) ;;
  b <- conference "ICLR 2025" "https://iclr.cc/conference/2025" (iclr r) ;;
  ret (take 5 (a ++ b)).

(** The posts of one blog. *)
Definition blog_posts (name link : string) (doc : option (list blog_match))
  : prog world (list item) :=
  html <- fetch_url doc ;;
  match html with
  | Some matches =>
      ret (omap (λ m,
        let title := post_title m in
        if (10 <? String.length title)%nat
           && negb (startswith "http" title)
           && any_keyword ["agent"; "llm"; "multi"; "reasoning"; "planning"]
                (lower title)
        then Some (Article name (slice_to 80 (strip title))
                     (if startswith "http" (post_url m) then post_url m
                      else rstrip_with (is_char "/") link +:+ "/"
                           +:+ lstrip_with (is_char "/") (post_url m)))
        else None) matches)
  | None => ret []
  end.

Definition parse_ai_blogs (r : run) : prog world (list item) :=
  a <- blog_posts "Lilac Weng" "https://lilianweng.github.io/" (lilianweng r) ;;
  b <- blog_posts "Sebastian Ruder" "https://ruder.io/" (ruder r) ;;
  ret (take 5 (a ++ b)).

(** [send_to_telegram]: the body of the answer, or [None] after printing the
    error. *)
Definition send_to_telegram (r : run) (m : message)
  : prog world (option string) :=
  emit (Post m) ;;
  match reply r with
  | Some body => ret (Some body)
  | None => print TelegramError ;; ret None
  end.

Definition truthy (result : option string) : bool :=
  match result with
  | Some body => negb (bool_decide (body = ""))
  | None => false
  end.

Definition load_config : prog world config :=
  λ w, match disk w with
       | Absent =>
           ret {| tracked_hn := Some []; tracked_gh := Some [];
                  tracked_conf := Some []; tracked_blog := Some [];
                  last_run := None |} w
       | Corrupt => raise JSONDecodeError w
       | Json data => ret data w
       end.

Definition save_config (data : config) : prog world unit :=
  λ w, ({| disk := Json data; out := out w ++ [Write (Json data)] |}, Return ()).

(** The title a story is shown with. *)
Definition shorten (x : item) : item :=
  match x with
  | Story t u p => Story (slice_to 60 t) u p
  | _ => x
  end.

Definition format_message (r : run) (news_items github_items conf_items blog_items : list item)
  : message :=
  {| time := now r;
     news := shorten <$> take 5 news_items;
     github := take 5 github_items;
     conferences := take 3 conf_items;
     blog := take 3 blog_items |}.

(** [[n for n in items if n['url'] not in config[key]]]: the key is looked
    up once for each item. *)
Definition new_items (key : string) (tracked : option (list string))
    (items : list item) : result (list item) :=
  match items, tracked with
  | [], _ => Return []
  | _ :: _, None => Raise (KeyError key)
  | _ :: _, Some seen => Return (filter (λ n, url n ∉ seen) items)
  end.

(** [for n in new: config[key].append(n['url'])] *)
Definition append_urls (key : string) (tracked : option (list string))
    (new : list item) : result (option (list string)) :=
  match new, tracked with
  | [], _ => Return tracked
  | _ :: _, None => Raise (KeyError key)
  | _ :: _, Some seen => Return (Some (seen ++ (url <$> new)))
  end.

(** The same for ['tracked_blog'], which is created when missing. *)
Definition append_blog_urls (tracked : option (list string)) (new : list item)
  : option (list string) :=
  match new with
  | [] => tracked
  | _ :: _ => Some (default [] tracked ++ (url <$> new))
  end.

(** The four lists of new items of [main]. *)
Record selection := {
  new_hn : list item;
  new_gh : list item;
  new_conf : list item;
  new_blog : list item
}.

(** [main] is written in two parts.  [find_new] is [main] up to the counts
    it prints: it returns the dict loaded and the four lists of new items.
    [notify] is the [if new_hn or ...: ... else: ...] that follows. *)
Definition find_new (r : run) : prog world (config * selection) :=
  print (Banner (now r)) ;;
  config <- load_config ;;
  print (Fetching "Hacker News") ;;
  hn_news <- parse_hacker_news r ;;
  print (Fetching "GitHub Trending") ;;
  gh_repos <- parse_github_trending r ;;
  print (Fetching "conferences") ;;
  conf_updates <- parse_conferences r ;;
  print (Fetching "blogs") ;;
  blog_posts <- parse_ai_blogs r ;;
  new_hn <- lift (new_items "tracked_hn" (tracked_hn config) hn_news) ;;
  new_gh <- lift (new_items "tracked_gh" (tracked_gh config) gh_repos) ;;
  new_conf <- lift (new_items "tracked_conf" (tracked_conf config) conf_updates) ;;
  new_blog <- lift (new_items "tracked_blog"
                      (Some (default [] (tracked_blog config))) blog_posts) ;;
  print (Found (length new_hn) (length new_gh) (length new_conf) (length new_blog)) ;;
  ret (config, {| new_hn := new_hn; new_gh := new_gh;
                  new_conf := new_conf; new_blog := new_blog |}).

Definition notify (r : run) (config : config) (s : selection) : prog world unit :=
  match new_hn s ++ new_gh s ++ new_conf s ++ new_blog s with
  | _ :: _ =>
      let message :=
        format_message r (new_hn s) (new_gh s) (new_conf s) (new_blog s) in
      result <- send_to_telegram r message ;;
      (if truthy result
       then print Sent
       else print NotSent ;; print (Body message)) ;;
      hn <- lift (append_urls "tracked_hn" (tracked_hn config) (new_hn s)) ;;
      gh <- lift (append_urls "tracked_gh" (tracked_gh config) (new_gh s)) ;;
      conf <- lift (append_urls "tracked_conf" (tracked_conf config) (new_conf s)) ;;
      save_config {| tracked_hn := hn; tracked_gh := gh; tracked_conf := conf;
                     tracked_blog :=
                       append_blog_urls (tracked_blog config) (new_blog s);
                     last_run := Some (now r) |}
  | [] => print NothingNew
  end.

Definition main (r : run) : prog world unit :=
  found <- find_new r ;;
  notify r found.1 found.2.

Definition start (f : file) : world := {| disk := f; out := [] |}.

Definition exec (r : run) (f : file) : world * result unit := main r (start f).

Definition file_after (f : file) (r : run) : file := disk (exec r f).1.

Definition file_after_all (f : file) (rs : list run) : file :=
  foldl file_after f rs.

Definition digests (evs : list event) : list message :=
  omap (λ e, match e with
             | Post m => Some m
             | Print (Body m) => Some m
             | _ => None
             end) evs.

Definition digests_of (r : run) (f : file) : list message :=
  digests (out (exec r f).1).

(** The four categories, and for each the identifiers a file holds and the
    identifiers a message shows. *)
Inductive category := HN | GH | Conf | Blog.

Definition tracked_of (c : category) (data : config) : list string :=
  default [] (match c with
              | HN => tracked_hn data
              | GH => tracked_gh data
              | Conf => tracked_conf data
              | Blog => tracked_blog data
              end).

Definition tracked_in (c : category) (f : file) : list string :=
  match f with
  | Json data => tracked_of c data
  | _ => []
  end.

Definition section (c : category) (m : message) : list item :=
  match c with
  | HN => news m
  | GH => github m
  | Conf => conferences m
  | Blog => blog m
  end.

Definition shows (c : category) (m : message) (u : string) : Prop :=
  u ∈ (url <$> section c m).

Definition part (c : category) (s : selection) : list item :=
  match c with
  | HN => new_hn s
  | GH => new_gh s
  | Conf => new_conf s
  | Blog => new_blog s
  end.

(** The items a run selects in a category: the lists of new items of
    [main], and none when [main] raises before it has the lists. *)
Definition selected (c : category) (r : run) (f : file) : list item :=
  match (find_new r (start f)).2 with
  | Return found => part c found.2
  | Raise _ => []
  end.

(** The files a run writes. *)
Definition writes (evs : list event) : list file :=
  omap (λ e, match e with Write f => Some f | _ => None end) evs.

(** Events that neither hand over a digest nor write the file. *)
Definition quiet (evs : list event) : Prop := digests evs = [] ∧ writes evs = [].

(** On file [f], the step [m] ends with [res], leaves the file as it is and
    is quiet. *)
Definition yields {A} (f : file) (m : prog world A) (res : result A) : Prop :=
  ∀ w, disk w = f →
    ∃ evs, quiet evs ∧ m w = ({| disk := f; out := out w ++ evs |}, res).

(** The dict [load_config] returns on a file that is JSON or absent. *)
Definition loaded (f : file) : config :=
  match f with
  | Json data => data
  | _ => {| tracked_hn := Some []; tracked_gh := Some [];
            tracked_conf := Some []; tracked_blog := Some [];
            last_run := None |}
  end.

(** The items the parser of a category returns in a run. *)
Definition parser (c : category) (r : run) : prog world (list item) :=
  match c with
  | HN => parse_hacker_news r
  | GH => parse_github_trending r
  | Conf => parse_conferences r
  | Blog => parse_ai_blogs r
  end.

Definition candidates (c : category) (r : run) : list item :=
  match (parser c r (start Absent)).2 with
  | Return items => items
  | Raise _ => []
  end.

(** What [find_new] ends with, from the file and the items parsed. *)
Definition found (r : run) (f : file) : result (config * selection) :=
  match f with
  | Corrupt => Raise JSONDecodeError
  | _ =>
      let config := loaded f in
      and_then (new_items "tracked_hn" (tracked_hn config) (candidates HN r)) (λ a,
      and_then (new_items "tracked_gh" (tracked_gh config) (candidates GH r)) (λ b,
      and_then (new_items "tracked_conf" (tracked_conf config) (candidates Conf r)) (λ c,
      and_then (new_items "tracked_blog" (Some (default [] (tracked_blog config)))
                  (candidates Blog r)) (λ d,
      Return (config, {| new_hn := a; new_gh := b; new_conf := c; new_blog := d |})))))
  end.

(** The dict [notify] saves. *)
Definition updated (data : config) (s : selection) (time : string) : config :=
  {| tracked_hn := append_blog_urls (tracked_hn data) (new_hn s);
     tracked_gh := append_blog_urls (tracked_gh data) (new_gh s);
     tracked_conf := append_blog_urls (tracked_conf data) (new_conf s);
     tracked_blog := append_blog_urls (tracked_blog data) (new_blog s);
     last_run := Some time |}.

(** Two runs fetch the same documents. *)
Definition same_documents (r1 r2 : run) : Prop :=
  hacker_news r1 = hacker_news r2 ∧ trending r1 = trending r2
  ∧ neurips r1 = neurips r2 ∧ iclr r1 = iclr r2
  ∧ lilianweng r1 = lilianweng r2 ∧ ruder r1 = ruder r2.

(** The same run with another answer of the gateway. *)
Definition with_reply (r : run) (answer : option string) : run :=
  {| hacker_news := hacker_news r; trending := trending r;
     neurips := neurips r; iclr := iclr r;
     lilianweng := lilianweng r; ruder := ruder r;
     reply := answer; now := now r |}.

End NewsMonitor.

(** ** paper_tracker_v2.py *)

Module PaperTrackerV2.

Definition arxiv_categories : list string := ["cs.AI"; "cs.LG"; "cs.MA"].

Definition keywords : list string :=
  [ "agent"; "multi-agent"; "collaboration"; "coordination";
    "task planning"; "llm"; "reasoning"; "autonomous"; "swarm";
    "collective"; "reinforcement"; "hierarchical"; "distributed";
    "emergent"; "foundation model" ].

Definition max_papers : nat := 20.

(** The dict [fetch_arxiv_papers] builds for a paper. *)
Record paper := {
  id : string;
  title : string;
  summary : string;
  authors : list string;
  published : string;
  url : string;
  raw_score : nat;
  category : string
}.

(** One [<entry>] of the feed, as the regular expressions of the loop read
    it: the group matched, or [None] when there is no match. *)
Record entry := {
  id_match : option string;
  title_match : option string;
  summary_match : option string;
  names : list string;
  published_match : option string
}.

(** What curl does for one category: it runs out of time, or ends with the
    entries of its output (none when the request failed). *)
Inductive curl :=
  | TimedOut
  | Stdout (entries : list entry).

(** One review of the answer of the reviewer, and the answer, of the shape
    the prompt asks for: an object with the keys it has among [reviews],
    [summary] and [top_pick]; each review an object with a string under [id]
    and, where it has the key, a string under [should_read] and under
    [key_insight] and a list of strings under [tags].  On an answer of
    another shape (a review without [id], a [key_insight] that is null)
    [format_briefing] raises [KeyError] or [TypeError] before anything is
    posted; the runs of this model are the runs with no answer or an answer
    of this shape. *)
Record review := {
  review_id : string;
  should_read : option string;
  tags : option (list string);
  key_insight : option string
}.

Record review_result := {
  reviews : option (list review);
  overview : option string;
  top_pick : option string
}.

(** The reviewer: the call raises (time-out, or an answer that is not JSON),
    or gives no answer (exit status, no object in the output), or gives an
    object. *)
Inductive reviewer :=
  | Failed
  | Nothing
  | Answer (a : review_result).

Inductive icon := ThreeStars | OneStar | Circle.

(** One paper of the briefing: with a review, or with its raw score. *)
Inductive line :=
  | Reviewed (i : icon) (heading published category tags insight link : string)
  | Plain (stars : nat) (heading published link : string).

Record briefing := {
  date : string;
  found : nat;
  intro : option string;
  lines : list line
}.

Inductive console :=
  | Banner (time : string)
  | Rule
  | Step (n : nat)
  | Count (n : nat)
  | NoPapers
  | ReviewFailed
  | ReviewDone
  | ReviewUnavailable
  | TelegramError
  | Sent
  | NotSent
  | Body (b : briefing).

Inductive event :=
  | Print (line : console)
  | Post (b : briefing).

Definition world : Type := list event.

Record run := {
  feed : string → curl;
  claude : reviewer;
  delivered : bool;
  now : string
}.

Definition emit (e : event) : prog world unit := λ w, (w ++ [e], Return ()).

Definition print (line : console) : prog world unit := emit (Print line).

(** The body of the loop over the entries of one category. *)
Definition paper_of (category : string) (e : entry) : option paper :=
  match id_match e with
  | None => None
  | Some raw_id =>
      let paper_id := first_piece (split "v" (last_piece (split "/abs/" raw_id))) in
      let title :=
        match title_match e with
        | Some t => strip (replace_newline t)
        | None => "No title"
        end in
      let summary :=
        match summary_match e with
        | Some s => strip (replace_newline s)
        | None => ""
        end in
      let published := default "2026-01-01" (published_match e) in
      let text := lower (title +:+ " " +:+ summary) in
      let score := count_keywords keywords text in
      if bool_decide (0 < score)
      then Some {| id := paper_id;
                   title := title;
                   summary := slice_to 400 summary;
                   authors := take 3 (names e);
                   published := published;
                   url := "https://arxiv.org/abs/" +:+ paper_id;
                   raw_score := score;
                   category := category |}
      else None
  end.

(** The loop over the categories: the papers found, in order. *)
Fixpoint collect (r : run) (categories : list string) : prog world (list paper) :=
  match categories with
  | [] => ret []
  | category :: rest =>
      match feed r category with
      | TimedOut => raise TimeoutExpired
      | Stdout entries =>
          papers <- collect r rest ;;
          ret (omap (paper_of category) entries ++ papers)
      end
  end.

Definition sort_key (x : paper) : Z * string :=
  ((- Z.of_nat (raw_score x))%Z, published x).

(** The loop that keeps the first paper of each identifier. *)
Fixpoint unique (seen : gset string) (papers : list paper) : list paper :=
  match papers with
  | [] => []
  | p :: papers' =>
      if decide (id p ∈ seen) then unique seen papers'
      else p :: unique ({[ id p ]} ∪ seen) papers'
  end.

Definition fetch_arxiv_papers (r : run) : prog world (list paper) :=
  papers <- collect r arxiv_categories ;;
  ret (take max_papers (unique ∅ (sort_by key_lt sort_key papers))).

(** [review_with_claude_code] on a list that is not empty. *)
Definition review_with_claude_code (r : run) : prog world (option review_result) :=
  match claude r with
  | Failed => print ReviewFailed ;; ret None
  | Nothing => ret None
  | Answer a => ret (Some a)
  end.

(** Truth value of the dict of an answer: it has a key. *)
Definition has_key (a : review_result) : bool :=
  bool_decide (is_Some (reviews a) ∨ is_Some (overview a) ∨ is_Some (top_pick a)).

Definition truthy (result : option review_result) : bool :=
  match result with
  | Some a => has_key a
  | None => false
  end.

(** [{r['id']: r for r in ...}.get(i, {})]: the last review of identifier [i]. *)
Definition review_of (rs : list review) (i : string) : option review :=
  last (filter (λ x, review_id x = i) rs).

(** [', '.join(l)] *)
Fixpoint join (l : list string) : string :=
  match l with
  | [] => ""
  | [x] => x
  | x :: l' => x +:+ ", " +:+ join l'
  end.

Definition reviewed_line (rs : list review) (p : paper) : line :=
  let rv := review_of rs (id p) in
  let should := default "maybe" (rv ≫= should_read) in
  let i := if bool_decide (should = "yes") then ThreeStars
           else if bool_decide (should = "maybe") then OneStar
           else Circle in
  Reviewed i (slice_to 70 (title p)) (published p) (category p)
    (join (default [] (rv ≫= tags)))
    (slice_to 100 (default "" (rv ≫= key_insight)))
    (url p).

Definition plain_line (p : paper) : line :=
  Plain (raw_score p `min` 5) (slice_to 60 (title p)) (published p) (url p).

(** [format_briefing] on a list that is not empty. *)
Definition format_briefing (r : run) (papers : list paper)
    (result : option review_result) : briefing :=
  match result with
  | Some a =>
      if has_key a
      then {| date := now r; found := length papers;
              intro := Some (default "" (overview a));
              lines := reviewed_line (default [] (reviews a)) <$> papers |}
      else {| date := now r; found := length papers; intro := None;
              lines := plain_line <$> take 5 papers |}
  | None => {| date := now r; found := length papers; intro := None;
               lines := plain_line <$> take 5 papers |}
  end.

Definition send_to_telegram (r : run) (b : briefing) : prog world bool :=
  emit (Post b) ;;
  if delivered r then ret true else print TelegramError ;; ret false.

Definition main (r : run) : prog world unit :=
  print (Banner (now r)) ;;
  print Rule ;;
  print (Step 1) ;;
  papers <- fetch_arxiv_papers r ;;
  print (Count (length papers)) ;;
  match papers with
  | [] => print NoPapers
  | _ :: _ =>
      print (Step 2) ;;
      review_result <- review_with_claude_code r ;;
      (if truthy review_result then print ReviewDone else print ReviewUnavailable) ;;
      print (Step 3) ;;
      let briefing := format_briefing r papers review_result in
      print (Step 4) ;;
      ok <- send_to_telegram r briefing ;;
      if ok then print Sent else print NotSent ;; print (Body briefing)
  end.

Definition exec (r : run) : world * result unit := main r [].

Definition digests (evs : list event) : list briefing :=
  omap (λ e, match e with
             | Post b => Some b
             | Print (Body b) => Some b
             | _ => None
             end) evs.

Definition digests_of (r : run) : list briefing := digests (exec r).1.

Definition link_of (l : line) : string :=
  match l with
  | Reviewed _ _ _ _ _ _ u => u
  | Plain _ _ _ u => u
  end.

(** Three ways to rank [a] before [b], each by a higher score first: then
    by the older date; then by the smaller identifier; then by the newer date
    and, for one date, the smaller identifier. *)
Definition oldest_first (a b : paper) : Prop :=
  raw_score b < raw_score a
  ∨ (raw_score a = raw_score b ∧ String.le (published a) (published b)).

Definition by_identifier (a b : paper) : Prop :=
  raw_score b < raw_score a
  ∨ (raw_score a = raw_score b ∧ String.le (id a) (id b)).

Definition newest_first (a b : paper) : Prop :=
  raw_score b < raw_score a
  ∨ (raw_score a = raw_score b
     ∧ ((String.le (published b) (published a) ∧ published a ≠ published b)
        ∨ (published a = published b ∧ String.le (id a) (id b)))).

(** The papers a run collects, before they are sorted. *)
Definition collected (r : run) : list paper :=
  match collect r arxiv_categories [] with
  | (_, Return papers) => papers
  | (_, Raise _) => []
  end.

(** The answer [format_briefing] is given. *)
Definition review_result_of (r : run) : option review_result :=
  match claude r with
  | Answer a => Some a
  | _ => None
  end.

(** The papers a run selects: what [fetch_arxiv_papers] returns. *)
Definition selected (r : run) : list paper :=
  match fetch_arxiv_papers r [] with
  | (_, Return papers) => papers
  | (_, Raise _) => []
  end.

End PaperTrackerV2.

(** ** Runs to evaluate the scripts on *)

Module Samples.

(** A page of three papers, of scores 3, 1 and 0. *)
Definition arxiv_page : PaperTracker.html :=
  {| PaperTracker.ids := ["2401.00002"; "2401.00001"; "2401.00003"];
     PaperTracker.titles :=
       [" Multi-Agent LLM planning "; "Swarm robots"; "Cooking pasta"];
     PaperTracker.abstracts := ["agents that reason"; "a swarm"] |}.

(** The page a day later: one more paper, and the first with another title. *)
Definition arxiv_page_later : PaperTracker.html :=
  {| PaperTracker.ids := ["2401.00004"; "2401.00002"; "2401.00001"];
     PaperTracker.titles :=
       ["Emergent coordination"; "Agents, agents, agents and LLM reasoning";
        "Swarm robots"];
     PaperTracker.abstracts := [] |}.

(** A page of seven relevant papers. *)
Definition arxiv_page_long : PaperTracker.html :=
  {| PaperTracker.ids :=
       ["2401.00011"; "2401.00012"; "2401.00013"; "2401.00014";
        "2401.00015"; "2401.00016"; "2401.00017"];
     PaperTracker.titles :=
       ["agent"; "swarm"; "llm agent"; "reasoning"; "emergent swarm";
        "autonomous"; "collective"];
     PaperTracker.abstracts := [] |}.

Definition paper_run (h : option PaperTracker.html) (answer : option string)
  : PaperTracker.run :=
  {| PaperTracker.fetched := h;
     PaperTracker.reply := answer;
     PaperTracker.now := "2026-01-05T08:00" |}.

(** The sixth paper selected from [arxiv_page_long]. *)
Definition sixth : PaperTracker.paper :=
  {| PaperTracker.id := "2401.00016";
     PaperTracker.link := "https://arxiv.org/2401.00016";
     PaperTracker.title := "autonomous";
     PaperTracker.abstract := "";
     PaperTracker.score := 1 |}.

(** A page that lists the identifier 2401.00029 twice, first with an
    abstract and at the end without one, and five other papers between. *)
Definition arxiv_page_repeat : PaperTracker.html :=
  {| PaperTracker.ids :=
       ["2401.00029"; "2401.00022"; "2401.00023"; "2401.00024";
        "2401.00025"; "2401.00026"; "2401.00029"];
     PaperTracker.titles :=
       ["swarm"; "agent"; "llm"; "reasoning"; "emergent"; "autonomous"; "swarm"];
     PaperTracker.abstracts := ["a collective of agents"] |}.

(** The second paper of [arxiv_page_repeat] with the identifier 2401.00029. *)
Definition repeated : PaperTracker.paper :=
  {| PaperTracker.id := "2401.00029";
     PaperTracker.link := "https://arxiv.org/2401.00029";
     PaperTracker.title := "swarm";
     PaperTracker.abstract := "";
     PaperTracker.score := 1 |}.

(** The paper of score 0 of [arxiv_page]. *)
Definition pasta : PaperTracker.paper :=
  {| PaperTracker.id := "2401.00003";
     PaperTracker.link := "https://arxiv.org/2401.00003";
     PaperTracker.title := "Cooking pasta";
     PaperTracker.abstract := "";
     PaperTracker.score := 0 |}.

(** A run of the monitor: a story and a post, one conference page, a
    trending page that cannot be fetched. *)
Definition news_run (answer : option string) : NewsMonitor.run :=
  {| NewsMonitor.hacker_news :=
       Some [ {| NewsMonitor.hn_url := "item?id=1";
                 NewsMonitor.hn_title := "New LLM agent";
                 NewsMonitor.hn_points := 10 |};
              {| NewsMonitor.hn_url := "http://x.org/a";
                 NewsMonitor.hn_title := "Cooking";
                 NewsMonitor.hn_points := 3 |} ];
     NewsMonitor.trending := None;
     NewsMonitor.neurips := None;
     NewsMonitor.iclr := Some "Deadline soon";
     NewsMonitor.lilianweng :=
       Some [ {| NewsMonitor.post_url := "/posts/agent/";
                 NewsMonitor.post_title := "LLM powered agents" |} ];
     NewsMonitor.ruder := None;
     NewsMonitor.reply := answer;
     NewsMonitor.now := "2026-01-05T08:00" |}.

(** The same a day later: one more story. *)
Definition news_run_later : NewsMonitor.run :=
  {| NewsMonitor.hacker_news :=
       Some [ {| NewsMonitor.hn_url := "item?id=2";
                 NewsMonitor.hn_title := "GPT news";
                 NewsMonitor.hn_points := 7 |};
              {| NewsMonitor.hn_url := "item?id=1";
                 NewsMonitor.hn_title := "New LLM agent, again";
                 NewsMonitor.hn_points := 99 |} ];
     NewsMonitor.trending := None;
     NewsMonitor.neurips := None;
     NewsMonitor.iclr := None;
     NewsMonitor.lilianweng := None;
     NewsMonitor.ruder := None;
     NewsMonitor.reply := Some "ok";
     NewsMonitor.now := "2026-01-06T08:00" |}.

(** A feed entry with a title and a date. *)
Definition feed_entry (i t d : string) : PaperTrackerV2.entry :=
  {| PaperTrackerV2.id_match := Some ("http://arxiv.org/abs/" +:+ i);
     PaperTrackerV2.title_match := Some t;
     PaperTrackerV2.summary_match := None;
     PaperTrackerV2.names := ["A. Author"];
     PaperTrackerV2.published_match := Some d |}.

(** A run of the second tracker: two papers of score 1 in [cs.AI], the
    first of 2 January with identifier 2601.00001, the second of 1 January
    with identifier 2601.00002; nothing in the other categories. *)
Definition feed_run : PaperTrackerV2.run :=
  {| PaperTrackerV2.feed := λ c,
       if bool_decide (c = "cs.AI")
       then PaperTrackerV2.Stdout
              [ feed_entry "2601.00001v1" "agent one" "2026-01-02";
                feed_entry "2601.00002v1" "agent two" "2026-01-01" ]
       else PaperTrackerV2.Stdout [];
     PaperTrackerV2.claude := PaperTrackerV2.Nothing;
     PaperTrackerV2.delivered := true;
     PaperTrackerV2.now := "2026-01-05" |}.

Definition paper_one : PaperTrackerV2.paper :=
  {| PaperTrackerV2.id := "2601.00001";
     PaperTrackerV2.title := "agent one";
     PaperTrackerV2.summary := "";
     PaperTrackerV2.authors := ["A. Author"];
     PaperTrackerV2.published := "2026-01-02";
     PaperTrackerV2.url := "https://arxiv.org/abs/2601.00001";
     PaperTrackerV2.raw_score := 1;
     PaperTrackerV2.category := "cs.AI" |}.

Definition paper_two : PaperTrackerV2.paper :=
  {| PaperTrackerV2.id := "2601.00002";
     PaperTrackerV2.title := "agent two";
     PaperTrackerV2.summary := "";
     PaperTrackerV2.authors := ["A. Author"];
     PaperTrackerV2.published := "2026-01-01";
     PaperTrackerV2.url := "https://arxiv.org/abs/2601.00002";
     PaperTrackerV2.raw_score := 1;
     PaperTrackerV2.category := "cs.AI" |}.

End Samples.

(** ** What else is read off a run *)

Module Further.

(** The messages a run posts to the gateway. *)
Definition paper_posts (evs : list PaperTracker.event) : list PaperTracker.message :=
  omap (λ e, match e with PaperTracker.Post m => Some m | _ => None end) evs.

Definition news_posts (evs : list NewsMonitor.event) : list NewsMonitor.message :=
  omap (λ e, match e with NewsMonitor.Post m => Some m | _ => None end) evs.

Definition feed_posts (evs : list PaperTrackerV2.event) : list PaperTrackerV2.briefing :=
  omap (λ e, match e with PaperTrackerV2.Post b => Some b | _ => None end) evs.

(** A page on which fewer titles and abstracts than identifiers were
    matched. *)
Definition short_page : PaperTracker.html :=
  {| PaperTracker.ids := ["2401.00021"; "2401.00022"];
     PaperTracker.titles := ["Collective reasoning of agents"];
     PaperTracker.abstracts := [] |}.

(** A tracking file that lists the identifiers the first sample run saves,
    in another order, one of them twice, and with another time. *)
Definition reordered_file : PaperTracker.file :=
  PaperTracker.Json
    {| PaperTracker.tracked := Some ["2401.00002"; "2401.00001"; "2401.00002"];
       PaperTracker.last_run := None |}.

(** [config.get(key)] for the key of a category. *)
Definition list_of (c : NewsMonitor.category) (data : NewsMonitor.config)
  : option (list string) :=
  match c with
  | NewsMonitor.HN => NewsMonitor.tracked_hn data
  | NewsMonitor.GH => NewsMonitor.tracked_gh data
  | NewsMonitor.Conf => NewsMonitor.tracked_conf data
  | NewsMonitor.Blog => NewsMonitor.tracked_blog data
  end.

(** The key of a category in the tracking file. *)
Definition key_of (c : NewsMonitor.category) : string :=
  match c with
  | NewsMonitor.HN => "tracked_hn"
  | NewsMonitor.GH => "tracked_gh"
  | NewsMonitor.Conf => "tracked_conf"
  | NewsMonitor.Blog => "tracked_blog"
  end.

(** A run of the monitor in which one blog has four posts to report and
    nothing else can be fetched. *)
Definition blog_run : NewsMonitor.run :=
  {| NewsMonitor.hacker_news := None;
     NewsMonitor.trending := None;
     NewsMonitor.neurips := None;
     NewsMonitor.iclr := None;
     NewsMonitor.lilianweng :=
       Some [ {| NewsMonitor.post_url := "/posts/2023-06-23-agent/";
                 NewsMonitor.post_title := "LLM Powered Autonomous Agents" |};
              {| NewsMonitor.post_url := "/posts/2023-03-15-prompt/";
                 NewsMonitor.post_title := "Prompting and reasoning" |};
              {| NewsMonitor.post_url := "https://lilianweng.github.io/posts/2024-07-07-h/";
                 NewsMonitor.post_title := "Hallucination in LLMs" |};
              {| NewsMonitor.post_url := "posts/2024-11-28-reward/";
                 NewsMonitor.post_title := "Reward hacking of agents" |};
              {| NewsMonitor.post_url := "/about/";
                 NewsMonitor.post_title := "About me" |} ];
     NewsMonitor.ruder := None;
     NewsMonitor.reply := Some "ok";
     NewsMonitor.now := "2026-01-07T08:00" |}.

(** A file written by hand, without the key of the stories. *)
Definition file_without_hn : NewsMonitor.file :=
  NewsMonitor.Json
    {| NewsMonitor.tracked_hn := None;
       NewsMonitor.tracked_gh := Some [];
       NewsMonitor.tracked_conf := Some [];
       NewsMonitor.tracked_blog := None;
       NewsMonitor.last_run := None |}.

(** A feed in which [cs.AI] and [cs.LG] both list the paper 2601.00001, in
    two versions, and [cs.MA] lists an entry without an identifier. *)
Definition cross_listed_run : PaperTrackerV2.run :=
  {| PaperTrackerV2.feed := λ c,
       if bool_decide (c = "cs.AI")
       then PaperTrackerV2.Stdout
              [ Samples.feed_entry "2601.00001v1" "agent one" "2026-01-02" ]
       else if bool_decide (c = "cs.LG")
       then PaperTrackerV2.Stdout
              [ Samples.feed_entry "2601.00001v2" "agent one, revised" "2026-01-03";
                Samples.feed_entry "2601.00002v1" "swarm of agents" "2026-01-01" ]
       else PaperTrackerV2.Stdout
              [ {| PaperTrackerV2.id_match := None;
                   PaperTrackerV2.title_match := Some "agent without id";
                   PaperTrackerV2.summary_match := None;
                   PaperTrackerV2.names := [];
                   PaperTrackerV2.published_match := None |} ];
     PaperTrackerV2.claude := PaperTrackerV2.Failed;
     PaperTrackerV2.delivered := false;
     PaperTrackerV2.now := "2026-01-05" |}.

(** [s] has no character [c]. *)
Fixpoint lacks (c : ascii) (s : string) : bool :=
  match s with
  | "" => true
  | String d s' => negb (is_char c d) && lacks c s'
  end.

(** A run in which the request for [cs.LG] runs out of time, after the
    request for [cs.AI] has given two papers. *)
Definition slow_run : PaperTrackerV2.run :=
  {| PaperTrackerV2.feed := λ c,
       if bool_decide (c = "cs.LG") then PaperTrackerV2.TimedOut
       else PaperTrackerV2.feed Samples.feed_run c;
     PaperTrackerV2.claude := PaperTrackerV2.Nothing;
     PaperTrackerV2.delivered := true;
     PaperTrackerV2.now := "2026-01-05" |}.

(** A run in which the reviewer answers with an overview and the review of
    another paper than the two of the feed. *)
Definition reviewed_run : PaperTrackerV2.run :=
  {| PaperTrackerV2.feed := PaperTrackerV2.feed Samples.feed_run;
     PaperTrackerV2.claude :=
       PaperTrackerV2.Answer
         {| PaperTrackerV2.reviews :=
              Some [ {| PaperTrackerV2.review_id := "2601.00009";
                        PaperTrackerV2.should_read := Some "yes";
                        PaperTrackerV2.tags := Some ["survey"];
                        PaperTrackerV2.key_insight := Some "none" |} ];
            PaperTrackerV2.overview := Some "a quiet day";
            PaperTrackerV2.top_pick := None |};
     PaperTrackerV2.delivered := true;
     PaperTrackerV2.now := "2026-01-05" |}.


End Further.

(** * Properties *)

(** ** The library functions on examples *)

Example lower_example : lower "Multi-Agent LLM" = "multi-agent llm".
Proof. reflexivity. Qed.

Example contains_example :
  contains "agent" "multi-agent llm" = true
  ∧ contains "swarm" "multi-agent llm" = false
  ∧ contains "" "x" = true.
Proof. repeat split; reflexivity. Qed.

Example strip_example :
  strip (String "009" "  a b " +:+ String "010" "") = "a b"
  ∧ rstrip_with (is_char "/") "https://ruder.io/" = "https://ruder.io"
  ∧ lstrip_with (is_char "/") "//posts/1/" = "posts/1/".
Proof. repeat split; reflexivity. Qed.

Example slice_example : slice_to 3 "abcdef" = "abc" ∧ slice_to 9 "abc" = "abc".
Proof. split; reflexivity. Qed.

Example split_example :
  split "/abs/" "http://arxiv.org/abs/2401.01234v2"
  = ["http://arxiv.org"; "2401.01234v2"]
  ∧ split "/abs/" "x/abs/abs/" = ["x"; "abs/"]
  ∧ split "v" "2401.01234v2" = ["2401.01234"; "2"]
  ∧ split "v" "" = [""]
  ∧ first_piece (split "v" (last_piece (split "/abs/" "http://arxiv.org/abs/2401.01234v2")))
    = "2401.01234".
Proof. repeat split; reflexivity. Qed.

(** Equal keys keep their order: the sort is stable. *)
Example sort_example :
  sort_by key_lt (λ p : Z * string * Z, p.1)
    [(2, "b", 1); (1, "z", 2); (2, "a", 3); (1, "c", 4); (2, "a", 5)]%Z
  = [(1, "c", 4); (1, "z", 2); (2, "a", 3); (2, "a", 5); (2, "b", 1)]%Z.
Proof. reflexivity. Qed.

(** Three papers of scores 2, 2 and 0 and an empty tracking set: the first
    two are selected, in the order of their identifiers, and tracked. *)
Example select_example :
  let paper i n :=
    {| PaperTracker.id := i; PaperTracker.link := ""; PaperTracker.title := "";
       PaperTracker.abstract := ""; PaperTracker.score := n |} in
  PaperTracker.select ∅ [paper "b" 2; paper "c" 0; paper "a" 2]
  = [paper "a" 2; paper "b" 2]
  ∧ PaperTracker.track ∅ [paper "a" 2; paper "b" 2] = {[ "a"; "b" ]}.
Proof. split; [reflexivity|]. by vm_compute. Qed.

(** ** Running a script *)

Section Prog.
Context {W : Type}.

Lemma bind_raise_inv {A B} (m : prog W A) (k : A → prog W B) w w' e :
  bind m k w = (w', Raise e) →
  m w = (w', Raise e) ∨ ∃ w1 a, m w = (w1, Return a) ∧ k a w1 = (w', Raise e).
Proof.
  unfold bind. destruct (m w) as [w1 [a|e1]] eqn:E; intros H.
  - right. eauto.
  - left. by simplify_eq.
Qed.
End Prog.

(** ** Sorting *)

Section SortFacts.
Context {A K : Type} (lt : K → K → bool) (key : A → K).

Lemma insert_by_perm x l : insert_by lt key x l ≡ₚ x :: l.
Proof.
  induction l as [|y l IH]; simpl; [done|].
  destruct (lt (key y) (key x)); [|done].
  rewrite IH. apply Permutation_swap.
Qed.

Lemma sort_by_perm l : sort_by lt key l ≡ₚ l.
Proof.
  induction l as [|x l IH]; simpl; [done|].
  by rewrite insert_by_perm, IH.
Qed.

Lemma elem_of_sort_by x l : x ∈ sort_by lt key l ↔ x ∈ l.
Proof. by rewrite sort_by_perm. Qed.

(** Stability: the elements of one key keep their order. *)
Section Stable.
Context `{EqDecision K}.
Hypothesis lt_irrefl : ∀ k, lt k k = false.

Lemma insert_by_stable k x l :
  filter (λ a, key a = k) (insert_by lt key x l)
  = filter (λ a, key a = k) (x :: l).
Proof.
  induction l as [|y l IH]; simpl; [done|].
  destruct (lt (key y) (key x)) eqn:E; [|done].
  rewrite !filter_cons in *.
  destruct (decide (key y = k)) as [Hy|Hy], (decide (key x = k)) as [Hx|Hx];
    try (by rewrite IH).
  rewrite Hy, Hx, lt_irrefl in E. done.
Qed.

Lemma sort_by_stable k l :
  filter (λ a, key a = k) (sort_by lt key l) = filter (λ a, key a = k) l.
Proof.
  induction l as [|x l IH]; simpl; [done|].
  rewrite insert_by_stable, !filter_cons, IH. done.
Qed.
End Stable.

(** Order: no element comes after an element of a smaller key. *)
Section Sorted.
Hypothesis lt_asym : ∀ j k, lt j k = true → lt k j = false.
Hypothesis lt_cotrans :
  ∀ i j k, lt i k = true → lt i j = true ∨ lt j k = true.

Lemma in_order_trans a b c :
  in_order lt key a b → in_order lt key b c → in_order lt key a c.
Proof.
  unfold in_order. intros Hab Hbc.
  destruct (lt (key c) (key a)) eqn:E; [|done].
  destruct (lt_cotrans _ (key b) _ E); congruence.
Qed.

Lemma insert_by_sorted x l :
  StronglySorted (in_order lt key) l →
  StronglySorted (in_order lt key) (insert_by lt key x l).
Proof.
  induction 1 as [|y l Hl IH Hy]; simpl.
  - repeat constructor.
  - destruct (lt (key y) (key x)) eqn:E.
    + constructor; [done|].
      rewrite Forall_forall. intros z Hz.
      apply (elem_of_Permutation_proper _ _ _ (insert_by_perm x l)) in Hz.
      apply elem_of_cons in Hz as [->|Hz].
      * by apply lt_asym.
      * by eapply Forall_forall in Hy.
    + constructor; [by constructor|].
      constructor; [done|].
      eapply Forall_impl; [exact Hy|].
      intros z Hz. by eapply in_order_trans.
Qed.

Lemma sort_by_sorted l : StronglySorted (in_order lt key) (sort_by lt key l).
Proof.
  induction l as [|x l IH]; simpl; [constructor|].
  by apply insert_by_sorted.
Qed.
End Sorted.
End SortFacts.

Lemma StronglySorted_sublist {A} (R : relation A) l1 l2 :
  l1 `sublist_of` l2 → StronglySorted R l2 → StronglySorted R l1.
Proof.
  induction 1 as [|x l1 l2 Hs IH|x l1 l2 Hs IH]; intros H2.
  - constructor.
  - apply StronglySorted_inv in H2 as [H2 Hx].
    constructor; [by apply IH|].
    rewrite Forall_forall in *. intros y Hy. apply Hx.
    by eapply elem_of_sublist.
  - apply StronglySorted_inv in H2 as [H2 _]. by apply IH.
Qed.

(** [<] on keys is a strict total order. *)
Lemma ltb_leb s1 s2 : String.ltb s1 s2 = negb (String.leb s2 s1).
Proof.
  unfold String.ltb, String.leb.
  rewrite (String.compare_antisym s2 s1).
  by destruct (String.compare s1 s2).
Qed.

Lemma ltb_false s1 s2 : String.ltb s2 s1 = false ↔ String.le s1 s2.
Proof.
  rewrite ltb_leb. unfold String.le.
  destruct (String.leb s1 s2); simpl; split; (done || intros []).
Qed.

Lemma ltb_true s1 s2 : String.ltb s1 s2 = true ↔ String.le s1 s2 ∧ s1 ≠ s2.
Proof.
  split.
  - intros H. split.
    + destruct (total String.le s1 s2) as [|H']; [done|].
      apply ltb_false in H'. congruence.
    + intros ->. assert (String.ltb s2 s2 = false); [|congruence].
      by apply ltb_false.
  - intros [H Hne].
    destruct (String.ltb s1 s2) eqn:E; [done|].
    apply ltb_false in E. destruct Hne. by apply (anti_symm String.le).
Qed.

Lemma key_lt_false (k1 k2 : Z * string) :
  key_lt k2 k1 = false ↔
  (k1.1 < k2.1)%Z ∨ (k1.1 = k2.1 ∧ String.le k1.2 k2.2).
Proof.
  unfold key_lt. destruct k1 as [n1 s1], k2 as [n2 s2]; simpl.
  rewrite orb_false_iff, andb_false_iff, Z.ltb_ge, Z.eqb_neq, ltb_false.
  split.
  - intros [Hle [Hne|Hs]]; [left; lia|].
    destruct (decide (n1 = n2)); [by right|left; lia].
  - intros [Hlt|[-> Hs]]; (split; [lia|]); [left; lia|by right].
Qed.

Lemma key_lt_asym j k : key_lt j k = true → key_lt k j = false.
Proof.
  unfold key_lt. destruct j as [n1 s1], k as [n2 s2]; simpl.
  rewrite orb_true_iff, andb_true_iff, orb_false_iff, andb_false_iff.
  rewrite Z.ltb_lt, Z.eqb_eq, Z.ltb_ge, Z.eqb_neq, ltb_true, ltb_false.
  intros [Hlt|[-> [Hs _]]].
  - split; [lia|left; lia].
  - split; [lia|by right].
Qed.

Lemma key_lt_irrefl k : key_lt k k = false.
Proof. apply key_lt_false. right. done. Qed.

Lemma key_lt_cotrans i j k :
  key_lt i k = true → key_lt i j = true ∨ key_lt j k = true.
Proof.
  intros Hik.
  destruct (key_lt i j) eqn:Hij; [by left|right].
  destruct (key_lt j k) eqn:Hjk; [done|].
  apply key_lt_false in Hij, Hjk.
  assert (key_lt i k = false); [|congruence].
  apply key_lt_false.
  destruct Hij as [?|[? ?]], Hjk as [?|[? ?]]; try (left; lia).
  right. split; [congruence|]. by etrans.
Qed.

(** ** paper_tracker.py: what a run does *)

Section PaperTrackerFacts.
Import PaperTracker.

Lemma find_new_spec r f :
  find_new r (start f) =
  match f, fetched r with
  | Corrupt, _ =>
      ({| disk := f; out := [Print (Banner (now r))] |}, Raise JSONDecodeError)
  | _, None =>
      ({| disk := f; out := [Print (Banner (now r))] |}, Raise CalledProcessError)
  | _, Some h =>
      let relevant := select (tracked_in f) (parse_papers h) in
      ({| disk := f;
          out := [Print (Banner (now r)); Print (Found (length relevant))] |},
       Return (tracked_in f, relevant))
  end.
Proof.
  destruct f, (fetched r) eqn:E; unfold find_new, fetch_arxiv_list;
    rewrite E; reflexivity.
Qed.

Lemma selected_spec r f :
  selected r f =
  match f, fetched r with
  | Corrupt, _ | _, None => []
  | _, Some h => select (tracked_in f) (parse_papers h)
  end.
Proof. unfold selected. rewrite find_new_spec. by destruct f, (fetched r). Qed.

(** Once the list is there, the rest of [main] does not raise. *)
Lemma notify_returns r tracked relevant w :
  ∃ w', notify r tracked relevant w = (w', Return ()).
Proof.
  unfold notify, bind, send_to_telegram, bind.
  destruct relevant as [|p l]; simpl; [eauto|].
  destruct (reply r) as [body|]; simpl;
    try destruct (bool_decide (body = "")); simpl; eauto.
Qed.

(** A run that raises leaves the file as it is and builds no digest. *)
Lemma exec_raise r f e w :
  exec r f = (w, Raise e) →
  w = {| disk := f; out := [Print (Banner (now r))] |}
  ∧ (f = Corrupt ∨ fetched r = None).
Proof.
  unfold exec, main. intros H.
  apply bind_raise_inv in H as [H|(w1 & a & H & Hn)].
  - rewrite find_new_spec in H.
    destruct f, (fetched r); simplify_eq; auto.
  - destruct (notify_returns r a.1 a.2 w1) as [w2 Hw]. congruence.
Qed.

(** A run that selects nothing: two lines and the line that nothing is
    new. *)
Lemma exec_nothing r f :
  selected r f = [] →
  (∃ e, exec r f = ({| disk := f; out := [Print (Banner (now r))] |}, Raise e))
  ∨ exec r f = ({| disk := f;
                   out := [Print (Banner (now r)); Print (Found 0);
                           Print NothingNew] |}, Return ()).
Proof.
  rewrite selected_spec. unfold exec, main, bind. rewrite find_new_spec.
  destruct f, (fetched r); simpl; intros E; try rewrite E; simpl; eauto.
Qed.

(** A run that selects [relevant]: the message is posted, printed too when
    the gateway gives no answer, and the file is written. *)
Lemma exec_selected r f :
  selected r f ≠ [] →
  let relevant := selected r f in
  let message := format_message r relevant in
  let saved := Json {| tracked := Some (elements (track (tracked_in f) relevant));
                       last_run := Some (now r) |} in
  exec r f =
  ({| disk := saved;
      out := [Print (Banner (now r)); Print (Found (length relevant));
              Post message]
             ++ (if truthy (reply r) then [Print Sent]
                 else (if reply r is None then [Print TelegramError] else [])
                      ++ [Print NotSent; Print (Body message)])
             ++ [Write saved] |}, Return ()).
Proof.
  rewrite selected_spec. unfold exec, main, bind. rewrite find_new_spec.
  destruct f, (fetched r); simpl; try done;
    (destruct (select _ _) as [|p l] eqn:E; [done|]); intros _;
    unfold notify, bind, send_to_telegram, bind; simpl;
    destruct (reply r) as [body|]; simpl;
    try destruct (bool_decide (body = "")); simpl; done.
Qed.

Lemma file_after_spec r f :
  file_after f r =
  match selected r f with
  | [] => f
  | relevant =>
      Json {| tracked := Some (elements (track (tracked_in f) relevant));
              last_run := Some (now r) |}
  end.
Proof.
  unfold file_after.
  destruct (selected r f) as [|p l] eqn:E.
  - destruct (exec_nothing r f E) as [[e ->]| ->]; done.
  - rewrite exec_selected by (by rewrite E). by rewrite E.
Qed.

Lemma digests_of_spec r f :
  digests_of r f =
  match selected r f with
  | [] => []
  | relevant =>
      if truthy (reply r) then [format_message r relevant]
      else [format_message r relevant; format_message r relevant]
  end.
Proof.
  unfold digests_of.
  destruct (selected r f) as [|p l] eqn:E.
  - destruct (exec_nothing r f E) as [[e ->]| ->]; done.
  - rewrite exec_selected by (by rewrite E). rewrite E. simpl.
    destruct (truthy (reply r)); [done|]. by destruct (reply r).
Qed.

Lemma elem_of_track i tracked relevant :
  i ∈ track tracked relevant ↔ i ∈ tracked ∨ i ∈ id <$> relevant.
Proof.
  unfold track. revert tracked.
  induction relevant as [|p l IH]; intros tracked; simpl.
  - set_solver.
  - rewrite IH. set_solver.
Qed.

Lemma elem_of_select p tracked papers :
  p ∈ select tracked papers ↔ (0 < score p ∧ id p ∉ tracked) ∧ p ∈ papers.
Proof. unfold select. by rewrite elem_of_sort_by, list_elem_of_filter. Qed.

Lemma elem_of_selected p r f :
  p ∈ selected r f →
  0 < score p ∧ (id p ∉ tracked_in f)
  ∧ ∃ h, fetched r = Some h ∧ p ∈ parse_papers h.
Proof.
  rewrite selected_spec.
  destruct f, (fetched r) as [h|]; try (by intros ?%elem_of_nil);
    intros [[? ?] ?]%elem_of_select; eauto.
Qed.

(** Reading back what [save_tracked] wrote gives the set it was given. *)
Lemma tracked_in_saved (tracked : gset string) (time : option string) :
  tracked_in (Json {| PaperTracker.tracked := Some (elements tracked);
                      last_run := time |}) = tracked.
Proof. apply list_to_set_elements_L. Qed.

Lemma tracked_in_file_after r f i :
  i ∈ tracked_in (file_after f r) ↔
  i ∈ tracked_in f ∨ i ∈ id <$> selected r f.
Proof.
  rewrite file_after_spec.
  destruct (selected r f) as [|p l] eqn:E.
  - rewrite fmap_nil. set_solver.
  - by rewrite tracked_in_saved, elem_of_track.
Qed.

(** The identifiers of the file only grow, run after run. *)
Lemma tracked_in_grows f rs i :
  i ∈ tracked_in f → i ∈ tracked_in (file_after_all f rs).
Proof.
  unfold file_after_all. revert f.
  induction rs as [|r rs IH]; intros f Hi; simpl; [done|].
  apply IH, tracked_in_file_after. by left.
Qed.

Lemma parse_papers_link h p :
  p ∈ parse_papers h → link p = "https://arxiv.org/" +:+ id p.
Proof.
  unfold parse_papers. intros (i & x & -> & _)%elem_of_lookup_imap. done.
Qed.

(** An entry of a digest is the entry of one of the first five papers
    selected. *)
Lemma digest_entry r f m e :
  m ∈ digests_of r f → e ∈ entries m →
  ∃ i p, take 5 (selected r f) !! i = Some p ∧ e = entry_of i p.
Proof.
  rewrite digests_of_spec.
  destruct (selected r f) as [|p l] eqn:E; [by intros ?%elem_of_nil|].
  assert (m = format_message r (p :: l) → e ∈ entries m →
          ∃ i q, take 5 (p :: l) !! i = Some q ∧ e = entry_of i q) as Hm.
  { intros -> (i & q & -> & Hq)%elem_of_lookup_imap. eauto. }
  destruct (truthy (reply r)); rewrite ?elem_of_cons, ?elem_of_nil; naive_solver.
Qed.

(** A paper shown in a digest was selected by the run. *)
Lemma shows_selected r f m i :
  m ∈ digests_of r f → shows m i → ∃ p, p ∈ take 5 (selected r f) ∧ id p = i.
Proof.
  intros Hm (e & Hu & He)%list_elem_of_fmap.
  destruct (digest_entry r f m e Hm He) as (k & p & Hp & ->).
  exists p. split; [by eapply list_elem_of_lookup_2|].
  apply list_elem_of_lookup_2, elem_of_take in Hp as (j & Hj & _).
  apply list_elem_of_lookup_2, elem_of_selected in Hj as (_ & _ & h & _ & Hp).
  apply parse_papers_link in Hp. simpl in Hu. rewrite Hp in Hu.
  symmetry. by eapply (inj (String.app _)).
Qed.

Lemma shown_not_tracked r f m i :
  m ∈ digests_of r f → shows m i → i ∉ tracked_in f.
Proof.
  intros Hm Hs. destruct (shows_selected r f m i Hm Hs) as (p & Hp & <-).
  apply elem_of_take in Hp as (j & Hj & _).
  by apply list_elem_of_lookup_2, elem_of_selected in Hj as (_ & ? & _).
Qed.
End PaperTrackerFacts.

(** ** news_monitor.py: what a run does *)

Section NewsMonitorFacts.
Import NewsMonitor.

Lemma digests_app evs1 evs2 : digests (evs1 ++ evs2) = digests evs1 ++ digests evs2.
Proof. apply omap_app. Qed.

Lemma writes_app evs1 evs2 : writes (evs1 ++ evs2) = writes evs1 ++ writes evs2.
Proof. apply omap_app. Qed.

Lemma quiet_nil : quiet [].
Proof. done. Qed.

Lemma quiet_app evs1 evs2 : quiet evs1 → quiet evs2 → quiet (evs1 ++ evs2).
Proof.
  unfold quiet. rewrite digests_app, writes_app.
  by intros [-> ->] [-> ->].
Qed.

Section Yields.
Context (f : file).

Lemma yields_lift {A} (x : result A) : yields f (lift x) x.
Proof.
  intros w <-. exists []. split; [apply quiet_nil|].
  unfold lift. rewrite app_nil_r. by destruct w.
Qed.

Lemma yields_ret {A} (a : A) : yields f (ret a) (Return a).
Proof. apply (yields_lift (Return a)). Qed.

Lemma yields_print line :
  (∀ m, line ≠ Body m) → yields f (print line) (Return ()).
Proof.
  intros Hl w <-. exists [Print line]. split; [|done].
  split; [|done]. destruct line; try done. by destruct (Hl m).
Qed.

Lemma yields_bind {A B} (m : prog world A) (k : A → prog world B) a res :
  yields f m (Return a) → yields f (k a) res → yields f (bind m k) res.
Proof.
  intros Hm Hk w Hw.
  destruct (Hm w Hw) as (evs1 & Hq1 & E1).
  destruct (Hk {| disk := f; out := out w ++ evs1 |} eq_refl)
    as (evs2 & Hq2 & E2).
  exists (evs1 ++ evs2). split; [by apply quiet_app|].
  unfold bind. rewrite E1, E2. simpl. by rewrite (assoc_L (++)).
Qed.

Lemma yields_bind_raise {A B} (m : prog world A) (k : A → prog world B) e :
  yields f m (Raise e) → yields f (bind m k) (Raise e).
Proof.
  intros Hm w Hw. destruct (Hm w Hw) as (evs & Hq & E).
  exists evs. split; [done|]. unfold bind. by rewrite E.
Qed.

Lemma yields_fetch_url {A} (doc : option A) :
  yields f (fetch_url doc) (Return doc).
Proof.
  destruct doc as [d|]; simpl.
  - apply yields_ret.
  - eapply yields_bind; [by apply yields_print|apply yields_ret].
Qed.

Lemma yields_load_config :
  yields f load_config
    (match f with
     | Corrupt => Raise JSONDecodeError
     | _ => Return (loaded f)
     end).
Proof.
  intros w <-. exists []. split; [apply quiet_nil|].
  unfold load_config, ret, raise. rewrite app_nil_r.
  by destruct w as [[] ?].
Qed.
End Yields.

(** What a step yields is what it ends with, whatever was printed
    before. *)
Lemma yields_result {A} f (m : prog world A) res w :
  yields f m res → disk w = f → (m w).2 = res ∧ disk (m w).1 = f.
Proof. intros Hm Hw. destruct (Hm w Hw) as (evs & _ & ->). done. Qed.

Lemma trending_repos_yields matches :
  ∃ items, ∀ f, yields f (trending_repos matches) (Return items).
Proof.
  induction matches as [|m ms [items IH]]; cbn [trending_repos].
  - exists []. intros f. apply yields_ret.
  - destruct (desc m) as [text|] eqn:E.
    + destruct (negb (bool_decide (text = ""))
                && any_keyword KEYWORDS (lower (repo_name m +:+ text))) eqn:Ek;
        eexists; intros f;
        (eapply yields_bind; [apply yields_fetch_url|]); cbv beta;
        (eapply yields_bind; [apply IH|]); cbv beta iota;
        rewrite Ek; apply yields_ret.
    + exists items. intros f.
      eapply yields_bind; [apply yields_fetch_url|]. cbv beta.
      eapply yields_bind; [apply IH|]. apply yields_ret.
Qed.

Lemma conference_yields source link doc :
  ∃ items, ∀ f, yields f (conference source link doc) (Return items).
Proof.
  unfold conference. destruct doc as [text|].
  - destruct (negb (bool_decide (text = ""))
              && (contains "accepted" (lower text)
                  || contains "deadline" (lower text))) eqn:E;
      eexists; intros f;
      (eapply yields_bind; [apply yields_fetch_url|]);
      cbv beta iota; rewrite E; apply yields_ret.
  - exists []. intros f.
    eapply yields_bind; [apply yields_fetch_url|]. apply yields_ret.
Qed.

Lemma blog_posts_yields name link doc :
  ∃ items, ∀ f, yields f (blog_posts name link doc) (Return items).
Proof.
  unfold blog_posts. destruct doc as [matches|]; eexists; intros f;
    (eapply yields_bind; [apply yields_fetch_url|]); apply yields_ret.
Qed.

Lemma parser_yields_some c r :
  ∃ items, ∀ f, yields f (parser c r) (Return items).
Proof.
  destruct c; simpl.
  - unfold parse_hacker_news.
    destruct (hacker_news r) as [matches|]; eexists; intros f;
      (eapply yields_bind; [apply yields_fetch_url|]); apply yields_ret.
  - unfold parse_github_trending.
    destruct (trending r) as [matches|].
    + destruct (trending_repos_yields matches) as [items Hi].
      eexists. intros f.
      eapply yields_bind; [apply yields_fetch_url|]. simpl.
      eapply yields_bind; [apply Hi|]. apply yields_ret.
    + exists []. intros f.
      eapply yields_bind; [apply yields_fetch_url|]. apply yields_ret.
  - unfold parse_conferences.
    destruct (conference_yields "NeurIPS 2025"
                "https://nips.cc/Conferences/2025" (neurips r)) as [a Ha].
    destruct (conference_yields "ICLR 2025"
                "https://iclr.cc/conference/2025" (iclr r)) as [b Hb].
    eexists. intros f.
    eapply yields_bind; [apply Ha|].
    eapply yields_bind; [apply Hb|]. apply yields_ret.
  - unfold parse_ai_blogs.
    destruct (blog_posts_yields "Lilac Weng"
                "https://lilianweng.github.io/" (lilianweng r)) as [a Ha].
    destruct (blog_posts_yields "Sebastian Ruder"
                "https://ruder.io/" (ruder r)) as [b Hb].
    eexists. intros f.
    eapply yields_bind; [apply Ha|].
    eapply yields_bind; [apply Hb|]. apply yields_ret.
Qed.

(** A parser never raises and never touches the file: on every file it
    returns the candidates of its category. *)
Lemma parser_yields c r f : yields f (parser c r) (Return (candidates c r)).
Proof.
  destruct (parser_yields_some c r) as [items Hi].
  unfold candidates.
  destruct (yields_result Absent (parser c r) _ (start Absent) (Hi Absent) eq_refl)
    as [-> _].
  apply Hi.
Qed.

Lemma news_find_new_yields r f : yields f (find_new r) (found r f).
Proof.
  unfold find_new, found.
  eapply yields_bind; [by apply yields_print|].
  destruct f as [| |data]; cbn [found].
  2: { apply yields_bind_raise, (yields_load_config Corrupt). }
  1: eapply (yields_bind _ _ _ (loaded Absent));
       [exact (yields_load_config Absent)|].
  2: eapply (yields_bind _ _ _ (loaded (Json data)));
       [exact (yields_load_config (Json data))|].
  all: cbv beta.
  all: set (config := loaded _).
  all: eapply yields_bind; [by apply yields_print|].
  all: eapply yields_bind; [apply (parser_yields HN)|].
  all: eapply yields_bind; [by apply yields_print|].
  all: eapply yields_bind; [apply (parser_yields GH)|].
  all: eapply yields_bind; [by apply yields_print|].
  all: eapply yields_bind; [apply (parser_yields Conf)|].
  all: eapply yields_bind; [by apply yields_print|].
  all: eapply yields_bind; [apply (parser_yields Blog)|].
  all: destruct (new_items "tracked_hn" _ _) as [a|e] eqn:Ea; cbn [and_then];
    [|apply yields_bind_raise, yields_lift].
  all: eapply yields_bind; [apply yields_lift|].
  all: destruct (new_items "tracked_gh" _ _) as [b|e] eqn:Eb; cbn [and_then];
    [|apply yields_bind_raise, yields_lift].
  all: eapply yields_bind; [apply yields_lift|].
  all: destruct (new_items "tracked_conf" _ _) as [c|e] eqn:Ec; cbn [and_then];
    [|apply yields_bind_raise, yields_lift].
  all: eapply yields_bind; [apply yields_lift|].
  all: destruct (new_items "tracked_blog" _ _) as [d|e] eqn:Ed; cbn [and_then];
    [|apply yields_bind_raise, yields_lift].
  all: eapply yields_bind; [apply yields_lift|].
  all: eapply yields_bind; [by apply yields_print|].
  all: apply yields_ret.
Qed.

Lemma news_selected_spec c r f :
  selected c r f =
  match found r f with
  | Return x => part c x.2
  | Raise _ => []
  end.
Proof.
  unfold selected.
  by destruct (yields_result f (find_new r) _ (start f) (news_find_new_yields r f) eq_refl)
    as [-> _].
Qed.
End NewsMonitorFacts.

Section NewsMonitorRuns.
Import NewsMonitor.

Lemma new_items_return key tracked items l :
  new_items key tracked items = Return l →
  l = filter (λ n, url n ∉ default [] tracked) items
  ∧ append_urls key tracked l = Return (append_blog_urls tracked l).
Proof.
  destruct items as [|x items], tracked as [seen|]; simpl; intros ?;
    simplify_eq; try done.
  split; [done|]. by destruct (filter _ _).
Qed.

Lemma found_return r f data s :
  found r f = Return (data, s) →
  f ≠ Corrupt ∧ data = loaded f
  ∧ (∀ c, part c s = filter (λ n, url n ∉ tracked_of c data) (candidates c r))
  ∧ append_urls "tracked_hn" (tracked_hn data) (new_hn s)
    = Return (append_blog_urls (tracked_hn data) (new_hn s))
  ∧ append_urls "tracked_gh" (tracked_gh data) (new_gh s)
    = Return (append_blog_urls (tracked_gh data) (new_gh s))
  ∧ append_urls "tracked_conf" (tracked_conf data) (new_conf s)
    = Return (append_blog_urls (tracked_conf data) (new_conf s)).
Proof.
  unfold found. intros H.
  assert (f ≠ Corrupt) as Hf by (by intros ->).
  split; [done|].
  assert (and_then (new_items "tracked_hn" (tracked_hn (loaded f)) (candidates HN r)) (λ a,
          and_then (new_items "tracked_gh" (tracked_gh (loaded f)) (candidates GH r)) (λ b,
          and_then (new_items "tracked_conf" (tracked_conf (loaded f)) (candidates Conf r)) (λ c,
          and_then (new_items "tracked_blog" (Some (default [] (tracked_blog (loaded f))))
                      (candidates Blog r)) (λ d,
          Return (loaded f, {| new_hn := a; new_gh := b; new_conf := c; new_blog := d |})))))
          = Return (data, s)) as H' by (by destruct f).
  clear H.
  destruct (new_items "tracked_hn" _ _) as [a|] eqn:Ea; [|done].
  destruct (new_items "tracked_gh" _ _) as [b|] eqn:Eb; [|done].
  destruct (new_items "tracked_conf" _ _) as [c|] eqn:Ec; [|done].
  destruct (new_items "tracked_blog" _ _) as [d|] eqn:Ed; [|done].
  simpl in H'. simplify_eq.
  apply new_items_return in Ea as [Ea1 Ea2], Eb as [Eb1 Eb2],
    Ec as [Ec1 Ec2], Ed as [Ed1 _].
  split; [done|]. split; [by intros []|]. done.
Qed.

(** The rest of [main], once the lists are there. *)
Lemma notify_spec r data s w :
  append_urls "tracked_hn" (tracked_hn data) (new_hn s)
    = Return (append_blog_urls (tracked_hn data) (new_hn s)) →
  append_urls "tracked_gh" (tracked_gh data) (new_gh s)
    = Return (append_blog_urls (tracked_gh data) (new_gh s)) →
  append_urls "tracked_conf" (tracked_conf data) (new_conf s)
    = Return (append_blog_urls (tracked_conf data) (new_conf s)) →
  notify r data s w =
  match new_hn s ++ new_gh s ++ new_conf s ++ new_blog s with
  | [] => ({| disk := disk w; out := out w ++ [Print NothingNew] |}, Return ())
  | _ :: _ =>
      let message :=
        format_message r (new_hn s) (new_gh s) (new_conf s) (new_blog s) in
      let saved := Json (updated data s (now r)) in
      ({| disk := saved;
          out := out w ++ [Post message]
                 ++ (if truthy (reply r) then [Print Sent]
                     else (if reply r is None then [Print TelegramError] else [])
                          ++ [Print NotSent; Print (Body message)])
                 ++ [Write saved] |}, Return ())
  end.
Proof.
  intros Ha Hb Hc. unfold notify.
  destruct (new_hn s ++ new_gh s ++ new_conf s ++ new_blog s); [done|].
  unfold bind, send_to_telegram, bind, lift. rewrite Ha, Hb, Hc.
  destruct (reply r) as [body|]; simpl;
    try destruct (bool_decide (body = "")); simpl;
    unfold updated, save_config; simpl; rewrite <- ?(assoc_L (++)); done.
Qed.

(** A run, from what [find_new] ends with. *)
Lemma news_exec_spec r f :
  ∃ evs, quiet evs ∧
  exec r f =
  match found r f with
  | Raise e => ({| disk := f; out := evs |}, Raise e)
  | Return (data, s) =>
      match new_hn s ++ new_gh s ++ new_conf s ++ new_blog s with
      | [] => ({| disk := f; out := evs ++ [Print NothingNew] |}, Return ())
      | _ :: _ =>
          let message :=
            format_message r (new_hn s) (new_gh s) (new_conf s) (new_blog s) in
          let saved := Json (updated data s (now r)) in
          ({| disk := saved;
              out := evs ++ [Post message]
                     ++ (if truthy (reply r) then [Print Sent]
                         else (if reply r is None then [Print TelegramError] else [])
                              ++ [Print NotSent; Print (Body message)])
                     ++ [Write saved] |}, Return ())
      end
  end.
Proof.
  destruct (news_find_new_yields r f (start f) eq_refl) as (evs & Hq & E).
  exists evs. split; [done|].
  unfold exec, main, bind. rewrite E. simpl.
  destruct (found r f) as [[data s]|e] eqn:Ef; [|done].
  apply found_return in Ef as (_ & _ & _ & Ha & Hb & Hc).
  by rewrite (notify_spec _ _ _ _ Ha Hb Hc).
Qed.

Lemma tracked_of_updated c data s time :
  tracked_of c (updated data s time) = tracked_of c data ++ (url <$> part c s).
Proof.
  unfold tracked_of, updated, append_blog_urls.
  destruct c; simpl;
    [destruct (new_hn s)|destruct (new_gh s)
    |destruct (new_conf s)|destruct (new_blog s)];
    simpl; by rewrite ?app_nil_r.
Qed.

Lemma tracked_in_loaded c f : f ≠ Corrupt → tracked_in c f = tracked_of c (loaded f).
Proof. destruct f, c; done. Qed.

Lemma news_file_after_spec r f :
  file_after f r =
  match found r f with
  | Raise _ => f
  | Return (data, s) =>
      match new_hn s ++ new_gh s ++ new_conf s ++ new_blog s with
      | [] => f
      | _ :: _ => Json (updated data s (now r))
      end
  end.
Proof.
  unfold file_after. destruct (news_exec_spec r f) as (evs & _ & ->).
  destruct (found r f) as [[data s]|e]; [|done].
  by destruct (new_hn s ++ new_gh s ++ new_conf s ++ new_blog s).
Qed.

Lemma news_digests_of_spec r f :
  digests_of r f =
  match found r f with
  | Raise _ => []
  | Return (data, s) =>
      match new_hn s ++ new_gh s ++ new_conf s ++ new_blog s with
      | [] => []
      | _ :: _ =>
          let message :=
            format_message r (new_hn s) (new_gh s) (new_conf s) (new_blog s) in
          if truthy (reply r) then [message] else [message; message]
      end
  end.
Proof.
  unfold digests_of. destruct (news_exec_spec r f) as (evs & [Hd _] & ->).
  destruct (found r f) as [[data s]|e]; [|done].
  destruct (new_hn s ++ new_gh s ++ new_conf s ++ new_blog s); simpl.
  - by rewrite digests_app, Hd.
  - rewrite digests_app, Hd. simpl.
    destruct (truthy (reply r)); simpl; [done|]. by destruct (reply r).
Qed.

Lemma news_writes_spec r f :
  writes (out (exec r f).1) =
  match found r f with
  | Raise _ => []
  | Return (data, s) =>
      match new_hn s ++ new_gh s ++ new_conf s ++ new_blog s with
      | [] => []
      | _ :: _ => [Json (updated data s (now r))]
      end
  end.
Proof.
  destruct (news_exec_spec r f) as (evs & [_ Hw] & ->).
  destruct (found r f) as [[data s]|e]; [|done].
  destruct (new_hn s ++ new_gh s ++ new_conf s ++ new_blog s); simpl.
  - by rewrite writes_app, Hw.
  - rewrite writes_app, Hw. simpl.
    destruct (truthy (reply r)); simpl; [done|]. by destruct (reply r).
Qed.

Lemma news_elem_of_selected c r f x :
  x ∈ selected c r f →
  (url x ∉ tracked_in c f) ∧ x ∈ candidates c r.
Proof.
  rewrite news_selected_spec.
  destruct (found r f) as [[data s]|e] eqn:Ef; [|by intros ?%elem_of_nil].
  apply found_return in Ef as (Hf & -> & Hp & _).
  simpl. rewrite Hp, list_elem_of_filter, tracked_in_loaded by done. done.
Qed.

(** When no category has a new item, each list is empty. *)
Lemma part_nil c s :
  new_hn s ++ new_gh s ++ new_conf s ++ new_blog s = [] → part c s = [].
Proof.
  intros (? & (? & (? & ?)%app_eq_nil)%app_eq_nil)%app_eq_nil.
  by destruct c.
Qed.

Lemma news_tracked_in_file_after c r f u :
  u ∈ tracked_in c (file_after f r) ↔
  u ∈ tracked_in c f ∨ u ∈ url <$> selected c r f.
Proof.
  rewrite news_file_after_spec, news_selected_spec.
  destruct (found r f) as [[data s]|e] eqn:Ef; simpl.
  - apply found_return in Ef as (Hf & -> & _).
    destruct (new_hn s ++ new_gh s ++ new_conf s ++ new_blog s) eqn:E.
    + rewrite (part_nil c s E), fmap_nil. set_solver.
    + simpl. rewrite tracked_of_updated, elem_of_app, tracked_in_loaded by done.
      done.
  - set_solver.
Qed.

Lemma news_tracked_in_grows c f rs u :
  u ∈ tracked_in c f → u ∈ tracked_in c (file_after_all f rs).
Proof.
  unfold file_after_all. revert f.
  induction rs as [|r rs IH]; intros f Hu; simpl; [done|].
  apply IH, news_tracked_in_file_after. by left.
Qed.

Lemma url_shorten x : url (shorten x) = url x.
Proof. by destruct x. Qed.

(** An item shown in a section of a digest was selected in that
    category. *)
Lemma news_shows_selected c r f m u :
  m ∈ digests_of r f → shows c m u → ∃ x, x ∈ selected c r f ∧ url x = u.
Proof.
  rewrite news_digests_of_spec, news_selected_spec.
  destruct (found r f) as [[data s]|e]; [|by intros ?%elem_of_nil].
  destruct (new_hn s ++ new_gh s ++ new_conf s ++ new_blog s);
    [by intros ?%elem_of_nil|].
  simpl. intros Hm.
  assert (m = format_message r (new_hn s) (new_gh s) (new_conf s) (new_blog s))
    as -> by (destruct (truthy (reply r)); set_solver).
  unfold shows. intros (x & -> & Hx)%list_elem_of_fmap.
  destruct c; simpl in Hx.
  - apply list_elem_of_fmap in Hx as (y & -> & Hy).
    exists y. split; [|by rewrite url_shorten].
    eapply elem_of_sublist; [done|apply sublist_take].
  - exists x. split; [|done]. eapply elem_of_sublist; [done|apply sublist_take].
  - exists x. split; [|done]. eapply elem_of_sublist; [done|apply sublist_take].
  - exists x. split; [|done]. eapply elem_of_sublist; [done|apply sublist_take].
Qed.
End NewsMonitorRuns.

(** ** paper_tracker_v2.py: what a run does *)

Section PaperTrackerV2Facts.
Import PaperTrackerV2.

(** Fetching prints nothing. *)
Lemma collect_silent r categories w :
  collect r categories w = (w, (collect r categories []).2).
Proof.
  revert w. induction categories as [|c cs IH]; intros w; simpl; [done|].
  destruct (feed r c) as [|entries]; [done|].
  unfold bind. rewrite (IH w), (IH []).
  by destruct (collect r cs []).2.
Qed.

Lemma fetch_arxiv_papers_silent r w :
  fetch_arxiv_papers r w = (w, (fetch_arxiv_papers r []).2).
Proof.
  unfold fetch_arxiv_papers, bind.
  rewrite (collect_silent r _ w), (collect_silent r _ []).
  by destruct (collect r arxiv_categories []).2.
Qed.

Lemma fetch_arxiv_papers_spec r :
  (fetch_arxiv_papers r []).2 =
  match (collect r arxiv_categories []).2 with
  | Return papers =>
      Return (take max_papers (unique ∅ (sort_by key_lt sort_key papers)))
  | Raise e => Raise e
  end.
Proof.
  unfold fetch_arxiv_papers, bind. rewrite (collect_silent r _ []).
  by destruct (collect r arxiv_categories []).2.
Qed.

Lemma selected_collected r :
  selected r = [] ∨
  selected r = take max_papers (unique ∅ (sort_by key_lt sort_key (collected r))).
Proof.
  unfold selected, collected.
  rewrite (surjective_pairing (fetch_arxiv_papers r [])), fetch_arxiv_papers_spec.
  rewrite (surjective_pairing (collect r arxiv_categories [])).
  destruct (collect r arxiv_categories []).2; auto.
Qed.

Lemma paper_of_score c e p : paper_of c e = Some p → 0 < raw_score p.
Proof.
  unfold paper_of. destruct (id_match e); [|done].
  case_bool_decide; [|done]. by intros [= <-].
Qed.

Lemma collect_score r categories papers p :
  (collect r categories []).2 = Return papers → p ∈ papers → 0 < raw_score p.
Proof.
  revert papers. induction categories as [|c cs IH]; intros papers; simpl.
  - intros [= <-]. by intros ?%elem_of_nil.
  - destruct (feed r c) as [|entries]; [done|].
    unfold bind. rewrite (collect_silent r cs []).
    destruct (collect r cs []).2 as [rest|]; [|done].
    intros [= <-]. rewrite elem_of_app, list_elem_of_omap.
    intros [(e & _ & He)|Hp]; [by eapply paper_of_score|by eapply IH].
Qed.

Lemma collected_score r p : p ∈ collected r → 0 < raw_score p.
Proof.
  unfold collected. rewrite (surjective_pairing (collect r arxiv_categories [])).
  destruct (collect r arxiv_categories []).2 eqn:E; [|by intros ?%elem_of_nil].
  by eapply collect_score.
Qed.

Lemma unique_sublist seen papers : unique seen papers `sublist_of` papers.
Proof.
  revert seen. induction papers as [|p l IH]; intros seen; simpl; [done|].
  destruct (decide (id p ∈ seen)); [apply sublist_cons|apply sublist_skip]; apply IH.
Qed.

(** No identifier comes twice. *)
Lemma unique_NoDup seen papers :
  NoDup (id <$> unique seen papers)
  ∧ ∀ p, p ∈ unique seen papers → id p ∉ seen.
Proof.
  revert seen. induction papers as [|p l IH]; intros seen; simpl.
  - split; [constructor|]. by intros ? ?%elem_of_nil.
  - destruct (decide (id p ∈ seen)) as [Hp|Hp]; [apply IH|].
    destruct (IH ({[id p]} ∪ seen)) as [Hn Hs]. split.
    + rewrite fmap_cons. constructor; [|done].
      intros (q & Hq & Hin)%list_elem_of_fmap.
      apply Hs in Hin. set_solver.
    + intros q [->|Hq]%elem_of_cons; [done|].
      apply Hs in Hq. set_solver.
Qed.

Lemma selected_sublist r :
  selected r `sublist_of` sort_by key_lt sort_key (collected r).
Proof.
  destruct (selected_collected r) as [-> | ->]; [apply sublist_nil_l|].
  etrans; [apply sublist_take|apply unique_sublist].
Qed.

Lemma elem_of_selected_v2 r p : p ∈ selected r → p ∈ collected r.
Proof.
  intros Hp. eapply elem_of_sort_by, elem_of_sublist; [done|apply selected_sublist].
Qed.

Lemma selected_score r p : p ∈ selected r → 0 < raw_score p.
Proof. intros ?%elem_of_selected_v2. by eapply collected_score. Qed.

(** The digests of a run: the briefing of the papers selected, handed to
    the gateway, and printed too when it is not delivered. *)
Lemma v2_digests_of_spec r :
  digests_of r =
  match selected r with
  | [] => []
  | papers =>
      let b := format_briefing r papers (review_result_of r) in
      if delivered r then [b] else [b; b]
  end.
Proof.
  unfold digests_of, selected, exec, main, bind, print, emit.
  rewrite (fetch_arxiv_papers_silent r _).
  rewrite (surjective_pairing (fetch_arxiv_papers r [])).
  rewrite (fetch_arxiv_papers_silent r []). simpl.
  destruct (fetch_arxiv_papers r []).2 as [[|p l]|e]; simpl; try done.
  unfold review_with_claude_code, review_result_of, send_to_telegram,
    bind, print, emit.
  destruct (claude r) as [| |a]; simpl;
    try destruct (has_key a); destruct (delivered r); done.
Qed.

(** A line of a digest shows a paper selected. *)
Lemma v2_line_selected r b l :
  b ∈ digests_of r → l ∈ lines b → ∃ p, p ∈ selected r ∧ link_of l = url p.
Proof.
  rewrite v2_digests_of_spec.
  destruct (selected r) as [|p ps] eqn:E; [by intros ?%elem_of_nil|].
  simpl. intros Hb.
  assert (b = format_briefing r (p :: ps) (review_result_of r)) as ->
    by (destruct (delivered r); set_solver).
  unfold format_briefing.
  destruct (review_result_of r) as [a|]; [destruct (has_key a)|]; cbn [lines].
  - intros (q & -> & Hq)%list_elem_of_fmap. eauto.
  - intros (q & -> & Hq)%list_elem_of_fmap. exists q. split; [|done].
    eapply elem_of_sublist; [done|apply (sublist_take (p :: ps) 5)].
  - intros (q & -> & Hq)%list_elem_of_fmap. exists q. split; [|done].
    eapply elem_of_sublist; [done|apply (sublist_take (p :: ps) 5)].
Qed.
End PaperTrackerV2Facts.

(** * The claims *)

(** C1: an identifier that the tracking file holds for a category is shown
    in no digest of a later run in that category, whatever the later run
    fetches and however many runs lie in between.  In [paper_tracker.py] the
    category is the only one; in [news_monitor.py] it is one of the four. *)
Theorem C1_tracked_never_shown_again :
  (∀ f rs r i m,
     i ∈ PaperTracker.tracked_in f →
     m ∈ PaperTracker.digests_of r (PaperTracker.file_after_all f rs) →
     ¬ PaperTracker.shows m i)
  ∧ (∀ c f rs r u m,
       u ∈ NewsMonitor.tracked_in c f →
       m ∈ NewsMonitor.digests_of r (NewsMonitor.file_after_all f rs) →
       ¬ NewsMonitor.shows c m u).
Proof.
  split.
  - intros f rs r i m Hi Hm Hs.
    eapply shown_not_tracked; [done..|]. by apply tracked_in_grows.
  - intros c f rs r u m Hu Hm Hs.
    destruct (news_shows_selected _ _ _ _ _ Hm Hs) as (x & Hx & <-).
    apply news_elem_of_selected in Hx as [Hx _].
    apply Hx. by apply news_tracked_in_grows.
Qed.

(** C1 on the sample runs: after the first run the file holds 2401.00002
    and the story of item 1; the later runs find both again, with another
    title and another score, and show neither. *)
Lemma C1_witness :
  ¬ PaperTracker.shows
      {| PaperTracker.date := "2026-01-05T08:00";
         PaperTracker.entries :=
           [ {| PaperTracker.rank := 1;
                PaperTracker.heading := "Emergent coordination";
                PaperTracker.url := "https://arxiv.org/2401.00004";
                PaperTracker.stars := 2 |} ];
         PaperTracker.total := 1 |}
      "2401.00002"
  ∧ ¬ NewsMonitor.shows NewsMonitor.HN
        {| NewsMonitor.time := "2026-01-06T08:00";
           NewsMonitor.news :=
             [ NewsMonitor.Story "GPT news"
                 "https://news.ycombinator.com/item?id=2" 7 ];
           NewsMonitor.github := [];
           NewsMonitor.conferences := [];
           NewsMonitor.blog := [] |}
        "https://news.ycombinator.com/item?id=1".
Proof.
  split.
  - apply (proj1 C1_tracked_never_shown_again
             (PaperTracker.file_after PaperTracker.Absent
                (Samples.paper_run (Some Samples.arxiv_page) None))
             []
             (Samples.paper_run (Some Samples.arxiv_page_later) (Some "ok"))).
    + vm_compute. reflexivity.
    + vm_compute. left.
  - apply (proj2 C1_tracked_never_shown_again NewsMonitor.HN
             (NewsMonitor.file_after NewsMonitor.Absent (Samples.news_run None))
             []
             Samples.news_run_later).
    + vm_compute. left.
    + vm_compute. left.
Defined.

(** C2, as stated, fails on a file that is not JSON: [json.load] raises and
    neither loader catches it. *)
Lemma C2_corrupt_file_raises :
  PaperTracker.load_tracked (PaperTracker.start PaperTracker.Corrupt)
  = (PaperTracker.start PaperTracker.Corrupt, Raise JSONDecodeError)
  ∧ NewsMonitor.load_config (NewsMonitor.start NewsMonitor.Corrupt)
    = (NewsMonitor.start NewsMonitor.Corrupt, Raise JSONDecodeError)
  ∧ ¬ (∀ f, ∃ x, (PaperTracker.load_tracked (PaperTracker.start f)).2 = Return x)
  ∧ ¬ (∀ f, ∃ x, (NewsMonitor.load_config (NewsMonitor.start f)).2 = Return x).
Proof.
  split; [done|]. split; [done|]. split.
  - intros H. by destruct (H PaperTracker.Corrupt) as [x Hx].
  - intros H. by destruct (H NewsMonitor.Corrupt) as [x Hx].
Qed.

(** C2, amended: when the tracking file is absent, loading returns the empty
    state (no identifier in any category, no last run) and changes nothing;
    loading raises exactly when the file is not JSON, the exception is
    [JSONDecodeError], and the run then ends with it before anything is
    fetched, with the file as it was. *)
Theorem C2_load_absent_or_corrupt :
  (∀ w, PaperTracker.disk w = PaperTracker.Absent →
        PaperTracker.load_tracked w = (w, Return (∅, None)))
  ∧ (∀ w e, (PaperTracker.load_tracked w).2 = Raise e ↔
            PaperTracker.disk w = PaperTracker.Corrupt ∧ e = JSONDecodeError)
  ∧ (∀ r, PaperTracker.exec r PaperTracker.Corrupt
          = ({| PaperTracker.disk := PaperTracker.Corrupt;
                PaperTracker.out :=
                  [PaperTracker.Print (PaperTracker.Banner (PaperTracker.now r))] |},
             Raise JSONDecodeError))
  ∧ (∀ w, NewsMonitor.disk w = NewsMonitor.Absent →
          NewsMonitor.load_config w
          = (w, Return {| NewsMonitor.tracked_hn := Some [];
                          NewsMonitor.tracked_gh := Some [];
                          NewsMonitor.tracked_conf := Some [];
                          NewsMonitor.tracked_blog := Some [];
                          NewsMonitor.last_run := None |}))
  ∧ (∀ w e, (NewsMonitor.load_config w).2 = Raise e ↔
            NewsMonitor.disk w = NewsMonitor.Corrupt ∧ e = JSONDecodeError)
  ∧ (∀ r, NewsMonitor.exec r NewsMonitor.Corrupt
          = ({| NewsMonitor.disk := NewsMonitor.Corrupt;
                NewsMonitor.out :=
                  [NewsMonitor.Print (NewsMonitor.Banner (NewsMonitor.now r))] |},
             Raise JSONDecodeError)).
Proof.
  split; [|split; [|split; [|split; [|split]]]].
  - intros w Hw. unfold PaperTracker.load_tracked. by rewrite Hw.
  - intros w e. unfold PaperTracker.load_tracked, ret, raise.
    destruct (PaperTracker.disk w); simpl; naive_solver.
  - intros r. unfold PaperTracker.exec, PaperTracker.main, bind.
    by rewrite (find_new_spec r PaperTracker.Corrupt).
  - intros w Hw. unfold NewsMonitor.load_config. by rewrite Hw.
  - intros w e. unfold NewsMonitor.load_config, ret, raise.
    destruct (NewsMonitor.disk w); simpl; naive_solver.
  - done.
Qed.

(** C2 amended, on a run that starts without a file and on a file that is
    not JSON. *)
Lemma C2_witness :
  PaperTracker.load_tracked (PaperTracker.start PaperTracker.Absent)
  = (PaperTracker.start PaperTracker.Absent, Return (∅, None))
  ∧ (PaperTracker.load_tracked (PaperTracker.start PaperTracker.Corrupt)).2
    = Raise JSONDecodeError
  ∧ (NewsMonitor.load_config (NewsMonitor.start NewsMonitor.Absent)).2
    = Return (NewsMonitor.loaded NewsMonitor.Absent)
  ∧ (NewsMonitor.load_config (NewsMonitor.start NewsMonitor.Corrupt)).2
    = Raise JSONDecodeError.
Proof.
  destruct C2_load_absent_or_corrupt as (Ha & Hc & _ & Hna & Hnc & _).
  split; [apply Ha; reflexivity|].
  split; [apply Hc; split; reflexivity|].
  split; [rewrite Hna; reflexivity|].
  apply Hnc; split; reflexivity.
Defined.

(** C3: a paper of score 0 is never selected and no entry of a digest is its
    entry; every entry and every line of a digest shows a selected paper, of
    positive score.  In [paper_tracker_v2.py] a paper of score 0 is not even
    built from its feed entry. *)
Theorem C3_score_zero_never_shown :
  (∀ p r f,
     PaperTracker.score p = 0 →
     (p ∉ PaperTracker.selected r f)
     ∧ ∀ m k, m ∈ PaperTracker.digests_of r f →
              PaperTracker.entry_of k p ∉ PaperTracker.entries m)
  ∧ (∀ r f m e,
       m ∈ PaperTracker.digests_of r f → e ∈ PaperTracker.entries m →
       ∃ k p, p ∈ PaperTracker.selected r f ∧ 0 < PaperTracker.score p
              ∧ e = PaperTracker.entry_of k p)
  ∧ (∀ p r c e,
       PaperTrackerV2.raw_score p = 0 →
       PaperTrackerV2.paper_of c e ≠ Some p ∧ p ∉ PaperTrackerV2.selected r)
  ∧ (∀ r b l,
       b ∈ PaperTrackerV2.digests_of r → l ∈ PaperTrackerV2.lines b →
       ∃ p, p ∈ PaperTrackerV2.selected r ∧ 0 < PaperTrackerV2.raw_score p
            ∧ PaperTrackerV2.link_of l = PaperTrackerV2.url p).
Proof.
  assert (∀ r f m e,
    m ∈ PaperTracker.digests_of r f → e ∈ PaperTracker.entries m →
    ∃ k p, p ∈ PaperTracker.selected r f ∧ 0 < PaperTracker.score p
           ∧ e = PaperTracker.entry_of k p) as Hentry.
  { intros r f m e Hm He.
    destruct (digest_entry r f m e Hm He) as (k & p & Hp & ->).
    exists k, p.
    assert (p ∈ PaperTracker.selected r f) as Hs.
    { eapply elem_of_sublist; [by eapply list_elem_of_lookup_2|apply sublist_take]. }
    split; [done|]. split; [|done]. by apply elem_of_selected in Hs as [? _]. }
  split; [|split; [exact Hentry|split]].
  - intros p r f Hp. split.
    + intros [? _]%elem_of_selected. lia.
    + intros m k Hm He.
      destruct (Hentry r f m _ Hm He) as (k' & q & _ & Hq & E).
      apply (f_equal PaperTracker.stars) in E. simpl in E. lia.
  - intros p r c e Hp. split.
    + intros ?%paper_of_score. lia.
    + intros ?%selected_score. lia.
  - intros r b l Hb Hl.
    destruct (v2_line_selected r b l Hb Hl) as (p & Hp & E).
    exists p. split; [done|]. split; [by eapply selected_score|done].
Qed.

(** C3 on the sample page: the paper on pasta has score 0, it is new, and
    the run does not select it. *)
Lemma C3_witness :
  Samples.pasta ∈ PaperTracker.parse_papers Samples.arxiv_page
  ∧ Samples.pasta ∉ PaperTracker.selected
                      (Samples.paper_run (Some Samples.arxiv_page) None)
                      PaperTracker.Absent.
Proof.
  split.
  - vm_compute. right. right. left.
  - apply (proj1 C3_score_zero_never_shown Samples.pasta
             (Samples.paper_run (Some Samples.arxiv_page) None)
             PaperTracker.Absent).
    reflexivity.
Defined.

(** C4, as stated, fails on [paper_tracker_v2.py]: of two papers of the same
    score the older comes first, here the paper of 1 January with identifier
    2601.00002 before the paper of 2 January with identifier 2601.00001.  The
    list is ranked neither by ascending identifier nor by descending date. *)
Lemma C4_older_paper_first :
  PaperTrackerV2.selected Samples.feed_run = [Samples.paper_two; Samples.paper_one]
  ∧ ¬ StronglySorted PaperTrackerV2.by_identifier
        (PaperTrackerV2.selected Samples.feed_run)
  ∧ ¬ StronglySorted PaperTrackerV2.newest_first
        (PaperTrackerV2.selected Samples.feed_run).
Proof.
  assert (PaperTrackerV2.selected Samples.feed_run
          = [Samples.paper_two; Samples.paper_one]) as -> by (by vm_compute).
  split; [done|].
  split; intros [_ H]%StronglySorted_inv; apply Forall_cons in H as [H _].
  - destruct H as [H|[_ H]]; simpl in H; [lia|]. by vm_compute in H.
  - destruct H as [H|[_ [[H _]|[H _]]]]; simpl in H; [lia| |done].
    by vm_compute in H.
Qed.

Lemma StronglySorted_impl {A} (R1 R2 : relation A) l :
  (∀ a b, R1 a b → R2 a b) → StronglySorted R1 l → StronglySorted R2 l.
Proof.
  intros HR. induction 1 as [|x l Hl IH Hx]; constructor; [done|].
  eapply Forall_impl; [exact Hx|]. auto.
Qed.

Lemma sublist_filter_mono {A} (P : A → Prop) `{!∀ x, Decision (P x)} l1 l2 :
  l1 `sublist_of` l2 → filter P l1 `sublist_of` filter P l2.
Proof.
  induction 1 as [|x l1 l2 Hs IH|x l1 l2 Hs IH]; [done|..];
    rewrite ?filter_cons; destruct (decide (P x)); try done.
  - by apply sublist_skip.
  - by apply sublist_cons.
Qed.

(** C4, amended: the selected papers are ordered by descending score.  In
    [paper_tracker.py] papers of one score are in ascending order of their
    identifier.  In [paper_tracker_v2.py] papers of one score are in
    ascending order of their date of publication, and papers of one score
    and one date are in the order in which the feed gave them. *)
Theorem C4_ranking :
  (∀ r f, StronglySorted PaperTracker.ranked (PaperTracker.selected r f))
  ∧ (∀ r, StronglySorted PaperTrackerV2.oldest_first (PaperTrackerV2.selected r))
  ∧ (∀ r k,
       filter (λ p, PaperTrackerV2.sort_key p = k) (PaperTrackerV2.selected r)
       `sublist_of`
       filter (λ p, PaperTrackerV2.sort_key p = k) (PaperTrackerV2.collected r)).
Proof.
  split; [|split].
  - intros r f. rewrite selected_spec.
    assert (∀ t ps, StronglySorted PaperTracker.ranked (PaperTracker.select t ps))
      as Hs.
    { intros t ps. unfold PaperTracker.select.
      eapply StronglySorted_impl;
        [|apply sort_by_sorted; [apply key_lt_asym|apply key_lt_cotrans]].
      intros a b [H|[H ?]]%key_lt_false; unfold PaperTracker.ranked;
        simpl in *; [left; lia|right; split; [lia|done]]. }
    destruct f, (PaperTracker.fetched r); (constructor || apply Hs).
  - intros r. eapply StronglySorted_sublist; [apply selected_sublist|].
    eapply StronglySorted_impl;
      [|apply sort_by_sorted; [apply key_lt_asym|apply key_lt_cotrans]].
    intros a b [H|[H ?]]%key_lt_false; unfold PaperTrackerV2.oldest_first;
      simpl in *; [left; lia|right; split; [lia|done]].
  - intros r k.
    rewrite <- (sort_by_stable key_lt PaperTrackerV2.sort_key key_lt_irrefl k
                  (PaperTrackerV2.collected r)).
    apply sublist_filter_mono, selected_sublist.
Qed.





Lemma same_documents_candidates c r1 r2 :
  NewsMonitor.same_documents r1 r2 →
  NewsMonitor.candidates c r1 = NewsMonitor.candidates c r2.
Proof.
  intros (H1 & H2 & H3 & H4 & H5 & H6).
  unfold NewsMonitor.candidates, NewsMonitor.parser.
  destruct c.
  - unfold NewsMonitor.parse_hacker_news. by rewrite H1.
  - unfold NewsMonitor.parse_github_trending. by rewrite H2.
  - unfold NewsMonitor.parse_conferences. by rewrite H3, H4.
  - unfold NewsMonitor.parse_ai_blogs. by rewrite H5, H6.
Qed.

Lemma same_documents_found r1 r2 f :
  NewsMonitor.same_documents r1 r2 → NewsMonitor.found r1 f = NewsMonitor.found r2 f.
Proof.
  intros H. unfold NewsMonitor.found.
  by rewrite !(same_documents_candidates _ r1 r2 H).
Qed.





(** No category selects anything: the run is quiet and leaves the file. *)
Lemma news_nothing_selected r f :
  (∀ c, NewsMonitor.selected c r f = []) →
  NewsMonitor.digests_of r f = []
  ∧ NewsMonitor.writes (NewsMonitor.out (NewsMonitor.exec r f).1) = []
  ∧ NewsMonitor.file_after f r = f.
Proof.
  intros H.
  rewrite news_digests_of_spec, news_writes_spec, news_file_after_spec.
  destruct (NewsMonitor.found r f) as [[data s]|e] eqn:Ef; [|done].
  assert (NewsMonitor.new_hn s ++ NewsMonitor.new_gh s
          ++ NewsMonitor.new_conf s ++ NewsMonitor.new_blog s = []) as ->; [|done].
  pose proof (H NewsMonitor.HN) as H1. pose proof (H NewsMonitor.GH) as H2.
  pose proof (H NewsMonitor.Conf) as H3. pose proof (H NewsMonitor.Blog) as H4.
  rewrite news_selected_spec, Ef in H1, H2, H3, H4. simpl in *.
  by rewrite H1, H2, H3, H4.
Qed.

Lemma nothing_selected r f :
  PaperTracker.selected r f = [] →
  PaperTracker.digests_of r f = []
  ∧ PaperTracker.writes (PaperTracker.out (PaperTracker.exec r f).1) = []
  ∧ PaperTracker.file_after f r = f.
Proof.
  intros H. rewrite digests_of_spec, file_after_spec, H.
  split; [done|]. split; [|done].
  destruct (exec_nothing r f H) as [[e ->]| ->]; done.
Qed.



Lemma posted_in_digests evs m :
  PaperTracker.Post m ∈ evs → m ∈ PaperTracker.digests evs.
Proof.
  intros H. apply list_elem_of_omap. by exists (PaperTracker.Post m).
Qed.

Lemma news_posted_in_digests evs m :
  NewsMonitor.Post m ∈ evs → m ∈ NewsMonitor.digests evs.
Proof.
  intros H. apply list_elem_of_omap. by exists (NewsMonitor.Post m).
Qed.

(** C6: when a run selects nothing in any category, it builds no digest,
    posts nothing to the gateway, does not write the tracking file, and the
    file after the run is the file before it. *)
Theorem C6_nothing_selected_is_noop :
  (∀ r f,
     PaperTracker.selected r f = [] →
     PaperTracker.digests_of r f = []
     ∧ (∀ m, PaperTracker.Post m ∉ PaperTracker.out (PaperTracker.exec r f).1)
     ∧ PaperTracker.writes (PaperTracker.out (PaperTracker.exec r f).1) = []
     ∧ PaperTracker.file_after f r = f)
  ∧ (∀ r f,
       (∀ c, NewsMonitor.selected c r f = []) →
       NewsMonitor.digests_of r f = []
       ∧ (∀ m, NewsMonitor.Post m ∉ NewsMonitor.out (NewsMonitor.exec r f).1)
       ∧ NewsMonitor.writes (NewsMonitor.out (NewsMonitor.exec r f).1) = []
       ∧ NewsMonitor.file_after f r = f).
Proof.
  split.
  - intros r f H. destruct (nothing_selected r f H) as (Hd & Hw & Hf).
    repeat split; try done.
    intros m Hm%posted_in_digests.
    unfold PaperTracker.digests_of in Hd. rewrite Hd in Hm. by apply elem_of_nil in Hm.
  - intros r f H. destruct (news_nothing_selected r f H) as (Hd & Hw & Hf).
    repeat split; try done.
    intros m Hm%news_posted_in_digests.
    unfold NewsMonitor.digests_of in Hd. rewrite Hd in Hm. by apply elem_of_nil in Hm.
Qed.

(** C6 on the sample runs: the second run on the same page and the same
    documents selects nothing. *)
Lemma C6_witness :
  PaperTracker.file_after
    (PaperTracker.file_after PaperTracker.Absent
       (Samples.paper_run (Some Samples.arxiv_page) None))
    (Samples.paper_run (Some Samples.arxiv_page) None)
  = PaperTracker.file_after PaperTracker.Absent
      (Samples.paper_run (Some Samples.arxiv_page) None)
  ∧ NewsMonitor.file_after
      (NewsMonitor.file_after NewsMonitor.Absent (Samples.news_run None))
      (Samples.news_run None)
    = NewsMonitor.file_after NewsMonitor.Absent (Samples.news_run None).
Proof.
  split.
  - apply (proj1 C6_nothing_selected_is_noop
             (Samples.paper_run (Some Samples.arxiv_page) None)
             (PaperTracker.file_after PaperTracker.Absent
                (Samples.paper_run (Some Samples.arxiv_page) None))).
    vm_compute. reflexivity.
  - apply (proj2 C6_nothing_selected_is_noop (Samples.news_run None)
             (NewsMonitor.file_after NewsMonitor.Absent (Samples.news_run None))).
    intros []; vm_compute; reflexivity.
Defined.

Lemma selected_with_reply r f answer :
  PaperTracker.selected (PaperTracker.with_reply r answer) f
  = PaperTracker.selected r f.
Proof. by rewrite !selected_spec. Qed.

Lemma file_after_with_reply r f answer :
  PaperTracker.file_after f (PaperTracker.with_reply r answer)
  = PaperTracker.file_after f r.
Proof. by rewrite !file_after_spec, selected_with_reply. Qed.

Lemma news_found_with_reply r f answer :
  NewsMonitor.found (NewsMonitor.with_reply r answer) f = NewsMonitor.found r f.
Proof. symmetry. by apply same_documents_found. Qed.

Lemma news_file_after_with_reply r f answer :
  NewsMonitor.file_after f (NewsMonitor.with_reply r answer)
  = NewsMonitor.file_after f r.
Proof. by rewrite !news_file_after_spec, news_found_with_reply. Qed.

(** A run of the monitor that selects an item, in terms of what it
    selects. *)
Lemma news_exec_selected r f c :
  NewsMonitor.selected c r f ≠ [] →
  let message :=
    NewsMonitor.format_message r
      (NewsMonitor.selected NewsMonitor.HN r f)
      (NewsMonitor.selected NewsMonitor.GH r f)
      (NewsMonitor.selected NewsMonitor.Conf r f)
      (NewsMonitor.selected NewsMonitor.Blog r f) in
  ∃ evs saved,
    NewsMonitor.quiet evs ∧
    NewsMonitor.exec r f =
    ({| NewsMonitor.disk := saved;
        NewsMonitor.out :=
          evs ++ [NewsMonitor.Post message]
          ++ (if NewsMonitor.truthy (NewsMonitor.reply r)
              then [NewsMonitor.Print NewsMonitor.Sent]
              else (if NewsMonitor.reply r is None
                    then [NewsMonitor.Print NewsMonitor.TelegramError] else [])
                   ++ [NewsMonitor.Print NewsMonitor.NotSent;
                       NewsMonitor.Print (NewsMonitor.Body message)])
          ++ [NewsMonitor.Write saved] |}, Return ()).
Proof.
  intros Hc. simpl.
  destruct (news_exec_spec r f) as (evs & Hq & E).
  rewrite !news_selected_spec. rewrite news_selected_spec in Hc.
  destruct (NewsMonitor.found r f) as [[data s]|e]; [|done].
  simpl in *.
  destruct (NewsMonitor.new_hn s ++ NewsMonitor.new_gh s
            ++ NewsMonitor.new_conf s ++ NewsMonitor.new_blog s) eqn:El.
  { by rewrite (part_nil c s El) in Hc. }
  eauto.
Qed.

(** C7: when the gateway gives no answer, the digest is posted, then printed
    on the console, the run ends without an exception, every selected
    identifier is in the tracking file after the run, and the file is the one
    the run leaves when the gateway answers. *)
Theorem C7_delivery_failure :
  (∀ r f,
     PaperTracker.reply r = None → PaperTracker.selected r f ≠ [] →
     let message := PaperTracker.format_message r (PaperTracker.selected r f) in
     let w := (PaperTracker.exec r f).1 in
     PaperTracker.Post message ∈ PaperTracker.out w
     ∧ PaperTracker.Print (PaperTracker.Body message) ∈ PaperTracker.out w
     ∧ (PaperTracker.exec r f).2 = Return ()
     ∧ PaperTracker.writes (PaperTracker.out w) = [PaperTracker.disk w]
     ∧ (∀ p, p ∈ PaperTracker.selected r f →
             PaperTracker.id p ∈ PaperTracker.tracked_in (PaperTracker.disk w))
     ∧ (∀ answer,
          PaperTracker.file_after f (PaperTracker.with_reply r answer)
          = PaperTracker.disk w))
  ∧ (∀ r f c,
       NewsMonitor.reply r = None → NewsMonitor.selected c r f ≠ [] →
       let message :=
         NewsMonitor.format_message r
           (NewsMonitor.selected NewsMonitor.HN r f)
           (NewsMonitor.selected NewsMonitor.GH r f)
           (NewsMonitor.selected NewsMonitor.Conf r f)
           (NewsMonitor.selected NewsMonitor.Blog r f) in
       let w := (NewsMonitor.exec r f).1 in
       NewsMonitor.Post message ∈ NewsMonitor.out w
       ∧ NewsMonitor.Print (NewsMonitor.Body message) ∈ NewsMonitor.out w
       ∧ (NewsMonitor.exec r f).2 = Return ()
       ∧ NewsMonitor.writes (NewsMonitor.out w) = [NewsMonitor.disk w]
       ∧ (∀ c' x, x ∈ NewsMonitor.selected c' r f →
                  NewsMonitor.url x ∈ NewsMonitor.tracked_in c' (NewsMonitor.disk w))
       ∧ (∀ answer,
            NewsMonitor.file_after f (NewsMonitor.with_reply r answer)
            = NewsMonitor.disk w)).
Proof.
  split.
  - intros r f Hr Hs message w.
    assert (PaperTracker.disk w = PaperTracker.file_after f r) as Hw by done.
    rewrite Hw. subst w. rewrite (exec_selected r f Hs), Hr. simpl.
    fold message.
    split; [set_solver|]. split; [set_solver|]. split; [done|].
    split; [by rewrite file_after_spec; destruct (PaperTracker.selected r f)|].
    split.
    + intros p Hp. apply tracked_in_file_after. right.
      apply list_elem_of_fmap. eauto.
    + intros answer. apply file_after_with_reply.
  - intros r f c Hr Hs message w.
    assert (NewsMonitor.disk w = NewsMonitor.file_after f r) as Hw by done.
    rewrite Hw. subst w.
    destruct (news_exec_selected r f c Hs) as (evs & saved & [Hd Hq] & E).
    fold message in E. rewrite Hr in E. simpl in E.
    assert (NewsMonitor.file_after f r = saved) as Hf
      by (unfold NewsMonitor.file_after; by rewrite E).
    rewrite E. simpl.
    split; [set_solver|]. split; [set_solver|]. split; [done|].
    split; [by rewrite writes_app, Hq, Hf|].
    split.
    + intros c' x Hx. apply news_tracked_in_file_after. right.
      apply list_elem_of_fmap. eauto.
    + intros answer. apply news_file_after_with_reply.
Qed.

(** C7 on the sample runs, with a gateway that gives no answer: the file
    after the run holds what was selected. *)
Lemma C7_witness :
  (PaperTracker.exec (Samples.paper_run (Some Samples.arxiv_page) None)
     PaperTracker.Absent).2 = Return ()
  ∧ (NewsMonitor.exec (Samples.news_run None) NewsMonitor.Absent).2 = Return ().
Proof.
  split.
  - apply (proj1 C7_delivery_failure
             (Samples.paper_run (Some Samples.arxiv_page) None) PaperTracker.Absent).
    + reflexivity.
    + vm_compute. discriminate.
  - apply (proj2 C7_delivery_failure (Samples.news_run None) NewsMonitor.Absent
             NewsMonitor.HN).
    + reflexivity.
    + vm_compute. discriminate.
Defined.

(** In [news_monitor.py] a document that cannot be fetched costs its own
    items and nothing else: the parser of Hacker News and the parser of the
    trending page return the empty list, a conference page or a blog
    contributes nothing to its list, and the other documents are read as
    before. *)
Lemma news_absent_document r w :
  (NewsMonitor.hacker_news r = None →
   (NewsMonitor.parse_hacker_news r w).2 = Return [])
  ∧ (NewsMonitor.trending r = None →
     (NewsMonitor.parse_github_trending r w).2 = Return [])
  ∧ (∀ source link, (NewsMonitor.conference source link None w).2 = Return [])
  ∧ (∀ name link, (NewsMonitor.blog_posts name link None w).2 = Return []).
Proof.
  unfold NewsMonitor.parse_hacker_news, NewsMonitor.parse_github_trending.
  split; [by intros ->|]. split; [by intros ->|]. done.
Qed.

(** In [paper_tracker.py] a page that cannot be fetched ends the run with
    the exception of curl, whatever the tracking file holds. *)
Lemma fetch_failure_aborts r f :
  f ≠ PaperTracker.Corrupt → PaperTracker.fetched r = None →
  PaperTracker.exec r f
  = ({| PaperTracker.disk := f;
        PaperTracker.out :=
          [PaperTracker.Print (PaperTracker.Banner (PaperTracker.now r))] |},
     Raise CalledProcessError).
Proof.
  intros Hf Hr. unfold PaperTracker.exec, PaperTracker.main, bind.
  rewrite find_new_spec, Hr. by destruct f.
Qed.

(** In [paper_tracker_v2.py] a category whose curl runs out of time ends
    the run with [TimeoutExpired], and the papers of the other categories
    are lost with it. *)
Lemma timeout_aborts r c :
  c ∈ PaperTrackerV2.arxiv_categories →
  PaperTrackerV2.feed r c = PaperTrackerV2.TimedOut →
  PaperTrackerV2.exec r
  = ([ PaperTrackerV2.Print (PaperTrackerV2.Banner (PaperTrackerV2.now r));
       PaperTrackerV2.Print PaperTrackerV2.Rule;
       PaperTrackerV2.Print (PaperTrackerV2.Step 1) ],
     Raise TimeoutExpired).
Proof.
  intros Hc Hf.
  assert ((PaperTrackerV2.collect r PaperTrackerV2.arxiv_categories []).2
          = Raise TimeoutExpired) as Hr.
  { unfold PaperTrackerV2.arxiv_categories in *.
    repeat (apply elem_of_cons in Hc as [->|Hc];
            [simpl; rewrite ?Hf; unfold bind; simpl;
             repeat (destruct (PaperTrackerV2.feed r _); simpl; try done);
             by rewrite Hf in *|]).
    by apply elem_of_nil in Hc. }
  unfold PaperTrackerV2.exec, PaperTrackerV2.main, bind,
    PaperTrackerV2.print, PaperTrackerV2.emit. simpl.
  rewrite fetch_arxiv_papers_silent, fetch_arxiv_papers_spec, Hr. done.
Qed.

(** C8 fails on [paper_tracker.py]: when curl cannot fetch the page,
    [fetch_arxiv_list] raises [CalledProcessError], nothing catches it, and
    the run ends with the exception instead of an empty list of papers. *)
Theorem C8_fetch_failure_aborts :
  PaperTracker.fetch_arxiv_list (Samples.paper_run None (Some "ok"))
    (PaperTracker.start PaperTracker.Absent)
  = (PaperTracker.start PaperTracker.Absent, Raise CalledProcessError)
  ∧ PaperTracker.exec (Samples.paper_run None (Some "ok")) PaperTracker.Absent
    = ({| PaperTracker.disk := PaperTracker.Absent;
          PaperTracker.out :=
            [PaperTracker.Print (PaperTracker.Banner "2026-01-05T08:00")] |},
       Raise CalledProcessError).
Proof. split; reflexivity. Qed.

Lemma load_tracked_spec f :
  f ≠ PaperTracker.Corrupt →
  PaperTracker.load_tracked (PaperTracker.start f)
  = (PaperTracker.start f,
     Return (PaperTracker.tracked_in f,
             match f with
             | PaperTracker.Json data => PaperTracker.last_run data
             | _ => None
             end)).
Proof. by destruct f. Qed.

(** C9: every identifier a run selects is, under its category, in the state
    loaded from the tracking file after the run; and an identifier the file
    holds for a category is still held for it after any number of runs. *)
Theorem C9_tracking_persists_and_grows :
  (∀ r f p,
     p ∈ PaperTracker.selected r f →
     ∃ tracked last,
       PaperTracker.load_tracked (PaperTracker.start (PaperTracker.file_after f r))
       = (PaperTracker.start (PaperTracker.file_after f r), Return (tracked, last))
       ∧ PaperTracker.id p ∈ tracked)
  ∧ (∀ f rs i,
       i ∈ PaperTracker.tracked_in f →
       i ∈ PaperTracker.tracked_in (PaperTracker.file_after_all f rs))
  ∧ (∀ c r f x,
       x ∈ NewsMonitor.selected c r f →
       ∃ data,
         NewsMonitor.load_config (NewsMonitor.start (NewsMonitor.file_after f r))
         = (NewsMonitor.start (NewsMonitor.file_after f r), Return data)
         ∧ NewsMonitor.url x ∈ NewsMonitor.tracked_of c data)
  ∧ (∀ c f rs u,
       u ∈ NewsMonitor.tracked_in c f →
       u ∈ NewsMonitor.tracked_in c (NewsMonitor.file_after_all f rs)).
Proof.
  split; [|split; [|split]].
  - intros r f p Hp.
    assert (PaperTracker.id p ∈ PaperTracker.tracked_in (PaperTracker.file_after f r))
      as Hi.
    { apply tracked_in_file_after. right. apply list_elem_of_fmap. eauto. }
    assert (PaperTracker.file_after f r ≠ PaperTracker.Corrupt) as Hf.
    { intros E. rewrite E in Hi. by apply not_elem_of_empty in Hi. }
    rewrite (load_tracked_spec _ Hf). eauto.
  - intros f rs i. apply tracked_in_grows.
  - intros c r f x Hx.
    assert (NewsMonitor.url x
            ∈ NewsMonitor.tracked_in c (NewsMonitor.file_after f r)) as Hu.
    { apply news_tracked_in_file_after. right. apply list_elem_of_fmap. eauto. }
    destruct (NewsMonitor.file_after f r) as [| |data] eqn:E;
      try (by apply elem_of_nil in Hu).
    exists data. done.
  - intros c f rs u. apply news_tracked_in_grows.
Qed.

(** C9 on the sample runs: the identifier selected by the first run is
    still in the file after a second run on another page. *)
Lemma C9_witness :
  "2401.00002"
  ∈ PaperTracker.tracked_in
      (PaperTracker.file_after_all PaperTracker.Absent
         [ Samples.paper_run (Some Samples.arxiv_page) None;
           Samples.paper_run (Some Samples.arxiv_page_later) (Some "ok") ])
  ∧ "https://news.ycombinator.com/item?id=1"
    ∈ NewsMonitor.tracked_in NewsMonitor.HN
        (NewsMonitor.file_after_all NewsMonitor.Absent
           [ Samples.news_run None; Samples.news_run_later ]).
Proof.
  destruct C9_tracking_persists_and_grows as (_ & Hp & _ & Hn).
  split.
  - apply (Hp (PaperTracker.file_after PaperTracker.Absent
                 (Samples.paper_run (Some Samples.arxiv_page) None))
              [Samples.paper_run (Some Samples.arxiv_page_later) (Some "ok")]).
    vm_compute. reflexivity.
  - apply (Hn NewsMonitor.HN
              (NewsMonitor.file_after NewsMonitor.Absent (Samples.news_run None))
              [Samples.news_run_later]).
    vm_compute. left.
Defined.

Lemma parse_papers_ids h :
  PaperTracker.id <$> PaperTracker.parse_papers h = PaperTracker.ids h.
Proof.
  unfold PaperTracker.parse_papers.
  rewrite fmap_imap, (imap_ext _ (const Datatypes.id)) by done.
  by rewrite imap_const, list_fmap_id.
Qed.

Lemma sublist_fmap_mono {A B} (g : A → B) l1 l2 :
  l1 `sublist_of` l2 → g <$> l1 `sublist_of` g <$> l2.
Proof.
  induction 1; rewrite ?fmap_cons; [done|by apply sublist_skip|by apply sublist_cons].
Qed.

(** On a page without a repeated identifier no identifier is selected
    twice. *)
Lemma selected_NoDup r f h :
  PaperTracker.fetched r = Some h → NoDup (PaperTracker.ids h) →
  NoDup (PaperTracker.id <$> PaperTracker.selected r f).
Proof.
  intros Hh Hn. rewrite selected_spec, Hh.
  assert (∀ t, NoDup (PaperTracker.id <$> PaperTracker.select t (PaperTracker.parse_papers h)))
    as Hs.
  { intros t. unfold PaperTracker.select. rewrite sort_by_perm.
    eapply sublist_NoDup; [|apply sublist_fmap_mono, sublist_filter].
    by rewrite parse_papers_ids. }
  destruct f; (apply Hs || constructor).
Qed.

(** C10 fails on a page that lists an identifier twice: [parse_papers]
    returns a paper for each match, the copy ranked first is shown by the
    digest, and the copy ranked seventh, beyond the five shown, has an
    identifier that the digest of this very run shows. *)
Theorem C10_repeated_identifier_shown :
  let r := Samples.paper_run (Some Samples.arxiv_page_repeat) (Some "ok") in
  let f := PaperTracker.Absent in
  5 < length (PaperTracker.selected r f)
  ∧ Samples.repeated ∈ drop 5 (PaperTracker.selected r f)
  ∧ PaperTracker.id Samples.repeated
    ∈ PaperTracker.tracked_in (PaperTracker.file_after f r)
  ∧ ∃ m, m ∈ PaperTracker.digests_of r f
         ∧ PaperTracker.shows m (PaperTracker.id Samples.repeated).
Proof.
  cbv zeta. split; [vm_compute; lia|]. split; [vm_compute; right; left|].
  split; [apply (bool_decide_unpack _); vm_compute; exact I|].
  eexists. split; [vm_compute; left|]. vm_compute. left.
Qed.

Lemma shows_iff r f m i :
  m ∈ PaperTracker.digests_of r f →
  PaperTracker.shows m i ↔ i ∈ PaperTracker.id <$> take 5 (PaperTracker.selected r f).
Proof.
  intros Hm. split.
  - intros Hs. destruct (shows_selected r f m i Hm Hs) as (q & Hq & <-).
    apply list_elem_of_fmap. eauto.
  - intros (q & -> & Hq)%list_elem_of_fmap.
    assert (PaperTracker.link q = "https://arxiv.org/" +:+ PaperTracker.id q) as Hl.
    { eapply elem_of_sublist in Hq; [|apply sublist_take].
      apply elem_of_selected in Hq as (_ & _ & h & _ & Hp).
      by apply parse_papers_link in Hp. }
    rewrite digests_of_spec in Hm.
    destruct (PaperTracker.selected r f) as [|q0 l] eqn:E;
      [by apply elem_of_nil in Hm|].
    assert (m = PaperTracker.format_message r (q0 :: l)) as ->
      by (destruct (PaperTracker.truthy (PaperTracker.reply r)); set_solver).
    unfold PaperTracker.shows, PaperTracker.format_message.
    cbn [PaperTracker.entries].
    apply list_elem_of_lookup_1 in Hq as [k Hk].
    apply list_elem_of_fmap. exists (PaperTracker.entry_of k q).
    split; [by rewrite <- Hl|].
    apply (list_elem_of_lookup_2 _ k). by rewrite list_lookup_imap, Hk.
Qed.

(** C10, amended: when a run selects more than five papers, each paper
    after the fifth is recorded in the tracking file.  No digest of an
    earlier run that led to the file has shown its identifier and no digest
    of a later run shows it.  The digest of the run itself has five entries
    and shows the identifier exactly when one of the five first papers
    selected has it too, which a page that repeats no identifier excludes. *)
Theorem C10_beyond_cap_tracked f0 before r p :
  let f := PaperTracker.file_after_all f0 before in
  5 < length (PaperTracker.selected r f) →
  p ∈ drop 5 (PaperTracker.selected r f) →
  PaperTracker.id p ∈ PaperTracker.tracked_in (PaperTracker.file_after f r)
  ∧ (∀ m, m ∈ PaperTracker.digests_of r f →
          length (PaperTracker.entries m) = 5
          ∧ (PaperTracker.shows m (PaperTracker.id p) ↔
             PaperTracker.id p
             ∈ PaperTracker.id <$> take 5 (PaperTracker.selected r f))
          ∧ (∀ h, PaperTracker.fetched r = Some h →
                  NoDup (PaperTracker.ids h) →
                  ¬ PaperTracker.shows m (PaperTracker.id p)))
  ∧ (∀ rs1 rk rs2 m,
       before = rs1 ++ rk :: rs2 →
       m ∈ PaperTracker.digests_of rk (PaperTracker.file_after_all f0 rs1) →
       ¬ PaperTracker.shows m (PaperTracker.id p))
  ∧ (∀ after r' m,
       m ∈ PaperTracker.digests_of r'
             (PaperTracker.file_after_all (PaperTracker.file_after f r) after) →
       ¬ PaperTracker.shows m (PaperTracker.id p)).
Proof.
  intros f Hlen Hp.
  assert (p ∈ PaperTracker.selected r f) as Hsel
    by (eapply elem_of_sublist; [done|apply sublist_drop]).
  assert (PaperTracker.id p ∈ PaperTracker.tracked_in (PaperTracker.file_after f r))
    as Hi.
  { apply tracked_in_file_after. right. apply list_elem_of_fmap. eauto. }
  split; [done|]. split; [|split].
  - intros m Hm. split; [|split].
    + rewrite digests_of_spec in Hm.
      destruct (PaperTracker.selected r f) as [|q l] eqn:E; [simpl in Hlen; lia|].
      assert (m = PaperTracker.format_message r (q :: l)) as ->
        by (destruct (PaperTracker.truthy (PaperTracker.reply r)); set_solver).
      unfold PaperTracker.format_message. cbn [PaperTracker.entries].
      rewrite length_imap, length_take. lia.
    + by apply shows_iff.
    + intros h Hh Hn Hs. apply (shows_iff r f m _ Hm) in Hs.
      pose proof (selected_NoDup r f h Hh Hn) as Hnd.
      rewrite <- (take_drop 5 (PaperTracker.selected r f)), fmap_app in Hnd.
      apply NoDup_app in Hnd as (_ & Hnd & _).
      apply (Hnd (PaperTracker.id p)); [done|]. apply list_elem_of_fmap; eauto.
  - intros rs1 rk rs2 m -> Hm Hs.
    destruct (shows_selected _ _ m _ Hm Hs) as (q & Hq & E).
    apply elem_of_selected in Hsel as (_ & Hnot & _). apply Hnot.
    subst f. unfold PaperTracker.file_after_all. rewrite foldl_app. simpl.
    apply tracked_in_grows, tracked_in_file_after. right.
    apply list_elem_of_fmap. exists q. split; [done|].
    eapply elem_of_sublist; [done|apply sublist_take].
  - intros after r' m Hm Hs.
    eapply shown_not_tracked; [done..|]. by apply tracked_in_grows.
Qed.

(** C10 on the sample runs: after a first run on the page of three papers,
    a run on the page of seven selects all seven, and the sixth is in the
    file after the run. *)
Lemma C10_witness :
  "2401.00016"
  ∈ PaperTracker.tracked_in
      (PaperTracker.file_after
         (PaperTracker.file_after_all PaperTracker.Absent
            [Samples.paper_run (Some Samples.arxiv_page) None])
         (Samples.paper_run (Some Samples.arxiv_page_long) (Some "ok"))).
Proof.
  apply (C10_beyond_cap_tracked PaperTracker.Absent
           [Samples.paper_run (Some Samples.arxiv_page) None]
           (Samples.paper_run (Some Samples.arxiv_page_long) (Some "ok"))
           Samples.sixth).
  - vm_compute. lia.
  - vm_compute. left.
Defined.

(** * Further properties of the scripts *)

(** ** paper_tracker.py *)

Lemma length_slice_to n s : String.length (slice_to n s) ≤ n.
Proof.
  unfold slice_to. revert s.
  induction n as [|n IH]; intros [|c s]; simpl; try lia.
  specialize (IH s). lia.
Qed.

Lemma count_keywords_le keywords text :
  count_keywords keywords text ≤ length keywords.
Proof. apply length_filter. Qed.

Lemma parse_papers_lookup h i p :
  PaperTracker.parse_papers h !! i = Some p →
  PaperTracker.ids h !! i = Some (PaperTracker.id p)
  ∧ PaperTracker.link p = "https://arxiv.org/" +:+ PaperTracker.id p
  ∧ (PaperTracker.titles h !! i = None → PaperTracker.title p = "Unknown")
  ∧ (PaperTracker.abstracts h !! i = None → PaperTracker.abstract p = "")
  ∧ String.length (PaperTracker.abstract p) ≤ 200
  ∧ PaperTracker.score p ≤ 15.
Proof.
  unfold PaperTracker.parse_papers.
  rewrite list_lookup_imap_Some. intros (x & Hx & ->). simpl.
  split; [done|]. split; [done|].
  split; [by intros ->|]. split; [by intros ->|].
  split; [|apply (count_keywords_le PaperTracker.KEYWORDS)].
  destruct (PaperTracker.abstracts h !! i); [apply length_slice_to|simpl; lia].
Qed.

(** [parse_papers] returns one paper for each identifier matched, in the
    order of the page, also when fewer titles or abstracts were matched: the
    paper then has the title Unknown or an empty abstract.  The link of a
    paper is built from its identifier, its abstract has at most 200
    characters and its score is at most 15, the number of keywords. *)
Theorem parse_papers_one_per_id h :
  PaperTracker.id <$> PaperTracker.parse_papers h = PaperTracker.ids h
  ∧ ∀ i p,
      PaperTracker.parse_papers h !! i = Some p →
      PaperTracker.ids h !! i = Some (PaperTracker.id p)
      ∧ PaperTracker.link p = "https://arxiv.org/" +:+ PaperTracker.id p
      ∧ (PaperTracker.titles h !! i = None → PaperTracker.title p = "Unknown")
      ∧ (PaperTracker.abstracts h !! i = None → PaperTracker.abstract p = "")
      ∧ String.length (PaperTracker.abstract p) ≤ 200
      ∧ PaperTracker.score p ≤ 15.
Proof. split; [apply parse_papers_ids|apply parse_papers_lookup]. Qed.

(** On the page with two identifiers, one title and no abstract, the second
    paper is there, without a title. *)
Lemma parse_papers_one_per_id_witness :
  PaperTracker.title
    {| PaperTracker.id := "2401.00022";
       PaperTracker.link := "https://arxiv.org/2401.00022";
       PaperTracker.title := "Unknown";
       PaperTracker.abstract := "";
       PaperTracker.score := 0 |} = "Unknown".
Proof.
  apply (proj2 (parse_papers_one_per_id Further.short_page) 1).
  - reflexivity.
  - reflexivity.
Defined.

Lemma rank_imap_entry_of k l :
  PaperTracker.rank <$> imap (λ i, PaperTracker.entry_of (k + i)) l
  = seq (S k) (length l).
Proof.
  revert k. induction l as [|p l IH]; intros k; [done|].
  rewrite imap_cons, fmap_cons. simpl. f_equal; [f_equal; lia|].
  rewrite <- (IH (S k)). f_equal. apply imap_ext. intros i x _. simpl.
  f_equal. lia.
Qed.

(** A digest of [paper_tracker.py] shows the first five papers selected, in
    their order and numbered from 1; its last line counts all the papers
    selected.  A heading has at most 55 characters and an entry has between
    1 and 15 stars. *)
Theorem digest_shape r f m :
  m ∈ PaperTracker.digests_of r f →
  PaperTracker.entries m
  = imap PaperTracker.entry_of (take 5 (PaperTracker.selected r f))
  ∧ length (PaperTracker.entries m) = length (PaperTracker.selected r f) `min` 5
  ∧ PaperTracker.rank <$> PaperTracker.entries m
    = seq 1 (length (PaperTracker.entries m))
  ∧ PaperTracker.total m = length (PaperTracker.selected r f)
  ∧ ∀ e, e ∈ PaperTracker.entries m →
         String.length (PaperTracker.heading e) ≤ 55
         ∧ 1 ≤ PaperTracker.stars e ≤ 15.
Proof.
  intros Hm.
  assert (m = PaperTracker.format_message r (PaperTracker.selected r f)) as E.
  { rewrite digests_of_spec in Hm.
    destruct (PaperTracker.selected r f) as [|p l]; [by apply elem_of_nil in Hm|].
    destruct (PaperTracker.truthy (PaperTracker.reply r)); set_solver. }
  split; [by rewrite E|]. split; [|split; [|split]].
  - rewrite E. cbn [PaperTracker.entries PaperTracker.format_message].
    rewrite length_imap, length_take. lia.
  - rewrite E. cbn [PaperTracker.entries PaperTracker.format_message].
    rewrite length_imap. apply (rank_imap_entry_of 0).
  - by rewrite E.
  - intros e He.
    destruct (digest_entry r f m e Hm He) as (k & p & Hp & ->). simpl.
    split; [apply length_slice_to|].
    apply list_elem_of_lookup_2, elem_of_take in Hp as (j & Hj & _).
    apply list_elem_of_lookup_2, elem_of_selected in Hj as (Hs & _ & h & _ & Hp).
    split; [lia|].
    apply list_elem_of_lookup in Hp as [i Hi].
    by apply parse_papers_lookup in Hi as (_ & _ & _ & _ & _ & ?).
Qed.

(** The digest of the page of seven papers has five entries and counts
    seven. *)
Lemma digest_shape_witness :
  PaperTracker.total
    (PaperTracker.format_message
       (Samples.paper_run (Some Samples.arxiv_page_long) (Some "ok"))
       (PaperTracker.selected
          (Samples.paper_run (Some Samples.arxiv_page_long) (Some "ok"))
          PaperTracker.Absent))
  = length (PaperTracker.selected
              (Samples.paper_run (Some Samples.arxiv_page_long) (Some "ok"))
              PaperTracker.Absent).
Proof.
  apply (digest_shape
           (Samples.paper_run (Some Samples.arxiv_page_long) (Some "ok"))
           PaperTracker.Absent).
  vm_compute. left.
Defined.

Lemma track_union tracked relevant :
  PaperTracker.track tracked relevant
  = tracked ∪ list_to_set (PaperTracker.id <$> relevant).
Proof.
  apply set_eq. intros i.
  rewrite elem_of_track, elem_of_union, elem_of_list_to_set. done.
Qed.


(** The papers selected are the papers of the page that have a positive
    score and an identifier the file does not hold, each as often as the page
    has it: sorting loses none and adds none. *)
Theorem selected_is_permutation r f h :
  f ≠ PaperTracker.Corrupt → PaperTracker.fetched r = Some h →
  PaperTracker.selected r f
  ≡ₚ filter (λ p, 0 < PaperTracker.score p
                  ∧ PaperTracker.id p ∉ PaperTracker.tracked_in f)
       (PaperTracker.parse_papers h).
Proof.
  intros Hf Hh. rewrite selected_spec, Hh. unfold PaperTracker.select.
  destruct f; try done; apply sort_by_perm.
Qed.

Lemma selected_is_permutation_witness :
  length (PaperTracker.selected
            (Samples.paper_run (Some Samples.arxiv_page_long) None)
            PaperTracker.Absent) = 7.
Proof.
  rewrite (selected_is_permutation
             (Samples.paper_run (Some Samples.arxiv_page_long) None)
             PaperTracker.Absent Samples.arxiv_page_long);
    [reflexivity|discriminate|reflexivity].
Defined.

(** A run reads the tracking file as a set of identifiers: the order of the
    list, an identifier listed twice and the time of the last run change
    nothing of what is selected and shown. *)
Theorem file_read_as_set r f1 f2 :
  f1 ≠ PaperTracker.Corrupt → f2 ≠ PaperTracker.Corrupt →
  PaperTracker.tracked_in f1 = PaperTracker.tracked_in f2 →
  PaperTracker.selected r f1 = PaperTracker.selected r f2
  ∧ PaperTracker.digests_of r f1 = PaperTracker.digests_of r f2
  ∧ PaperTracker.tracked_in (PaperTracker.file_after f1 r)
    = PaperTracker.tracked_in (PaperTracker.file_after f2 r).
Proof.
  intros H1 H2 E.
  assert (PaperTracker.selected r f1 = PaperTracker.selected r f2) as Hs.
  { rewrite !selected_spec. destruct f1, f2, (PaperTracker.fetched r); try done;
      by rewrite E. }
  split; [done|]. split.
  - by rewrite !digests_of_spec, Hs.
  - apply set_eq. intros i. by rewrite !tracked_in_file_after, Hs, E.
Qed.

Lemma file_read_as_set_witness :
  PaperTracker.selected
    (Samples.paper_run (Some Samples.arxiv_page_later) None)
    (PaperTracker.file_after PaperTracker.Absent
       (Samples.paper_run (Some Samples.arxiv_page) None))
  = PaperTracker.selected
      (Samples.paper_run (Some Samples.arxiv_page_later) None)
      Further.reordered_file.
Proof.
  apply (file_read_as_set
           (Samples.paper_run (Some Samples.arxiv_page_later) None)).
  - vm_compute. discriminate.
  - discriminate.
  - apply (bool_decide_unpack _). vm_compute. exact I.
Defined.

Lemma shown_is_tracked r f m i :
  m ∈ PaperTracker.digests_of r f → PaperTracker.shows m i →
  i ∈ PaperTracker.tracked_in (PaperTracker.file_after f r).
Proof.
  intros Hm Hs. destruct (shows_selected r f m i Hm Hs) as (p & Hp & <-).
  apply tracked_in_file_after. right. apply list_elem_of_fmap.
  exists p. split; [done|]. eapply elem_of_sublist; [done|apply sublist_take].
Qed.

Lemma news_shown_is_tracked c r f m u :
  m ∈ NewsMonitor.digests_of r f → NewsMonitor.shows c m u →
  u ∈ NewsMonitor.tracked_in c (NewsMonitor.file_after f r).
Proof.
  intros Hm Hs. destruct (news_shows_selected c r f m u Hm Hs) as (x & Hx & <-).
  apply news_tracked_in_file_after. right. apply list_elem_of_fmap. eauto.
Qed.

(** What a digest shows is in the tracking file after the run, so no later
    run shows it again: an identifier is shown by the digests of at most one
    run, in [paper_tracker.py] and, category by category, in
    [news_monitor.py]. *)
Theorem shown_in_one_run_only :
  (∀ f r1 m1 i rs r2 m2,
     m1 ∈ PaperTracker.digests_of r1 f → PaperTracker.shows m1 i →
     m2 ∈ PaperTracker.digests_of r2
            (PaperTracker.file_after_all (PaperTracker.file_after f r1) rs) →
     ¬ PaperTracker.shows m2 i)
  ∧ (∀ c f r1 m1 u rs r2 m2,
       m1 ∈ NewsMonitor.digests_of r1 f → NewsMonitor.shows c m1 u →
       m2 ∈ NewsMonitor.digests_of r2
              (NewsMonitor.file_after_all (NewsMonitor.file_after f r1) rs) →
       ¬ NewsMonitor.shows c m2 u).
Proof.
  split.
  - intros f r1 m1 i rs r2 m2 H1 Hs1 H2 Hs2.
    eapply shown_not_tracked; [exact H2|exact Hs2|].
    by eapply tracked_in_grows, shown_is_tracked.
  - intros c f r1 m1 u rs r2 m2 H1 Hs1 H2 Hs2.
    destruct (news_shows_selected _ _ _ _ _ H2 Hs2) as (x & Hx & <-).
    apply news_elem_of_selected in Hx as [Hx _]. apply Hx.
    by eapply news_tracked_in_grows, news_shown_is_tracked.
Qed.

(** The first sample run shows 2401.00002; the run on the later page, which
    has the paper again, does not. *)
Lemma shown_in_one_run_only_witness :
  ¬ PaperTracker.shows
      (PaperTracker.format_message
         (Samples.paper_run (Some Samples.arxiv_page_later) (Some "ok"))
         (PaperTracker.selected
            (Samples.paper_run (Some Samples.arxiv_page_later) (Some "ok"))
            (PaperTracker.file_after PaperTracker.Absent
               (Samples.paper_run (Some Samples.arxiv_page) None))))
      "2401.00002".
Proof.
  apply (proj1 shown_in_one_run_only PaperTracker.Absent
           (Samples.paper_run (Some Samples.arxiv_page) None)
           (PaperTracker.format_message
              (Samples.paper_run (Some Samples.arxiv_page) None)
              (PaperTracker.selected
                 (Samples.paper_run (Some Samples.arxiv_page) None)
                 PaperTracker.Absent))
           "2401.00002" []
           (Samples.paper_run (Some Samples.arxiv_page_later) (Some "ok"))).
  - vm_compute. left.
  - vm_compute. left.
  - vm_compute. left.
Defined.

(** When the gateway answers with an empty body, [if result:] takes the
    answer for a failure: the digest was posted, and the run still reports
    that it was not sent and prints it.  The run then writes the tracking
    file, and the file is the one it writes after any other answer of the
    gateway. *)
Theorem empty_answer_reported_as_failure :
  (∀ r f,
     PaperTracker.reply r = Some "" → PaperTracker.selected r f ≠ [] →
     let message := PaperTracker.format_message r (PaperTracker.selected r f) in
     let evs := PaperTracker.out (PaperTracker.exec r f).1 in
     PaperTracker.Post message ∈ evs
     ∧ PaperTracker.Print PaperTracker.NotSent ∈ evs
     ∧ PaperTracker.Print (PaperTracker.Body message) ∈ evs
     ∧ PaperTracker.Print PaperTracker.Sent ∉ evs
     ∧ PaperTracker.Print PaperTracker.TelegramError ∉ evs
     ∧ PaperTracker.writes evs = [PaperTracker.file_after f r]
     ∧ ∀ answer,
         PaperTracker.file_after f (PaperTracker.with_reply r answer)
         = PaperTracker.file_after f r)
  ∧ (∀ r f c,
       NewsMonitor.reply r = Some "" → NewsMonitor.selected c r f ≠ [] →
       let message :=
         NewsMonitor.format_message r
           (NewsMonitor.selected NewsMonitor.HN r f)
           (NewsMonitor.selected NewsMonitor.GH r f)
           (NewsMonitor.selected NewsMonitor.Conf r f)
           (NewsMonitor.selected NewsMonitor.Blog r f) in
       let evs := NewsMonitor.out (NewsMonitor.exec r f).1 in
       NewsMonitor.Post message ∈ evs
       ∧ NewsMonitor.Print NewsMonitor.NotSent ∈ evs
       ∧ NewsMonitor.Print (NewsMonitor.Body message) ∈ evs
       ∧ NewsMonitor.writes evs = [NewsMonitor.file_after f r]
       ∧ ∀ answer,
           NewsMonitor.file_after f (NewsMonitor.with_reply r answer)
           = NewsMonitor.file_after f r).
Proof.
  split.
  - intros r f Hr Hs message evs. subst evs.
    unfold PaperTracker.file_after at 1.
    rewrite (exec_selected r f Hs), Hr. simpl. fold message.
    repeat split; try set_solver.
    intros answer. apply file_after_with_reply.
  - intros r f c Hr Hs message evs. subst evs.
    destruct (news_exec_selected r f c Hs) as (evs & saved & [_ Hw] & E).
    fold message in E. unfold NewsMonitor.file_after at 1.
    rewrite E, Hr. simpl.
    split; [set_solver|]. split; [set_solver|]. split; [set_solver|].
    split; [by rewrite writes_app, Hw|].
    intros answer. apply news_file_after_with_reply.
Qed.

Lemma empty_answer_reported_as_failure_witness :
  PaperTracker.Print PaperTracker.NotSent
  ∈ PaperTracker.out
      (PaperTracker.exec (Samples.paper_run (Some Samples.arxiv_page) (Some ""))
         PaperTracker.Absent).1
  ∧ NewsMonitor.Print NewsMonitor.NotSent
    ∈ NewsMonitor.out
        (NewsMonitor.exec (Samples.news_run (Some "")) NewsMonitor.Absent).1.
Proof.
  split.
  - apply (proj1 empty_answer_reported_as_failure
             (Samples.paper_run (Some Samples.arxiv_page) (Some ""))
             PaperTracker.Absent); [reflexivity|vm_compute; discriminate].
  - apply (proj2 empty_answer_reported_as_failure
             (Samples.news_run (Some "")) NewsMonitor.Absent NewsMonitor.HN);
      [reflexivity|vm_compute; discriminate].
Defined.

Lemma news_posts_app evs1 evs2 :
  Further.news_posts (evs1 ++ evs2)
  = Further.news_posts evs1 ++ Further.news_posts evs2.
Proof. apply omap_app. Qed.

Lemma quiet_no_post evs : NewsMonitor.quiet evs → Further.news_posts evs = [].
Proof.
  intros [Hd _]. apply elem_of_nil_inv. intros m Hm.
  apply list_elem_of_omap in Hm as (e & He & Hp).
  destruct e as [| m' |]; simplify_eq/=.
  apply news_posted_in_digests in He. rewrite Hd in He. by apply elem_of_nil in He.
Qed.

(** No call is made twice.  A run posts at most one digest and writes the
    tracking file at most once, and it writes the file exactly when it has
    posted a digest; a run of [paper_tracker_v2.py], which has no file, posts
    at most one digest. *)
Theorem one_post_one_write :
  (∀ r f,
     let evs := PaperTracker.out (PaperTracker.exec r f).1 in
     length (Further.paper_posts evs) ≤ 1
     ∧ length (PaperTracker.writes evs) = length (Further.paper_posts evs))
  ∧ (∀ r f,
       let evs := NewsMonitor.out (NewsMonitor.exec r f).1 in
       length (Further.news_posts evs) ≤ 1
       ∧ length (NewsMonitor.writes evs) = length (Further.news_posts evs))
  ∧ (∀ r, length (Further.feed_posts (PaperTrackerV2.exec r).1) ≤ 1).
Proof.
  split; [|split].
  - intros r f evs. subst evs.
    destruct (PaperTracker.selected r f) as [|p l] eqn:E.
    + destruct (exec_nothing r f E) as [[e ->]| ->]; simpl; lia.
    + rewrite exec_selected by (by rewrite E). simpl.
      destruct (PaperTracker.truthy (PaperTracker.reply r));
        [|destruct (PaperTracker.reply r)]; simpl; lia.
  - intros r f evs. subst evs.
    destruct (news_exec_spec r f) as (evs & Hq & ->).
    pose proof (quiet_no_post evs Hq) as Hp. destruct Hq as [_ Hw].
    destruct (NewsMonitor.found r f) as [[data s]|e]; simpl.
    + destruct (NewsMonitor.new_hn s ++ NewsMonitor.new_gh s
                ++ NewsMonitor.new_conf s ++ NewsMonitor.new_blog s); simpl.
      * rewrite news_posts_app, writes_app, Hp, Hw. simpl. lia.
      * rewrite news_posts_app, writes_app, Hp, Hw. simpl.
        destruct (NewsMonitor.truthy (NewsMonitor.reply r));
          [|destruct (NewsMonitor.reply r)]; simpl; lia.
    + rewrite Hp, Hw. simpl. lia.
  - intros r.
    unfold PaperTrackerV2.exec, PaperTrackerV2.main, bind,
      PaperTrackerV2.print, PaperTrackerV2.emit. simpl.
    rewrite fetch_arxiv_papers_silent.
    destruct (PaperTrackerV2.fetch_arxiv_papers r []).2 as [[|p l]|e]; simpl;
      try lia.
    unfold PaperTrackerV2.review_with_claude_code,
      PaperTrackerV2.send_to_telegram, bind,
      PaperTrackerV2.print, PaperTrackerV2.emit.
    destruct (PaperTrackerV2.claude r) as [| |a]; simpl;
      try destruct (PaperTrackerV2.has_key a);
      destruct (PaperTrackerV2.delivered r); simpl; lia.
Qed.

(** ** news_monitor.py *)

(** The parsers, as functions of the documents. *)
Lemma candidates_hn r :
  NewsMonitor.candidates NewsMonitor.HN r =
  match NewsMonitor.hacker_news r with
  | None => []
  | Some matches =>
      take 5 (omap (λ m,
        if any_keyword ["ai"; "llm"; "agent"; "gpt"; "neural"]
             (lower (NewsMonitor.hn_title m))
        then Some (NewsMonitor.Story (NewsMonitor.hn_title m)
                     (if startswith "http" (NewsMonitor.hn_url m)
                      then NewsMonitor.hn_url m
                      else "https://news.ycombinator.com/" +:+ NewsMonitor.hn_url m)
                     (NewsMonitor.hn_points m))
        else None) matches)
  end.
Proof.
  unfold NewsMonitor.candidates, NewsMonitor.parser, NewsMonitor.parse_hacker_news.
  by destruct (NewsMonitor.hacker_news r).
Qed.

Lemma trending_repos_items matches w :
  ∃ w' items,
    NewsMonitor.trending_repos matches w = (w', Return items)
    ∧ length items ≤ length matches
    ∧ ∀ x, x ∈ items →
        ∃ m, m ∈ matches
             ∧ x = NewsMonitor.Repo (strip (NewsMonitor.repo_name m))
                     ("https://github.com" +:+ NewsMonitor.repo_url m)
                     (NewsMonitor.stars m)
             ∧ ∃ text, NewsMonitor.desc m = Some text ∧ text ≠ ""
                       ∧ any_keyword NewsMonitor.KEYWORDS
                           (lower (NewsMonitor.repo_name m +:+ text)) = true.
Proof.
  revert w. induction matches as [|m ms IH]; intros w.
  - exists w, []. split; [done|]. split; [done|]. by intros x ?%elem_of_nil.
  - cbn [NewsMonitor.trending_repos]. unfold bind at 1.
    destruct (NewsMonitor.fetch_url (NewsMonitor.desc m) w) as [w1 d] eqn:Ed.
    assert (d = Return (NewsMonitor.desc m)) as ->.
    { pose proof (yields_result _ _ _ w
                    (yields_fetch_url (NewsMonitor.disk w) (NewsMonitor.desc m))
                    eq_refl) as [Hd _].
      by rewrite Ed in Hd. }
    unfold bind at 1. destruct (IH w1) as (w2 & items & -> & Hlen & Hitems).
    destruct (NewsMonitor.desc m) as [text|] eqn:Em.
    + destruct (negb (bool_decide (text = ""))
                && any_keyword NewsMonitor.KEYWORDS
                     (lower (NewsMonitor.repo_name m +:+ text))) eqn:Ek.
      * eexists _, _. split; [done|]. split; [simpl; lia|].
        intros x [->|Hx]%elem_of_cons.
        -- exists m. split; [left|]. split; [done|].
           apply andb_true_iff in Ek as [Hn Hk].
           exists text. split; [done|]. split; [|done].
           apply negb_true_iff in Hn. by apply bool_decide_eq_false in Hn.
        -- destruct (Hitems x Hx) as (m' & Hm' & Hrest).
           exists m'. split; [by right|done].
      * eexists _, _. split; [done|]. split; [simpl; lia|].
        intros x Hx. destruct (Hitems x Hx) as (m' & Hm' & Hrest).
        exists m'. split; [by right|done].
    + eexists _, _. split; [done|]. split; [simpl; lia|].
      intros x Hx. destruct (Hitems x Hx) as (m' & Hm' & Hrest).
      exists m'. split; [by right|done].
Qed.


Lemma conference_items source link doc w :
  (NewsMonitor.conference source link doc w).2 =
  Return (match doc with
          | Some text =>
              if negb (bool_decide (text = ""))
                 && (contains "accepted" (lower text)
                     || contains "deadline" (lower text))
              then [NewsMonitor.Update source "会议更新" link "有新的公告或更新"]
              else []
          | None => []
          end).
Proof.
  unfold NewsMonitor.conference. destruct doc as [text|]; simpl; [|done].
  unfold bind. simpl. by destruct (_ && _).
Qed.

Lemma candidates_conf r :
  ∃ a b,
    (∀ w, (NewsMonitor.conference "NeurIPS 2025" "https://nips.cc/Conferences/2025"
             (NewsMonitor.neurips r) w).2 = Return a)
    ∧ (∀ w, (NewsMonitor.conference "ICLR 2025" "https://iclr.cc/conference/2025"
               (NewsMonitor.iclr r) w).2 = Return b)
    ∧ NewsMonitor.candidates NewsMonitor.Conf r = take 5 (a ++ b).
Proof.
  eexists _, _. split; [intros w; apply conference_items|].
  split; [intros w; apply conference_items|].
  unfold NewsMonitor.candidates, NewsMonitor.parser, NewsMonitor.parse_conferences.
  unfold bind at 1.
  destruct (NewsMonitor.conference "NeurIPS 2025" _ _ _) as [w1 x] eqn:E1.
  pose proof (conference_items "NeurIPS 2025" "https://nips.cc/Conferences/2025"
                (NewsMonitor.neurips r) (NewsMonitor.start NewsMonitor.Absent)) as H1.
  rewrite E1 in H1. simpl in H1. subst x.
  unfold bind at 1.
  destruct (NewsMonitor.conference "ICLR 2025" _ _ _) as [w2 y] eqn:E2.
  pose proof (conference_items "ICLR 2025" "https://iclr.cc/conference/2025"
                (NewsMonitor.iclr r) w1) as H2.
  rewrite E2 in H2. simpl in H2. subst y. done.
Qed.

Lemma blog_posts_items name link doc w :
  (NewsMonitor.blog_posts name link doc w).2 =
  Return (match doc with
          | Some matches =>
              omap (λ m,
                let title := NewsMonitor.post_title m in
                if (10 <? String.length title)%nat
                   && negb (startswith "http" title)
                   && any_keyword ["agent"; "llm"; "multi"; "reasoning"; "planning"]
                        (lower title)
                then Some (NewsMonitor.Article name (slice_to 80 (strip title))
                             (if startswith "http" (NewsMonitor.post_url m)
                              then NewsMonitor.post_url m
                              else rstrip_with (is_char "/") link +:+ "/"
                                   +:+ lstrip_with (is_char "/")
                                         (NewsMonitor.post_url m)))
                else None) matches
          | None => []
          end).
Proof. unfold NewsMonitor.blog_posts. by destruct doc. Qed.

Lemma candidates_blog r :
  ∃ a b,
    (∀ w, (NewsMonitor.blog_posts "Lilac Weng" "https://lilianweng.github.io/"
             (NewsMonitor.lilianweng r) w).2 = Return a)
    ∧ (∀ w, (NewsMonitor.blog_posts "Sebastian Ruder" "https://ruder.io/"
               (NewsMonitor.ruder r) w).2 = Return b)
    ∧ NewsMonitor.candidates NewsMonitor.Blog r = take 5 (a ++ b).
Proof.
  eexists _, _. split; [intros w; apply blog_posts_items|].
  split; [intros w; apply blog_posts_items|].
  unfold NewsMonitor.candidates, NewsMonitor.parser, NewsMonitor.parse_ai_blogs.
  unfold bind at 1.
  destruct (NewsMonitor.blog_posts "Lilac Weng" _ _ _) as [w1 x] eqn:E1.
  pose proof (blog_posts_items "Lilac Weng" "https://lilianweng.github.io/"
                (NewsMonitor.lilianweng r) (NewsMonitor.start NewsMonitor.Absent)) as H1.
  rewrite E1 in H1. simpl in H1. subst x.
  unfold bind at 1.
  destruct (NewsMonitor.blog_posts "Sebastian Ruder" _ _ _) as [w2 y] eqn:E2.
  pose proof (blog_posts_items "Sebastian Ruder" "https://ruder.io/"
                (NewsMonitor.ruder r) w1) as H2.
  rewrite E2 in H2. simpl in H2. subst y. done.
Qed.





Lemma news_selected_sublist c r f :
  NewsMonitor.selected c r f `sublist_of` NewsMonitor.candidates c r.
Proof.
  rewrite news_selected_spec.
  destruct (NewsMonitor.found r f) as [[data s]|e] eqn:Ef; [|apply sublist_nil_l].
  apply found_return in Ef as (_ & _ & Hp & _). simpl. rewrite Hp.
  apply sublist_filter.
Qed.

Lemma candidates_le c r :
  length (NewsMonitor.candidates c r) ≤ 5
  ∧ (c = NewsMonitor.Conf → length (NewsMonitor.candidates c r) ≤ 2).
Proof.
  split.
  - destruct c.
    + rewrite candidates_hn. destruct (NewsMonitor.hacker_news r); simpl; [|lia].
      rewrite length_take. lia.
    + unfold NewsMonitor.candidates, NewsMonitor.parser,
        NewsMonitor.parse_github_trending.
      destruct (NewsMonitor.trending r) as [matches|]; simpl; [|lia].
      unfold bind at 1. simpl. unfold bind at 1.
      destruct (trending_repos_items matches
                  (NewsMonitor.start NewsMonitor.Absent)) as (w' & l & -> & _).
      simpl. rewrite length_take. lia.
    + destruct (candidates_conf r) as (a & b & _ & _ & ->).
      rewrite length_take. lia.
    + destruct (candidates_blog r) as (a & b & _ & _ & ->).
      rewrite length_take. lia.
  - intros ->. destruct (candidates_conf r) as (a & b & Ha & Hb & ->).
    specialize (Ha (NewsMonitor.start NewsMonitor.Absent)).
    specialize (Hb (NewsMonitor.start NewsMonitor.Absent)).
    rewrite conference_items in Ha, Hb. simplify_eq.
    rewrite length_take, length_app.
    destruct (NewsMonitor.neurips r) as [t1|], (NewsMonitor.iclr r) as [t2|];
      repeat (destruct (_ && _)); simpl; lia.
Qed.

Lemma news_digest_is r f m :
  m ∈ NewsMonitor.digests_of r f →
  m = NewsMonitor.format_message r
        (NewsMonitor.selected NewsMonitor.HN r f)
        (NewsMonitor.selected NewsMonitor.GH r f)
        (NewsMonitor.selected NewsMonitor.Conf r f)
        (NewsMonitor.selected NewsMonitor.Blog r f).
Proof.
  rewrite news_digests_of_spec, !news_selected_spec.
  destruct (NewsMonitor.found r f) as [[data s]|e]; [|by intros ?%elem_of_nil].
  destruct (NewsMonitor.new_hn s ++ NewsMonitor.new_gh s
            ++ NewsMonitor.new_conf s ++ NewsMonitor.new_blog s);
    [by intros ?%elem_of_nil|].
  simpl. destruct (NewsMonitor.truthy (NewsMonitor.reply r)); set_solver.
Qed.

(** Each parser returns at most five items, the parser of the conferences
    at most two.  A digest of [news_monitor.py] therefore shows every new
    story, repository and conference update, and of the new blog posts the
    first three. *)
Theorem news_digest_sections r f m :
  m ∈ NewsMonitor.digests_of r f →
  NewsMonitor.news m
  = NewsMonitor.shorten <$> NewsMonitor.selected NewsMonitor.HN r f
  ∧ NewsMonitor.github m = NewsMonitor.selected NewsMonitor.GH r f
  ∧ NewsMonitor.conferences m = NewsMonitor.selected NewsMonitor.Conf r f
  ∧ NewsMonitor.blog m = take 3 (NewsMonitor.selected NewsMonitor.Blog r f)
  ∧ length (NewsMonitor.selected NewsMonitor.Conf r f) ≤ 2
  ∧ ∀ c, length (NewsMonitor.selected c r f) ≤ 5.
Proof.
  intros ->%news_digest_is.
  assert (∀ c, length (NewsMonitor.selected c r f)
               ≤ length (NewsMonitor.candidates c r)) as Hle
    by (intros c; apply sublist_length, news_selected_sublist).
  assert (∀ c, length (NewsMonitor.selected c r f) ≤ 5) as H5.
  { intros c. pose proof (Hle c). pose proof (proj1 (candidates_le c r)). lia. }
  assert (length (NewsMonitor.selected NewsMonitor.Conf r f) ≤ 2) as H2.
  { pose proof (Hle NewsMonitor.Conf).
    pose proof (proj2 (candidates_le NewsMonitor.Conf r) eq_refl). lia. }
  simpl. rewrite !take_ge by (done || lia). done.
Qed.

Lemma news_digest_sections_witness :
  NewsMonitor.blog
    (NewsMonitor.format_message Further.blog_run [] [] []
       (NewsMonitor.selected NewsMonitor.Blog Further.blog_run NewsMonitor.Absent))
  = take 3 (NewsMonitor.selected NewsMonitor.Blog Further.blog_run NewsMonitor.Absent).
Proof.
  apply (news_digest_sections Further.blog_run NewsMonitor.Absent).
  vm_compute. left.
Defined.

(** When a run finds more than three new blog posts, the posts after the
    third are written to the tracking file with the others, yet the digest of
    the run does not show them (the posts having different addresses), and no
    digest of a later run does. *)
Theorem blog_posts_after_the_third r f x :
  x ∈ drop 3 (NewsMonitor.selected NewsMonitor.Blog r f) →
  NoDup (NewsMonitor.url <$> NewsMonitor.selected NewsMonitor.Blog r f) →
  NewsMonitor.url x
  ∈ NewsMonitor.tracked_in NewsMonitor.Blog (NewsMonitor.file_after f r)
  ∧ (∀ m, m ∈ NewsMonitor.digests_of r f →
          ¬ NewsMonitor.shows NewsMonitor.Blog m (NewsMonitor.url x))
  ∧ (∀ rs r' m,
       m ∈ NewsMonitor.digests_of r'
             (NewsMonitor.file_after_all (NewsMonitor.file_after f r) rs) →
       ¬ NewsMonitor.shows NewsMonitor.Blog m (NewsMonitor.url x)).
Proof.
  intros Hx Hnd.
  assert (NewsMonitor.url x
          ∈ NewsMonitor.tracked_in NewsMonitor.Blog (NewsMonitor.file_after f r))
    as Ht.
  { apply news_tracked_in_file_after. right. apply list_elem_of_fmap.
    exists x. split; [done|]. eapply elem_of_sublist; [done|apply sublist_drop]. }
  split; [done|]. split.
  - intros m ->%news_digest_is. unfold NewsMonitor.shows. simpl.
    rewrite <- (take_drop 3 (NewsMonitor.selected NewsMonitor.Blog r f)),
      fmap_app in Hnd.
    apply NoDup_app in Hnd as (_ & Hnd & _).
    intros Hs. apply (Hnd _ Hs). apply list_elem_of_fmap. eauto.
  - intros rs r' m Hm Hs.
    destruct (news_shows_selected _ _ _ _ _ Hm Hs) as (y & Hy & E).
    apply news_elem_of_selected in Hy as [Hy _]. apply Hy. rewrite E.
    by apply news_tracked_in_grows.
Qed.

(** The run with four new posts: the fourth is in the file after the run. *)
Lemma blog_posts_after_the_third_witness :
  "https://lilianweng.github.io/posts/2024-11-28-reward/"
  ∈ NewsMonitor.tracked_in NewsMonitor.Blog
      (NewsMonitor.file_after NewsMonitor.Absent Further.blog_run).
Proof.
  apply (blog_posts_after_the_third Further.blog_run NewsMonitor.Absent
           (NewsMonitor.Article "Lilac Weng" "Reward hacking of agents"
              "https://lilianweng.github.io/posts/2024-11-28-reward/")).
  - vm_compute. left.
  - apply (bool_decide_unpack _). vm_compute. exact I.
Defined.

(** A run of [news_monitor.py] appends to the list of each category the
    addresses of the items it selected there, in their order, and leaves the
    rest of the list as it was; the list of a category without a new item is
    not touched. *)
Theorem news_tracking_appends c r f :
  NewsMonitor.tracked_in c (NewsMonitor.file_after f r)
  = NewsMonitor.tracked_in c f
    ++ (NewsMonitor.url <$> NewsMonitor.selected c r f).
Proof.
  rewrite news_file_after_spec, news_selected_spec.
  destruct (NewsMonitor.found r f) as [[data s]|e] eqn:Ef; simpl;
    [|by rewrite app_nil_r].
  apply found_return in Ef as (Hf & -> & _).
  destruct (NewsMonitor.new_hn s ++ NewsMonitor.new_gh s
            ++ NewsMonitor.new_conf s ++ NewsMonitor.new_blog s) eqn:E.
  - by rewrite (part_nil c s E), fmap_nil, app_nil_r.
  - simpl. by rewrite tracked_of_updated, tracked_in_loaded.
Qed.

Lemma new_items_raise key tracked items e :
  NewsMonitor.new_items key tracked items = Raise e ↔
  tracked = None ∧ items ≠ [] ∧ e = KeyError key.
Proof.
  destruct items as [|x items], tracked as [seen|]; simpl; naive_solver.
Qed.

Lemma news_exec_result r f :
  (NewsMonitor.exec r f).2
  = match NewsMonitor.found r f with
    | Return _ => Return ()
    | Raise e => Raise e
    end.
Proof.
  destruct (news_exec_spec r f) as (evs & _ & ->).
  destruct (NewsMonitor.found r f) as [[data s]|e]; [|done].
  by destruct (NewsMonitor.new_hn s ++ NewsMonitor.new_gh s
               ++ NewsMonitor.new_conf s ++ NewsMonitor.new_blog s).
Qed.

Lemma found_missing_key r data c :
  c ≠ NewsMonitor.Blog → Further.list_of c data = None →
  NewsMonitor.candidates c r ≠ [] →
  ∃ c', c' ≠ NewsMonitor.Blog ∧ Further.list_of c' data = None
        ∧ NewsMonitor.candidates c' r ≠ []
        ∧ NewsMonitor.found r (NewsMonitor.Json data)
          = Raise (KeyError (Further.key_of c')).
Proof.
  intros Hc Hl Hi. unfold NewsMonitor.found. simpl.
  destruct (NewsMonitor.new_items "tracked_hn" _ _) as [a|e1] eqn:Ea; simpl.
  2: { apply new_items_raise in Ea as (? & ? & ->). by exists NewsMonitor.HN. }
  destruct (NewsMonitor.new_items "tracked_gh" _ _) as [b|e2] eqn:Eb; simpl.
  2: { apply new_items_raise in Eb as (? & ? & ->). by exists NewsMonitor.GH. }
  destruct (NewsMonitor.new_items "tracked_conf" _ _) as [d|e3] eqn:Ed; simpl.
  2: { apply new_items_raise in Ed as (? & ? & ->). by exists NewsMonitor.Conf. }
  exfalso. destruct c; simpl in Hl; [| | |done].
  - assert (NewsMonitor.new_items "tracked_hn" (NewsMonitor.tracked_hn data)
              (NewsMonitor.candidates NewsMonitor.HN r)
            = Raise (KeyError "tracked_hn")) as H
      by (by apply new_items_raise).
    congruence.
  - assert (NewsMonitor.new_items "tracked_gh" (NewsMonitor.tracked_gh data)
              (NewsMonitor.candidates NewsMonitor.GH r)
            = Raise (KeyError "tracked_gh")) as H
      by (by apply new_items_raise).
    congruence.
  - assert (NewsMonitor.new_items "tracked_conf" (NewsMonitor.tracked_conf data)
              (NewsMonitor.candidates NewsMonitor.Conf r)
            = Raise (KeyError "tracked_conf")) as H
      by (by apply new_items_raise).
    congruence.
Qed.

(** A tracking file that is a JSON object of lists without the key of the
    stories, of the repositories or of the conferences: a run in which the
    parser of that category returns an item raises [KeyError] when it
    filters the items, for a key that is missing and whose category has an
    item.  It has then posted nothing and written nothing, so the
    file is as it was and the next run that finds an item there raises
    again. *)
Theorem missing_key_raises r data c :
  c ≠ NewsMonitor.Blog → Further.list_of c data = None →
  NewsMonitor.candidates c r ≠ [] →
  let f := NewsMonitor.Json data in
  (∃ c', c' ≠ NewsMonitor.Blog ∧ Further.list_of c' data = None
         ∧ NewsMonitor.candidates c' r ≠ []
         ∧ (NewsMonitor.exec r f).2 = Raise (KeyError (Further.key_of c')))
  ∧ Further.news_posts (NewsMonitor.out (NewsMonitor.exec r f).1) = []
  ∧ NewsMonitor.digests_of r f = []
  ∧ NewsMonitor.writes (NewsMonitor.out (NewsMonitor.exec r f).1) = []
  ∧ NewsMonitor.file_after f r = f.
Proof.
  intros Hc Hl Hi f.
  destruct (found_missing_key r data c Hc Hl Hi) as (c' & Hc' & Hl' & Hi' & E).
  split.
  { exists c'. split; [done|]. split; [done|]. split; [done|].
    subst f. by rewrite news_exec_result, E. }
  subst f.
  rewrite news_digests_of_spec, news_writes_spec, news_file_after_spec, E.
  split; [|done].
  destruct (news_exec_spec r (NewsMonitor.Json data)) as (evs & Hq & ->).
  rewrite E. simpl. by apply quiet_no_post.
Qed.

(** With a story to report and a file without the key of the stories, the
    run raises. *)
Lemma missing_key_raises_witness :
  NewsMonitor.file_after Further.file_without_hn (Samples.news_run None)
  = Further.file_without_hn.
Proof.
  apply (missing_key_raises (Samples.news_run None) _ NewsMonitor.HN).
  - done.
  - reflexivity.
  - by vm_compute.
Defined.

(** ** paper_tracker_v2.py *)

Lemma selected_eq r :
  PaperTrackerV2.selected r
  = take PaperTrackerV2.max_papers
      (PaperTrackerV2.unique ∅
         (sort_by key_lt PaperTrackerV2.sort_key (PaperTrackerV2.collected r))).
Proof.
  unfold PaperTrackerV2.selected, PaperTrackerV2.collected.
  rewrite (surjective_pairing (PaperTrackerV2.fetch_arxiv_papers r [])),
    fetch_arxiv_papers_spec.
  rewrite (surjective_pairing (PaperTrackerV2.collect r _ [])).
  by destruct (PaperTrackerV2.collect r PaperTrackerV2.arxiv_categories []).2.
Qed.

Lemma unique_covers seen papers p :
  p ∈ papers →
  PaperTrackerV2.id p ∈ seen
  ∨ PaperTrackerV2.id p ∈ PaperTrackerV2.id <$> PaperTrackerV2.unique seen papers.
Proof.
  revert seen. induction papers as [|x l IH]; intros seen; [by intros ?%elem_of_nil|].
  intros [->|Hp]%elem_of_cons; simpl.
  - destruct (decide (PaperTrackerV2.id x ∈ seen)); [by left|].
    right. rewrite fmap_cons. left.
  - destruct (decide (PaperTrackerV2.id x ∈ seen)); [by apply IH|].
    destruct (IH ({[PaperTrackerV2.id x]} ∪ seen) Hp) as [H|H].
    + apply elem_of_union in H as [H|H]; [|by left].
      apply elem_of_singleton in H. right. rewrite fmap_cons, H. left.
    + right. rewrite fmap_cons. by right.
Qed.

Lemma unique_keeps_first (R : relation PaperTrackerV2.paper) seen papers q p :
  (∀ x, R x x) → StronglySorted R papers →
  q ∈ PaperTrackerV2.unique seen papers → p ∈ papers →
  PaperTrackerV2.id p = PaperTrackerV2.id q → R q p.
Proof.
  intros Hrefl. revert seen.
  induction papers as [|x l IH]; intros seen Hs Hq Hp E;
    [by apply elem_of_nil in Hp|].
  apply StronglySorted_inv in Hs as [Hs Hx]. simpl in Hq.
  destruct (decide (PaperTrackerV2.id x ∈ seen)) as [Hin|Hin].
  - apply elem_of_cons in Hp as [->|Hp]; [|by eapply IH].
    apply unique_NoDup in Hq. congruence.
  - apply elem_of_cons in Hq as [->|Hq].
    + apply elem_of_cons in Hp as [->|Hp]; [done|].
      by eapply Forall_forall in Hx.
    + apply elem_of_cons in Hp as [->|Hp]; [|by eapply IH].
      apply unique_NoDup in Hq. set_solver.
Qed.

(** The papers [fetch_arxiv_papers] returns have different identifiers and
    are at most 20.  Of the papers collected under one identifier it keeps
    the one ranked first, so none of a higher score; and an identifier that
    was collected is dropped only when 20 papers are returned. *)
Theorem selected_distinct_and_capped r :
  NoDup (PaperTrackerV2.id <$> PaperTrackerV2.selected r)
  ∧ length (PaperTrackerV2.selected r) ≤ 20
  ∧ (∀ q p,
       q ∈ PaperTrackerV2.selected r → p ∈ PaperTrackerV2.collected r →
       PaperTrackerV2.id p = PaperTrackerV2.id q →
       PaperTrackerV2.oldest_first q p)
  ∧ (∀ p,
       p ∈ PaperTrackerV2.collected r →
       PaperTrackerV2.id p ∈ PaperTrackerV2.id <$> PaperTrackerV2.selected r
       ∨ length (PaperTrackerV2.selected r) = 20).
Proof.
  rewrite selected_eq.
  set (sorted := sort_by key_lt PaperTrackerV2.sort_key (PaperTrackerV2.collected r)).
  split; [|split; [|split]].
  - rewrite fmap_take. eapply sublist_NoDup; [|apply sublist_take].
    apply unique_NoDup.
  - rewrite length_take. unfold PaperTrackerV2.max_papers. lia.
  - intros q p Hq Hp E.
    eapply elem_of_sublist in Hq; [|apply sublist_take].
    assert (in_order key_lt PaperTrackerV2.sort_key q p) as H.
    { eapply (unique_keeps_first _ ∅ sorted); try done.
      - intros x. apply key_lt_irrefl.
      - apply sort_by_sorted; [apply key_lt_asym|apply key_lt_cotrans].
      - by apply elem_of_sort_by. }
    apply key_lt_false in H as [H|[H ?]]; unfold PaperTrackerV2.oldest_first;
      simpl in *; [left; lia|right; split; [lia|done]].
  - intros p Hp.
    destruct (decide (length (PaperTrackerV2.unique ∅ sorted)
                      ≤ PaperTrackerV2.max_papers)) as [Hle|Hgt].
    + left. rewrite take_ge by done.
      destruct (unique_covers ∅ sorted p) as [H|H]; [by apply elem_of_sort_by| |done].
      by apply not_elem_of_empty in H.
    + right. rewrite length_take. unfold PaperTrackerV2.max_papers in *. lia.
Qed.

(** The paper listed in two categories is returned once, in the copy ranked
    first. *)
Lemma selected_distinct_and_capped_witness :
  "2601.00001"
  ∈ PaperTrackerV2.id <$> PaperTrackerV2.selected Further.cross_listed_run
  ∨ length (PaperTrackerV2.selected Further.cross_listed_run) = 20.
Proof.
  apply (proj2 (proj2 (proj2 (selected_distinct_and_capped Further.cross_listed_run)))
           {| PaperTrackerV2.id := "2601.00001";
              PaperTrackerV2.title := "agent one, revised";
              PaperTrackerV2.summary := "";
              PaperTrackerV2.authors := ["A. Author"];
              PaperTrackerV2.published := "2026-01-03";
              PaperTrackerV2.url := "https://arxiv.org/abs/2601.00001";
              PaperTrackerV2.raw_score := 1;
              PaperTrackerV2.category := "cs.LG" |}).
  vm_compute. right. left.
Defined.

Lemma paper_of_id c e p :
  PaperTrackerV2.paper_of c e = Some p →
  (∃ raw_id,
     PaperTrackerV2.id_match e = Some raw_id
     ∧ PaperTrackerV2.id p
       = first_piece (split "v" (last_piece (split "/abs/" raw_id))))
  ∧ PaperTrackerV2.url p = "https://arxiv.org/abs/" +:+ PaperTrackerV2.id p.
Proof.
  unfold PaperTrackerV2.paper_of.
  destruct (PaperTrackerV2.id_match e) as [raw_id|]; [|done].
  case_bool_decide as Hs; [|done]. intros [= <-]. simpl. eauto.
Qed.

(** A paper built from a feed entry: the entry has an identifier, the paper
    carries the category it was fetched for and a link built from its
    identifier, at most 400 characters of summary and three authors, a score
    between 1 and 15, and the title or the date the script puts in when the
    entry has none. *)
Theorem paper_of_fields c e p :
  PaperTrackerV2.paper_of c e = Some p →
  (∃ raw_id,
     PaperTrackerV2.id_match e = Some raw_id
     ∧ PaperTrackerV2.id p
       = first_piece (split "v" (last_piece (split "/abs/" raw_id))))
  ∧ PaperTrackerV2.url p = "https://arxiv.org/abs/" +:+ PaperTrackerV2.id p
  ∧ PaperTrackerV2.category p = c
  ∧ String.length (PaperTrackerV2.summary p) ≤ 400
  ∧ length (PaperTrackerV2.authors p) ≤ 3
  ∧ 1 ≤ PaperTrackerV2.raw_score p ≤ 15
  ∧ (PaperTrackerV2.title_match e = None → PaperTrackerV2.title p = "No title")
  ∧ (PaperTrackerV2.published_match e = None →
     PaperTrackerV2.published p = "2026-01-01").
Proof.
  unfold PaperTrackerV2.paper_of.
  destruct (PaperTrackerV2.id_match e) as [raw_id|]; [|done].
  case_bool_decide as Hs; [|done]. intros [= <-]. simpl.
  split; [eauto|]. split; [done|]. split; [done|].
  split; [apply length_slice_to|].
  split; [rewrite length_take; lia|].
  split; [split; [lia|apply (count_keywords_le PaperTrackerV2.keywords)]|].
  split; by intros ->.
Qed.

Lemma paper_of_fields_witness :
  PaperTrackerV2.category Samples.paper_one = "cs.AI".
Proof.
  apply (paper_of_fields "cs.AI"
           (Samples.feed_entry "2601.00001v1" "agent one" "2026-01-02")
           Samples.paper_one).
  reflexivity.
Defined.

Lemma rev_app_rev_app s a b :
  String.rev_app (String.rev_app s a) b = String.rev_app a (s +:+ b).
Proof. revert a. induction s as [|c s IH]; intros a; [done|]. apply IH. Qed.

Lemma append_empty s : s +:+ "" = s.
Proof. induction s as [|c s IH]; [done|]. simpl. unfold String.append. fold String.append. by rewrite IH. Qed.

Lemma rev_rev_app s cur : String.rev (String.rev_app s cur) = String.rev_app cur s.
Proof. unfold String.rev. by rewrite rev_app_rev_app, append_empty. Qed.

Lemma split_go_step sep cur c s :
  split_go sep 0 cur (String c s)
  = if String.prefix sep (String c s)
    then String.rev cur :: split_go sep (String.length sep - 1) "" s
    else split_go sep 0 (String c cur) s.
Proof. done. Qed.

Lemma prefix_other a p b s :
  a ≠ b → String.prefix (String a p) (String b s) = false.
Proof.
  intros Hab. change (String.prefix (String a p) (String b s))
    with (if ascii_dec a b then String.prefix p s else false).
  by destruct (ascii_dec a b).
Qed.

Lemma prefix_char c s : String.prefix (String c "") (String c s) = true.
Proof.
  change (String.prefix (String c "") (String c s))
    with (if ascii_dec c c then String.prefix "" s else false).
  destruct (ascii_dec c c); [by destruct s|done].
Qed.

Lemma lacks_cons c d s :
  Further.lacks c (String d s) = true ↔ c ≠ d ∧ Further.lacks c s = true.
Proof.
  change (Further.lacks c (String d s))
    with (negb (is_char c d) && Further.lacks c s).
  rewrite andb_true_iff, negb_true_iff. unfold is_char.
  by rewrite bool_decide_eq_false.
Qed.

Lemma split_go_no_slash cur t :
  Further.lacks "/" t = true →
  split_go "/abs/" 0 cur t = [String.rev (String.rev_app t cur)].
Proof.
  revert cur. induction t as [|d t IH]; intros cur; [done|].
  intros [Hd Ht]%lacks_cons.
  rewrite split_go_step, prefix_other by done. by apply IH.
Qed.

Lemma split_go_first c cur n rest :
  Further.lacks c n = true →
  split_go (String c "") 0 cur (n +:+ String c rest)
  = String.rev (String.rev_app n cur) :: split_go (String c "") 0 "" rest.
Proof.
  revert cur. induction n as [|d n IH]; intros cur.
  - intros _. change ("" +:+ String c rest) with (String c rest).
    by rewrite split_go_step, prefix_char.
  - intros [Hd Hn]%lacks_cons.
    change (String d n +:+ String c rest) with (String d (n +:+ String c rest)).
    rewrite split_go_step, prefix_other by done. by apply IH.
Qed.

Lemma split_go_none c cur s :
  Further.lacks c s = true →
  split_go (String c "") 0 cur s = [String.rev (String.rev_app s cur)].
Proof.
  revert cur. induction s as [|d s IH]; intros cur; [done|].
  intros [Hd Hs]%lacks_cons.
  rewrite split_go_step, prefix_other by done. by apply IH.
Qed.

Lemma lacks_app c s t :
  Further.lacks c (s +:+ t) = Further.lacks c s && Further.lacks c t.
Proof.
  induction s as [|d s IH]; [done|].
  change (String d s +:+ t) with (String d (s +:+ t)).
  change (Further.lacks c (String d (s +:+ t)))
    with (negb (is_char c d) && Further.lacks c (s +:+ t)).
  change (Further.lacks c (String d s))
    with (negb (is_char c d) && Further.lacks c s).
  by rewrite IH, andb_assoc.
Qed.

(** The address of the feed, split at /abs/: what precedes it, and the
    pieces of what follows. *)
Lemma split_arxiv_address t :
  split "/abs/" ("http://arxiv.org/abs/" +:+ t)
  = "http://arxiv.org" :: split_go "/abs/" 0 "" t.
Proof.
  unfold split. cbv [String.append].
  do 16 (rewrite split_go_step;
         match goal with
         | |- context [if ?b then _ else _] =>
             replace b with false by reflexivity
         end).
  rewrite split_go_step.
  match goal with
  | |- context [if ?b then _ else _] => replace b with true by (by destruct t)
  end.
  reflexivity.
Qed.

Lemma paper_id_of_address t :
  Further.lacks "/" t = true →
  last_piece (split "/abs/" ("http://arxiv.org/abs/" +:+ t)) = t.
Proof.
  intros Ht. rewrite split_arxiv_address, split_go_no_slash by done.
  unfold last_piece. simpl. by rewrite rev_rev_app.
Qed.

(** The identifier of a paper is the number of its arXiv address without
    the version: for an entry whose [<id>] is the address of version [k] of
    the paper [n], the paper gets the identifier [n], so that two versions of
    a paper count as one paper; an address without a version gives [n] as
    well. *)
Theorem paper_id_drops_version c e n p :
  Further.lacks "/" n = true → Further.lacks "v" n = true →
  PaperTrackerV2.paper_of c e = Some p →
  (PaperTrackerV2.id_match e = Some ("http://arxiv.org/abs/" +:+ n)
   ∨ ∃ k, Further.lacks "/" k = true
          ∧ PaperTrackerV2.id_match e
            = Some ("http://arxiv.org/abs/" +:+ n +:+ "v" +:+ k)) →
  PaperTrackerV2.id p = n
  ∧ PaperTrackerV2.url p = "https://arxiv.org/abs/" +:+ n.
Proof.
  intros Hs Hv Hp He.
  apply paper_of_id in Hp as ((raw & Hraw & Hid) & Hurl).
  assert (PaperTrackerV2.id p = n) as E; [|by rewrite Hurl, E].
  rewrite Hid. clear Hid Hurl.
  destruct He as [He|(k & Hk & He)]; rewrite He in Hraw; simplify_eq.
  - rewrite paper_id_of_address by done.
    unfold split. rewrite split_go_none by done.
    unfold first_piece. simpl. by rewrite rev_rev_app.
  - rewrite paper_id_of_address by (by rewrite !lacks_app, Hs, Hk).
    change (n +:+ "v" +:+ k) with (n +:+ String "v" k).
    unfold split. rewrite split_go_first by done.
    unfold first_piece. simpl. by rewrite rev_rev_app.
Qed.

Lemma paper_id_drops_version_witness :
  PaperTrackerV2.id Samples.paper_one = "2601.00001".
Proof.
  apply (paper_id_drops_version "cs.AI"
           (Samples.feed_entry "2601.00001v1" "agent one" "2026-01-02")
           "2601.00001" Samples.paper_one).
  - reflexivity.
  - reflexivity.
  - reflexivity.
  - right. exists "1". split; reflexivity.
Defined.


Lemma collect_result r categories :
  ((∃ papers, (PaperTrackerV2.collect r categories []).2 = Return papers)
   ∧ ∀ c, c ∈ categories → PaperTrackerV2.feed r c ≠ PaperTrackerV2.TimedOut)
  ∨ ((PaperTrackerV2.collect r categories []).2 = Raise TimeoutExpired
     ∧ ∃ c, c ∈ categories ∧ PaperTrackerV2.feed r c = PaperTrackerV2.TimedOut).
Proof.
  induction categories as [|c cs IH]; simpl.
  - left. split; [eauto|]. by intros c ?%elem_of_nil.
  - destruct (PaperTrackerV2.feed r c) as [|entries] eqn:E.
    + right. split; [done|]. exists c. split; [left|done].
    + unfold bind. rewrite (collect_silent r cs []).
      destruct IH as [[[papers ->] Hn]|[-> (c' & Hc & Ht)]]; simpl.
      * left. split; [eauto|].
        intros c' [->|Hc]%elem_of_cons; [congruence|by apply Hn].
      * right. split; [done|]. exists c'. split; [by right|done].
Qed.

Lemma fetch_returns r :
  (∀ c, c ∈ PaperTrackerV2.arxiv_categories →
        PaperTrackerV2.feed r c ≠ PaperTrackerV2.TimedOut) →
  (PaperTrackerV2.fetch_arxiv_papers r []).2 = Return (PaperTrackerV2.selected r).
Proof.
  intros Hn. unfold PaperTrackerV2.selected.
  rewrite (surjective_pairing (PaperTrackerV2.fetch_arxiv_papers r [])).
  rewrite fetch_arxiv_papers_spec.
  destruct (collect_result r PaperTrackerV2.arxiv_categories)
    as [[[papers ->] _]|[_ (c & Hc & Ht)]]; [done|].
  by apply Hn in Hc.
Qed.

(** The request of a category that runs out of time ends the run with
    [TimeoutExpired], which nothing catches: the run has printed its banner,
    the rule and the line of its first step and nothing else, so the papers
    of the categories fetched before are lost and nothing is posted.  The
    call of the reviewer is guarded: when every category is
    fetched and that call raises or gives no object, the run ends without an
    exception and, if it selected a paper, has posted the briefing made
    without a review. *)
Theorem timeout_loses_the_run r :
  ((∃ c, c ∈ PaperTrackerV2.arxiv_categories
         ∧ PaperTrackerV2.feed r c = PaperTrackerV2.TimedOut) →
   PaperTrackerV2.exec r
   = ([PaperTrackerV2.Print (PaperTrackerV2.Banner (PaperTrackerV2.now r));
       PaperTrackerV2.Print PaperTrackerV2.Rule;
       PaperTrackerV2.Print (PaperTrackerV2.Step 1)], Raise TimeoutExpired)
   ∧ Further.feed_posts (PaperTrackerV2.exec r).1 = []
   ∧ PaperTrackerV2.digests_of r = [])
  ∧ ((∀ c, c ∈ PaperTrackerV2.arxiv_categories →
           PaperTrackerV2.feed r c ≠ PaperTrackerV2.TimedOut) →
     PaperTrackerV2.claude r = PaperTrackerV2.Failed
     ∨ PaperTrackerV2.claude r = PaperTrackerV2.Nothing →
     (PaperTrackerV2.exec r).2 = Return ()
     ∧ Further.feed_posts (PaperTrackerV2.exec r).1
       = match PaperTrackerV2.selected r with
         | [] => []
         | papers => [PaperTrackerV2.format_briefing r papers None]
         end).
Proof.
  split.
  - intros (c & Hc & Ht). unfold PaperTrackerV2.digests_of.
    by rewrite (timeout_aborts r c Hc Ht).
  - intros Hn Hc. pose proof (fetch_returns r Hn) as E.
    unfold PaperTrackerV2.exec, PaperTrackerV2.main, bind,
      PaperTrackerV2.print, PaperTrackerV2.emit. simpl.
    rewrite fetch_arxiv_papers_silent, E. simpl.
    destruct (PaperTrackerV2.selected r) as [|p l]; [done|].
    unfold PaperTrackerV2.review_with_claude_code,
      PaperTrackerV2.send_to_telegram, bind,
      PaperTrackerV2.print, PaperTrackerV2.emit.
    destruct Hc as [-> | ->]; simpl; by destruct (PaperTrackerV2.delivered r).
Qed.

Lemma timeout_loses_the_run_witness :
  PaperTrackerV2.digests_of Further.slow_run = []
  ∧ (PaperTrackerV2.exec Samples.feed_run).2 = Return ().
Proof.
  split.
  - apply (proj1 (timeout_loses_the_run Further.slow_run)).
    exists "cs.LG". split; [|reflexivity].
    vm_compute. right. left.
  - apply (proj2 (timeout_loses_the_run Samples.feed_run)).
    + intros c _. simpl. by case_bool_decide.
    + by right.
Defined.



Lemma digest_is_briefing r b :
  b ∈ PaperTrackerV2.digests_of r →
  PaperTrackerV2.selected r ≠ []
  ∧ b = PaperTrackerV2.format_briefing r (PaperTrackerV2.selected r)
          (PaperTrackerV2.review_result_of r).
Proof.
  rewrite v2_digests_of_spec.
  destruct (PaperTrackerV2.selected r) as [|p ps]; [by intros ?%elem_of_nil|].
  simpl. intros Hb. split; [done|].
  destruct (PaperTrackerV2.delivered r); set_solver.
Qed.



Lemma review_of_none rs i :
  (∀ x, x ∈ rs → PaperTrackerV2.review_id x ≠ i) →
  PaperTrackerV2.review_of rs i = None.
Proof.
  intros H. unfold PaperTrackerV2.review_of.
  replace (filter (λ x, PaperTrackerV2.review_id x = i) rs) with (@nil PaperTrackerV2.review);
    [done|].
  symmetry. apply elem_of_nil_inv. intros x (Hx & Hin)%list_elem_of_filter.
  by apply H in Hin.
Qed.

(** A paper the answer of the reviewer has no review of is not left out of
    the briefing: it is shown as a paper to read maybe, with one star and
    neither tags nor insight. *)
Theorem unreviewed_paper_is_maybe r a p b :
  PaperTrackerV2.claude r = PaperTrackerV2.Answer a →
  PaperTrackerV2.has_key a = true →
  (∀ x, x ∈ default [] (PaperTrackerV2.reviews a) →
        PaperTrackerV2.review_id x ≠ PaperTrackerV2.id p) →
  p ∈ PaperTrackerV2.selected r →
  b ∈ PaperTrackerV2.digests_of r →
  PaperTrackerV2.Reviewed PaperTrackerV2.OneStar
    (slice_to 70 (PaperTrackerV2.title p)) (PaperTrackerV2.published p)
    (PaperTrackerV2.category p) "" "" (PaperTrackerV2.url p)
  ∈ PaperTrackerV2.lines b.
Proof.
  intros Hc Ha Hr Hp (_ & ->)%digest_is_briefing.
  unfold PaperTrackerV2.review_result_of, PaperTrackerV2.format_briefing.
  rewrite Hc, Ha. cbn [PaperTrackerV2.lines].
  apply list_elem_of_fmap. exists p. split; [|done].
  unfold PaperTrackerV2.reviewed_line. by rewrite review_of_none.
Qed.

Lemma unreviewed_paper_is_maybe_witness :
  PaperTrackerV2.Reviewed PaperTrackerV2.OneStar
    "agent one" "2026-01-02" "cs.AI" "" "" "https://arxiv.org/abs/2601.00001"
  ∈ PaperTrackerV2.lines
      (PaperTrackerV2.format_briefing Further.reviewed_run
         [Samples.paper_two; Samples.paper_one]
         (PaperTrackerV2.review_result_of Further.reviewed_run)).
Proof.
  eapply (unreviewed_paper_is_maybe Further.reviewed_run _ Samples.paper_one).
  - reflexivity.
  - reflexivity.
  - intros x [->|Hx%elem_of_nil]%elem_of_cons; [|done]. by vm_compute.
  - vm_compute. right. left.
  - vm_compute. left.
Defined.
